(** * Antenna: the breakpad submission resource

    A shallow embedding of [antenna/breakpad_resource.py]: the save queue,
    the payload parser [extract_payload], the throttle-result adapter
    [get_throttle_result], the POST handler [on_post] and the save workers
    [process_queue] / [save_crash_to_storage], followed by the properties
    proved about them.

    Python values are kept as the code has them: dictionaries are finite
    maps keyed by strings, byte strings are lists of bytes, exceptions are
    explicit results, and the calls the resource makes on its collaborators
    (metrics client, crash storage) are recorded in the order they happen. *)

From Stdlib Require Import ZArith Lia Ascii String.
From Stdlib.Strings Require Import Byte.
From stdpp Require Import base option strings gmap list pretty.

Local Open Scope Z_scope.

(** ** Python strings *)

Module PyStr.

(** A text is a string of code points below 256, as the WSGI environment
    delivers its headers.  [isspace] holds of the code points for which
    [str.isspace] does: 9 to 13, 28 to 32, U+0085 and U+00A0; [str.strip()]
    with no argument removes them from both ends. *)
Definition isspace (c : ascii) : bool :=
  let n := nat_of_ascii c in
  ((9 <=? n) && (n <=? 13) || (28 <=? n) && (n <=? 32) ||
   (n =? 133) || (n =? 160))%nat.

(** The white space of C: 9 to 13 and 32.  It is what [int()] skips around
    the digits of a byte string or an ASCII text. *)
Definition c_isspace (c : ascii) : bool :=
  let n := nat_of_ascii c in
  ((9 <=? n) && (n <=? 13) || (n =? 32))%nat.

(** Before it reads a text, [int()] turns the white space beyond ASCII,
    U+0085 and U+00A0, into blanks. *)
Fixpoint spaces_to_ascii (s : string) : string :=
  match s with
  | EmptyString => EmptyString
  | String c s' =>
      let n := nat_of_ascii c in
      String (if ((n =? 133) || (n =? 160))%nat then " "%char else c)
             (spaces_to_ascii s')
  end.

Fixpoint lstrip_by (p : ascii -> bool) (s : string) : string :=
  match s with
  | EmptyString => EmptyString
  | String c s' => if p c then lstrip_by p s' else s
  end.

Fixpoint rstrip_by (p : ascii -> bool) (s : string) : string :=
  match s with
  | EmptyString => EmptyString
  | String c s' =>
      match rstrip_by p s' with
      | EmptyString => if p c then EmptyString else String c EmptyString
      | r => String c r
      end
  end.

Definition strip_by (p : ascii -> bool) (s : string) : string :=
  rstrip_by p (lstrip_by p s).

(** [s.strip()] *)
Definition strip (s : string) : string := strip_by isspace s.

(** [s.strip(c)] for a one-character argument *)
Definition strip_char (c : ascii) (s : string) : string :=
  strip_by (Ascii.eqb c) s.

(** The text before and after the first occurrence of [sep], if any. *)
Fixpoint partition (sep : ascii) (s : string) : option (string * string) :=
  match s with
  | EmptyString => None
  | String c s' =>
      if Ascii.eqb c sep then Some (EmptyString, s')
      else match partition sep s' with
           | Some (a, b) => Some (String c a, b)
           | None => None
           end
  end.

(** [s.split(sep, 1)] *)
Definition split1 (sep : ascii) (s : string) : list string :=
  match partition sep s with
  | Some (a, b) => [a; b]
  | None => [s]
  end.

(** [s.startswith(p)] *)
Definition startswith (s p : string) : bool := String.prefix p s.

Fixpoint remove_char (c : ascii) (s : string) : string :=
  match s with
  | EmptyString => EmptyString
  | String c' s' =>
      if Ascii.eqb c' c then remove_char c s' else String c' (remove_char c s')
  end.

Definition digit_of (c : ascii) : option Z :=
  let n := Z.of_nat (nat_of_ascii c) in
  if ((48 <=? n) && (n <=? 57))%Z then Some (n - 48)%Z else None.

(** Decimal digits, with single underscores allowed between digits. *)
Fixpoint parse_digits (acc : Z) (after_digit : bool) (s : string) : option Z :=
  match s with
  | EmptyString => if after_digit then Some acc else None
  | String c s' =>
      match digit_of c with
      | Some d => parse_digits (10 * acc + d) true s'
      | None =>
          if Ascii.eqb c "_" && after_digit then parse_digits acc false s'
          else None
      end
  end.

(** [int(b)] for the characters of a byte string: the white space of C
    around is dropped, one sign is allowed; [None] stands for
    [ValueError]. *)
Definition parse_int_ascii (s : string) : option Z :=
  match strip_by c_isspace s with
  | String "+" r => parse_digits 0 false r
  | String "-" r => Z.opp <$> parse_digits 0 false r
  | t => parse_digits 0 false t
  end.

(** [int(s)] for a text [s]. *)
Definition parse_int (s : string) : option Z :=
  parse_int_ascii (spaces_to_ascii s).

End PyStr.

(** ** Python byte strings *)

Definition bytes := list byte.

#[global] Instance byte_eq_dec' : EqDecision byte := byte_eq_dec.

Module PyBytes.

Definition to_string (b : bytes) : string :=
  string_of_list_ascii (ascii_of_byte <$> b).

Definition hex_digit (n : N) : ascii :=
  ascii_of_N (if (n <? 10)%N then 48 + n else 87 + n)%N.

Definition hex2 (n : N) : string :=
  String (hex_digit (n / 16)) (String (hex_digit (n mod 16)) EmptyString).

Definition has_byte (c : byte) (b : bytes) : bool :=
  existsb (fun x => bool_decide (x = c)) b.

(** The quote [repr] puts around a byte string: a double quote only when
    the bytes hold a single quote and no double quote. *)
Definition quote_of (b : bytes) : byte :=
  if has_byte x27 b && negb (has_byte x22 b) then x22 else x27.

Definition backslash : ascii := "092"%char.

Definition escaped (c : ascii) : string :=
  String backslash (String c EmptyString).

Definition repr_byte (q c : byte) : string :=
  let n := Byte.to_N c in
  if bool_decide (c = q) || bool_decide (c = x5c)
  then escaped (ascii_of_byte c)
  else if (n =? 9)%N then escaped "t"
  else if (n =? 10)%N then escaped "n"
  else if (n =? 13)%N then escaped "r"
  else if (n <? 32)%N || (127 <=? n)%N then escaped "x" +:+ hex2 n
  else String (ascii_of_byte c) EmptyString.

(** [repr(b)], which is also what ['%s' % b] renders *)
Definition repr (b : bytes) : string :=
  let q := quote_of b in
  let qs := String (ascii_of_byte q) EmptyString in
  "b" +:+ qs +:+ String.concat EmptyString (repr_byte q <$> b) +:+ qs.

Definition remove_nul (b : bytes) : bytes :=
  filter (fun c => c <> x00) b.

End PyBytes.

(** ** Values stored in a raw crash *)

(** A raw crash maps text keys to values.  [VFloat] is a reading of
    [time.time()], kept as a whole number of microseconds; [VDict] is the
    one nested dictionary the resource builds, [dump_checksums]. *)
Inductive value :=
| VStr (s : string)
| VBytes (b : bytes)
| VInt (z : Z)
| VFloat (micros : Z)
| VDict (d : gmap string string).

#[global] Instance value_eq_dec : EqDecision value.
Proof. solve_decision. Defined.

Inductive exn := TypeError | KeyError | ValueError | NotModelled.

#[global] Instance exn_eq_dec : EqDecision exn.
Proof. solve_decision. Defined.

(** The result of a call that may raise. *)
Inductive res (A : Type) :=
| Ok (a : A)
| Raise (e : exn).
Arguments Ok {A} a.
Arguments Raise {A} e.

(** [int(v)] *)
Definition py_int (v : value) : res Z :=
  match v with
  | VStr s => match PyStr.parse_int s with Some z => Ok z | None => Raise ValueError end
  | VBytes b =>
      match PyStr.parse_int_ascii (PyBytes.to_string b) with
      | Some z => Ok z
      | None => Raise ValueError
      end
  | VInt z => Ok z
  | VFloat m => Ok (Z.quot m 1000000)
  | VDict _ => Raise TypeError
  end.

(** ['%s' % v].  The renderings of a float and of a dictionary are outside
    the model. *)
Definition percent_s (v : value) : res string :=
  match v with
  | VStr s => Ok s
  | VBytes b => Ok (PyBytes.repr b)
  | VInt z => Ok (pretty z)
  | VFloat _ | VDict _ => Raise NotModelled
  end.

(** Modelled from the spec: [antenna.util.de_null] is not part of this file;
    the specification gives it as removing every U+0000 from a text value.
    For a byte string the model removes the zero bytes in the same way. *)
Definition de_null_str (s : string) : string := PyStr.remove_char "000" s.

(** ** Crash reports and the save queue *)

Record CrashReport := mkCrashReport {
  raw_crash : gmap string value;
  dumps : gmap string bytes;
  crash_id : value
}.

#[global] Instance CrashReport_eq_dec : EqDecision CrashReport.
Proof. solve_decision. Defined.

(** [class SaveQueue]: a Python list used as a FIFO. *)
Module SaveQueue.
Section Queue.
Context {A : Type}.

Definition t := list A.

Definition init : t := [].

(** [__len__] *)
Definition len (q : t) : Z := Z.of_nat (length q).

(** [add]: [self._queue.append(item)] *)
Definition add (q : t) (item : A) : t := q ++ [item].

(** [next]: [self._queue.pop(0)] when the list is not empty, else [None] *)
Definition next (q : t) : option A * t :=
  match q with
  | item :: q' => (Some item, q')
  | [] => (None, q)
  end.
End Queue.
Arguments t : clear implicits.
End SaveQueue.

(** [positive_int]: the configuration parser of [concurrent_saves]. *)
Definition positive_int (val : value) : res Z :=
  match py_int val with
  | Ok n => if n <? 1 then Raise ValueError else Ok n
  | Raise e => Raise e
  end.

(** ** Collaborators of the resource *)

(** Calls on the metrics client, in the order they are made. *)
Inductive metric :=
| Incr (name : string)
| Histogram (name : string) (v : Z)
| Timing (name : string) (micros : Z)
| Gauge (name : string) (v : Z).

#[global] Instance metric_eq_dec : EqDecision metric.
Proof. solve_decision. Defined.

(** The throttle results of [antenna.throttler]. *)
Inductive ThrottleResult := ACCEPT | DEFER | REJECT.

#[global] Instance ThrottleResult_eq_dec : EqDecision ThrottleResult.
Proof. solve_decision. Defined.

(** Modelled from the spec: the constants of [antenna.throttler] are not
    part of this file; the specification gives 0 for ACCEPT and 1 for DEFER,
    and REJECT is the third constant, 2. *)
Definition code (d : ThrottleResult) : Z :=
  match d with ACCEPT => 0 | DEFER => 1 | REJECT => 2 end.

(** [RESULT_TO_TEXT] *)
Definition RESULT_TO_TEXT (d : ThrottleResult) : string :=
  match d with ACCEPT => "ACCEPT" | DEFER => "DEFER" | REJECT => "REJECT" end.

(** One entry of [FieldStorage.list]: the name of the part, its declared
    content type and its decoded value, a text or a byte string.  The model
    covers the parts that have a name and carry a text or a byte string; a
    part without a name and a nested multipart part, whose value is a list,
    are outside it. *)
Inductive field_value := FStr (s : string) | FBytes (b : bytes).

Record fs_item := mkItem {
  fs_name : string;
  fs_type : option string;
  fs_value : field_value
}.

(** A UTC instant, in microseconds since the epoch. *)
Definition datetime := Z.

(** What the resource calls outside this file: zlib, cgi, hashlib, the
    throttler and [antenna.util]. *)
Record Collaborators := mkCollaborators {
  (** [zlib.decompress(data, 16 + zlib.MAX_WBITS)]; [None] is [zlib.error] *)
  zlib_decompress : bytes -> option bytes;
  (** [cgi.FieldStorage(fp=data, environ=env, keep_blank_values=1).list] *)
  field_storage : bytes -> gmap string value -> res (list fs_item);
  (** [hashlib.md5(data).hexdigest()] *)
  md5_hexdigest : bytes -> string;
  (** [Throttler.throttle] *)
  throttle : gmap string value -> ThrottleResult * string * Z;
  (** [antenna.util.create_crash_id] *)
  create_crash_id : datetime -> ThrottleResult -> string;
  (** [datetime.isoformat] *)
  isoformat : datetime -> string
}.

(** The fields of a Falcon request the resource reads. *)
Record Request := mkRequest {
  content_type : option string;
  content_length : option Z;
  env : gmap string value;
  stream : bytes
}.

(** [stream.read(n)] *)
Definition stream_read (s : bytes) (n : Z) : bytes :=
  if n <? 0 then s else take (Z.to_nat n) s.

Record Response := mkResponse {
  resp_status : string;
  resp_content_type : string;
  resp_body : string
}.

#[global] Instance Response_eq_dec : EqDecision Response.
Proof. solve_decision. Defined.

(** [falcon.HTTP_200] *)
Definition HTTP_200 : string := "200 OK".

(** The configuration options of the resource. *)
Record Config := mkConfig {
  dump_field : string;
  dump_id_prefix : string;
  concurrent_saves : Z
}.

Definition default_config : Config :=
  {| dump_field := "upload_file_minidump";
     dump_id_prefix := "bp-";
     concurrent_saves := 10 |}.

(** ** Computations that emit metrics and may raise *)

Definition M (A : Type) : Type := list metric * res A.

Definition ret {A} (a : A) : M A := ([], Ok a).

Definition raise {A} (e : exn) : M A := ([], Raise e).

Definition emit (m : metric) : M unit := ([m], Ok tt).

Definition bind {A B} (c : M A) (k : A -> M B) : M B :=
  match c with
  | (out, Ok a) => let '(out', r) := k a in (out ++ out', r)
  | (out, Raise e) => (out, Raise e)
  end.

#[global] Instance M_ret : MRet M := @ret.
#[global] Instance M_bind : MBind M := fun A B k c => bind c k.

Definition lift {A} (r : res A) : M A := ([], r).

(** ** The payload parser *)

Section Resource.

Context (C : Collaborators) (cfg : Config).

(** The test of line 251: the part is a dump when its type is set and
    either starts with [application/octet-stream] or its value is a byte
    string. *)
Definition is_dump (it : fs_item) : bool :=
  match fs_type it with
  | Some ty =>
      negb (bool_decide (ty = EmptyString)) &&
      (PyStr.startswith ty "application/octet-stream" ||
       match fs_value it with FBytes _ => true | FStr _ => false end)
  | None => false
  end.

(** [de_null(fs_item.value)] *)
Definition de_null (v : field_value) : value :=
  match v with
  | FStr s => VStr (de_null_str s)
  | FBytes b => VBytes (PyBytes.remove_nul b)
  end.

(** One turn of the loop over [fs.list] (lines 245-263).  [hashlib.md5]
    raises [TypeError] on a text, and so does storing an item into a
    [dump_checksums] entry that is not a dictionary. *)
Definition add_field (acc : gmap string value * gmap string bytes) (it : fs_item)
  : res (gmap string value * gmap string bytes) :=
  let '(raw_crash, dumps) := acc in
  if bool_decide (fs_name it = "dump_checksums") then Ok (raw_crash, dumps)
  else if is_dump it then
    match fs_value it with
    | FStr _ => Raise TypeError
    | FBytes b =>
        let dumps := <[fs_name it := b]> dumps in
        let checksum := md5_hexdigest C b in
        match raw_crash !! "dump_checksums" with
        | None =>
            Ok (<["dump_checksums" := VDict {[fs_name it := checksum]}]> raw_crash, dumps)
        | Some (VDict d) =>
            Ok (<["dump_checksums" := VDict (<[fs_name it := checksum]> d)]> raw_crash, dumps)
        | Some _ => Raise TypeError
        end
    end
  else Ok (<[fs_name it := de_null (fs_value it)]> raw_crash, dumps).

Fixpoint add_fields (acc : gmap string value * gmap string bytes) (items : list fs_item)
  : res (gmap string value * gmap string bytes) :=
  match items with
  | [] => Ok acc
  | it :: items' =>
      match add_field acc it with
      | Ok acc' => add_fields acc' items'
      | Raise e => Raise e
      end
  end.

(** Lines 236-265: build the [FieldStorage] and walk its list. *)
Definition read_form (data : bytes) (environ : gmap string value)
  : M (gmap string value * gmap string bytes) :=
  fs_list ← lift (field_storage C data environ);
  lift (add_fields (∅, ∅) fs_list).

(** Lines 194-198: the content type is not of the form
    [multipart/form-data; boundary=...]. *)
Definition wrong_content_type (ct : string) : bool :=
  let content_type := PyStr.strip <$> PyStr.split1 ";" ct in
  negb (bool_decide (length content_type = 2%nat)) ||
  negb (bool_decide (content_type !! 0%nat = Some "multipart/form-data")) ||
  negb (match content_type !! 1%nat with
        | Some p => PyStr.startswith p "boundary="
        | None => false
        end).

(** [extract_payload] *)
Definition extract_payload (req : Request)
  : M (gmap string value * gmap string bytes) :=
  match content_type req with
  | None => mret (∅, ∅)
  | Some ct =>
      if bool_decide (ct = EmptyString) then mret (∅, ∅)
      else if wrong_content_type ct then mret (∅, ∅)
      else
        let content_length := default 0 (content_length req) in
        if content_length =? 0 then mret (∅, ∅)
        else if bool_decide (env req !! "HTTP_CONTENT_ENCODING" = Some (VStr "gzip")) then
          emit (Incr "gzipped_crash");;
          match zlib_decompress C (stream_read (stream req) content_length) with
          | None =>
              emit (Incr "bad_gzipped_crash");;
              mret (∅, ∅)
          | Some data =>
              let environ :=
                <["CONTENT_LENGTH" := VStr (pretty (Z.of_nat (length data)))]>
                  (<["ORIG_CONTENT_LENGTH" := VInt content_length]> (env req)) in
              let content_length := Z.of_nat (length data) in
              emit (Histogram "crash_size.compressed" content_length);;
              read_form data environ
          end
        else
          let data := stream_read (stream req) content_length in
          emit (Histogram "crash_size.uncompressed" content_length);;
          read_form data (env req)
  end.

(** ** The throttle-result adapter *)

(** [result not in (ACCEPT, DEFER)] fails for every other integer. *)
Definition saved_decision (result : Z) : option ThrottleResult :=
  if result =? code ACCEPT then Some ACCEPT
  else if result =? code DEFER then Some DEFER
  else None.

(** The body of the [try] of lines 287-295. *)
Definition saved_throttle_result (legacy_processing throttle_rate : value)
  : res (ThrottleResult * string * Z) :=
  match py_int legacy_processing with
  | Raise e => Raise e
  | Ok result =>
      match saved_decision result with
      | None => Raise ValueError
      | Some d =>
          match py_int throttle_rate with
          | Raise e => Raise e
          | Ok rate =>
              if (0 <=? rate) && (rate <=? 100)
              then Ok (d, "ALREADY_THROTTLED", rate)
              else Raise ValueError
          end
      end
  end.

(** Lines 302-319: decide, then save the results in the raw crash. *)
Definition throttle_and_save (raw_crash : gmap string value)
  : M (gmap string value * (ThrottleResult * string * Z)) :=
  '(result, rule_name, throttle_rate) ←
    (if bool_decide (raw_crash !! "Throttleable" = Some (VStr "0")) then
       emit (Incr "throttleable_0");;
       mret (ACCEPT, "THROTTLEABLE_0", 100)
     else mret (throttle C raw_crash));
  let raw_crash := <["legacy_processing" := VInt (code result)]> raw_crash in
  let raw_crash := <["throttle_rate" := VInt throttle_rate]> raw_crash in
  mret (raw_crash, (result, rule_name, throttle_rate)).

(** [get_throttle_result]: the raw crash after the call and the tuple
    returned. *)
Definition get_throttle_result (raw_crash : gmap string value)
  : M (gmap string value * (ThrottleResult * string * Z)) :=
  match raw_crash !! "legacy_processing", raw_crash !! "throttle_rate" with
  | Some lp, Some tr =>
      match saved_throttle_result lp tr with
      | Ok r => mret (raw_crash, r)
      | Raise ValueError =>
          emit (Incr "throttle.bad_throttle_values");;
          throttle_and_save raw_crash
      | Raise e => raise e
      end
  | _, _ => throttle_and_save raw_crash
  end.

(** ** The state of the resource *)

(** Calls on the crash storage, in the order they are made. *)
Inductive storage_call :=
| SaveDumps (crash_id : value) (dumps : gmap string bytes)
| SaveRawCrash (crash_id : value) (raw_crash : gmap string value).

(** A save worker is a greenlet running [process_queue].  It only gives
    up control inside a call on the crash storage, so between two runs it
    is in one of three places: spawned and not yet started, inside
    [save_dumps] (line 408) or inside [save_raw_crash] (line 414), the
    last two with the report it holds. *)
Inductive worker :=
| Spawned
| InSaveDumps (r : CrashReport)
| InSaveRawCrash (r : CrashReport).

Record State := mkState {
  save_queue : SaveQueue.t CrashReport;
  pipeline_pool : list worker;
  crashstorage : list storage_call;
  mymetrics : list metric
}.

Definition init_state : State :=
  {| save_queue := SaveQueue.init; pipeline_pool := [];
     crashstorage := []; mymetrics := [] |}.

Definition set_queue (q : SaveQueue.t CrashReport) (st : State) : State :=
  {| save_queue := q; pipeline_pool := pipeline_pool st;
     crashstorage := crashstorage st; mymetrics := mymetrics st |}.

Definition set_pool (p : list worker) (st : State) : State :=
  {| save_queue := save_queue st; pipeline_pool := p;
     crashstorage := crashstorage st; mymetrics := mymetrics st |}.

Definition call_storage (c : storage_call) (st : State) : State :=
  {| save_queue := save_queue st; pipeline_pool := pipeline_pool st;
     crashstorage := crashstorage st ++ [c]; mymetrics := mymetrics st |}.

Definition emit_all (out : list metric) (st : State) : State :=
  {| save_queue := save_queue st; pipeline_pool := pipeline_pool st;
     crashstorage := crashstorage st; mymetrics := mymetrics st ++ out |}.

(** Computations on the state of the resource that may raise. *)
Definition Handler (A : Type) : Type := State -> res A * State.

#[local] Instance Handler_ret : MRet Handler := fun A a st => (Ok a, st).
#[local] Instance Handler_bind : MBind Handler := fun A B k c st =>
  match c st with
  | (Ok a, st') => k a st'
  | (Raise e, st') => (Raise e, st')
  end.

Definition run_M {A} (c : M A) : Handler A :=
  fun st => (c.2, emit_all c.1 st).

Definition modify (f : State -> State) : Handler unit :=
  fun st => (Ok tt, f st).

(** [Pool.free_count] *)
Definition free_count (st : State) : Z :=
  Z.max 0 (concurrent_saves cfg - Z.of_nat (length (pipeline_pool st))).

(** [add_to_queue]: append the report, then spawn a worker when the pool
    has room. *)
Definition add_to_queue (crash_report : CrashReport) (st : State) : State :=
  let st := set_queue (SaveQueue.add (save_queue st) crash_report) st in
  if 0 <? free_count st
  then set_pool (pipeline_pool st ++ [Spawned]) st
  else st.

(** ** The POST handler *)

Record Clock := mkClock {
  time_time : Z;      (** [time.time()], in microseconds *)
  utc_now : datetime  (** [utc_now()] *)
}.

(** [raw_crash[key]] *)
Definition getitem (raw_crash : gmap string value) (key : string) : res value :=
  match raw_crash !! key with
  | Some v => Ok v
  | None => Raise KeyError
  end.

(** Lines 368-371 *)
Definition enqueue_and_answer (raw_crash : gmap string value)
    (dumps : gmap string bytes) (crash_id : value) : Handler Response :=
  modify (add_to_queue (mkCrashReport raw_crash dumps crash_id));;
  id_text ← run_M (lift (percent_s crash_id));
  mret {| resp_status := HTTP_200;
          resp_content_type := "text/plain";
          resp_body := "CrashID=" +:+ dump_id_prefix cfg +:+ id_text +:+ String "010" EmptyString |}.

(** [on_post].  The log lines are left out. *)
Definition on_post (clock : Clock) (req : Request) : Handler Response :=
  let start_time := time_time clock in
  '(raw_crash, dumps) ← run_M (extract_payload req);
  run_M (emit (Incr "incoming_crash"));;
  let current_timestamp := utc_now clock in
  let raw_crash :=
    <["submitted_timestamp" := VStr (isoformat C current_timestamp)]> raw_crash in
  let raw_crash := <["timestamp" := VFloat start_time]> raw_crash in
  '(raw_crash, (result, rule_name, percentage)) ← run_M (get_throttle_result raw_crash);
  let '(crash_id, raw_crash) :=
    match raw_crash !! "uuid" with
    | Some crash_id => (crash_id, raw_crash)
    | None =>
        let crash_id := VStr (create_crash_id C current_timestamp result) in
        (crash_id, <["uuid" := crash_id]> raw_crash)
    end in
  let raw_crash :=
    <["type_tag" := VStr (PyStr.strip_char "-" (dump_id_prefix cfg))]> raw_crash in
  legacy_processing ← run_M (lift (getitem raw_crash "legacy_processing"));
  if bool_decide (legacy_processing = VInt (code ACCEPT)) then
    run_M (emit (Incr "throttle.accept"));;
    enqueue_and_answer raw_crash dumps crash_id
  else if bool_decide (legacy_processing = VInt (code DEFER)) then
    run_M (emit (Incr "throttle.defer"));;
    enqueue_and_answer raw_crash dumps crash_id
  else if bool_decide (legacy_processing = VInt (code REJECT)) then
    run_M (emit (Incr "throttle.reject"));;
    mret {| resp_status := HTTP_200;
            resp_content_type := "text/plain";
            resp_body := "Discarded=1" |}
  else enqueue_and_answer raw_crash dumps crash_id.

(** ** The save workers *)

(** [raw_crash['timestamp']] as a number of microseconds, when it is a
    number ([time.time() - raw_crash['timestamp']] raises otherwise). *)
Definition timestamp_micros (raw_crash : gmap string value) : res Z :=
  match raw_crash !! "timestamp" with
  | Some (VFloat m) => Ok m
  | Some (VInt z) => Ok (z * 1000000)
  | Some _ => Raise TypeError
  | None => Raise KeyError
  end.

(** The head of the loop of [process_queue] for the worker at index [i]
    of the pool: with an empty queue the worker ends and leaves the pool
    (the pool is taken to drop a greenlet as soon as it has ended);
    otherwise it takes the next report and enters [save_crash_to_storage],
    whose first act is the call of [save_dumps]. *)
Definition loop_head (i : nat) (st : State) : State :=
  if 0 <? SaveQueue.len (save_queue st) then
    match SaveQueue.next (save_queue st) with
    | (Some crash_report, q) =>
        let st := set_queue q st in
        let st := call_storage
                    (SaveDumps (crash_id crash_report) (dumps crash_report)) st in
        set_pool (<[i := InSaveDumps crash_report]> (pipeline_pool st)) st
    | (None, _) => st
    end
  else set_pool (delete i (pipeline_pool st)) st.

(** The [except Exception] of [process_queue], then the loop again. *)
Definition retry_later (i : nat) (crash_report : CrashReport) (st : State) : State :=
  loop_head i (add_to_queue crash_report st).

(** Worker [i] runs from where it stands to its next call on the crash
    storage.  [ok] tells whether the storage call it was waiting in
    returned ([true]) or raised; [now] is the reading of [time.time()]
    on line 424. *)
Definition resume (i : nat) (ok : bool) (now : Z) (st : State) : State :=
  match pipeline_pool st !! i with
  | None => st
  | Some Spawned => loop_head i st
  | Some (InSaveDumps r) =>
      if ok then
        let st := call_storage (SaveRawCrash (crash_id r) (raw_crash r)) st in
        set_pool (<[i := InSaveRawCrash r]> (pipeline_pool st)) st
      else retry_later i r st
  | Some (InSaveRawCrash r) =>
      if ok then
        match timestamp_micros (raw_crash r) with
        | Ok t =>
            let st := emit_all [Timing "crash_handling.time" (now - t);
                                Incr "save_crash.count"] st in
            loop_head i st
        | Raise _ => retry_later i r st
        end
      else retry_later i r st
  end.

(** [health_stats] *)
Definition health_stats (st : State) : State :=
  emit_all [Gauge "save_queue_size" (SaveQueue.len (save_queue st));
            Gauge "active_save_workers" (Z.of_nat (length (pipeline_pool st)))] st.

(** ** Schedules *)

(** What may happen next in the process: a request is handled, a worker
    is resumed, or the heartbeat fires. *)
Inductive action :=
| Post (clock : Clock) (req : Request)
| Resume (i : nat) (ok : bool) (now : Z)
| Heartbeat.

Definition step (st : State) (a : action) : State :=
  match a with
  | Post clock req => (on_post clock req st).2
  | Resume i ok now => resume i ok now st
  | Heartbeat => health_stats st
  end.

Definition run (st : State) (schedule : list action) : State :=
  foldl step st schedule.

End Resource.

Arguments on_post C cfg clock req _ : simpl never.

(** ** Stand-ins for the collaborators

    Fixed, simple collaborators in the manner of the test suite's doubles:
    they give the examples below something to run against. *)

Module Sample.

(** The gzip stream of the empty byte string (20 bytes). *)
Definition gzip_of_empty : bytes :=
  [x1f; x8b; x08; x00; x00; x00; x00; x00; x00; x03;
   x03; x00; x00; x00; x00; x00; x00; x00; x00; x00].

(** A decompressor that knows that one stream and refuses the rest. *)
Definition gunzip (data : bytes) : option bytes :=
  if bool_decide (data = gzip_of_empty) then Some [] else None.

Definition accept_everything (_ : gmap string value) : ThrottleResult * string * Z :=
  (ACCEPT, "accept_everything", 100).

Definition reject_everything (_ : gmap string value) : ThrottleResult * string * Z :=
  (REJECT, "reject_everything", 0).

Definition a_crash_id : string := "de1bb258-cbbf-4589-a673-34f800160918".

(** Collaborators whose form parser finds the parts [form] in any payload
    and whose throttler is [rule]. *)
Definition collaborators (form : list fs_item)
    (rule : gmap string value -> ThrottleResult * string * Z) : Collaborators :=
  {| zlib_decompress := gunzip;
     field_storage := fun _ _ => Ok form;
     md5_hexdigest := fun _ => "d41d8cd98f00b204e9800998ecf8427e";
     throttle := rule;
     create_crash_id := fun _ _ => a_crash_id;
     isoformat := fun _ => "2011-09-06T00:00:00+00:00" |}.

Definition clock : Clock := {| time_time := 1315267200000000; utc_now := 1315267200000000 |}.

Definition text_part (name val : string) : fs_item :=
  {| fs_name := name; fs_type := Some "text/plain"; fs_value := FStr val |}.

Definition multipart_request (body : bytes) : Request :=
  {| content_type := Some "multipart/form-data; boundary=xYzZY";
     content_length := Some (Z.of_nat (length body));
     env := ∅;
     stream := body |}.

Definition gzipped_request (body : bytes) : Request :=
  {| content_type := Some "multipart/form-data; boundary=xYzZY";
     content_length := Some (Z.of_nat (length body));
     env := {["HTTP_CONTENT_ENCODING" := VStr "gzip"]};
     stream := body |}.

Definition no_content_type_request : Request :=
  {| content_type := None; content_length := Some 3; env := ∅;
     stream := [x61; x62; x63] |}.

(** The eight bytes of [not gzip]. *)
Definition not_gzip : bytes := [x6e; x6f; x74; x20; x67; x7a; x69; x70].

(** Collaborators with an empty form and a throttler that accepts. *)
Definition accepting : Collaborators := collaborators [] accept_everything.

(** Collaborators with an empty form and a throttler that rejects. *)
Definition rejecting : Collaborators := collaborators [] reject_everything.

(** A raw crash marked [Throttleable = "0"] that was throttled before. *)
Definition throttleable_and_throttled : gmap string value :=
  {[ "Throttleable" := VStr "0";
     "legacy_processing" := VStr "1";
     "throttle_rate" := VStr "50" ]}.

Definition throttleable_only : gmap string value :=
  {[ "Throttleable" := VStr "0"; "ProductName" := VStr "Firefox" ]}.

(** The throttle fields of a resubmitted crash, as the form delivers
    them. *)
Definition throttled_before : gmap string value :=
  {[ "legacy_processing" := VStr "0"; "throttle_rate" := VStr "100" ]}.

(** Throttle fields that the check refuses: 7 is no decision. *)
Definition throttled_badly : gmap string value :=
  {[ "legacy_processing" := VStr "7"; "throttle_rate" := VStr "100" ]}.

End Sample.

(** * Properties *)

(** ** The throttle-result adapter *)

Section Adapter.

Context (C : Collaborators).

(** The raw crash with the two results written into it (lines 316-317). *)
Definition with_results (raw_crash : gmap string value) (d : ThrottleResult) (rate : Z)
  : gmap string value :=
  <["throttle_rate" := VInt rate]> (<["legacy_processing" := VInt (code d)]> raw_crash).

Lemma throttle_and_save_throttleable_0 (raw_crash : gmap string value) :
  raw_crash !! "Throttleable" = Some (VStr "0") ->
  throttle_and_save C raw_crash =
    ([Incr "throttleable_0"],
     Ok (with_results raw_crash ACCEPT 100, (ACCEPT, "THROTTLEABLE_0", 100))).
Proof.
  intros H. unfold throttle_and_save.
  rewrite bool_decide_eq_true_2 by exact H. reflexivity.
Qed.

Lemma throttle_and_save_throttler (raw_crash : gmap string value) d rule rate :
  raw_crash !! "Throttleable" <> Some (VStr "0") ->
  throttle C raw_crash = (d, rule, rate) ->
  throttle_and_save C raw_crash =
    ([], Ok (with_results raw_crash d rate, (d, rule, rate))).
Proof.
  intros H Ht. unfold throttle_and_save.
  rewrite bool_decide_eq_false_2 by exact H. rewrite Ht. reflexivity.
Qed.

(** Whatever branch decides, [throttle_and_save] returns normally, with
    the results written into the raw crash. *)
Lemma throttle_and_save_returns (raw_crash : gmap string value) :
  exists out d rule rate,
    throttle_and_save C raw_crash =
      (out, Ok (with_results raw_crash d rate, (d, rule, rate))).
Proof.
  destruct (decide (raw_crash !! "Throttleable" = Some (VStr "0"))) as [H|H].
  - eexists _, _, _, _. apply throttle_and_save_throttleable_0, H.
  - destruct (throttle C raw_crash) as [[d rule] rate] eqn:Ht.
    eexists _, _, _, _. apply throttle_and_save_throttler; eauto.
Qed.

Lemma saved_decision_code (z : Z) (d : ThrottleResult) :
  saved_decision z = Some d -> z = code d /\ d <> REJECT.
Proof.
  unfold saved_decision. simpl.
  destruct (Z.eqb_spec z 0) as [->|_]; [intros [= <-]; split; [reflexivity|discriminate]|].
  destruct (Z.eqb_spec z 1) as [->|_]; [intros [= <-]; split; [reflexivity|discriminate]|].
  discriminate.
Qed.

(** What a successful [try] block has established. *)
Lemma saved_throttle_result_ok lp tr d rule rate :
  saved_throttle_result lp tr = Ok (d, rule, rate) ->
  py_int lp = Ok (code d) /\ py_int tr = Ok rate /\ d <> REJECT /\
  rule = "ALREADY_THROTTLED" /\ 0 <= rate <= 100.
Proof.
  unfold saved_throttle_result.
  destruct (py_int lp) as [z|] eqn:Elp; [|discriminate].
  destruct (saved_decision z) as [d'|] eqn:Ed; [|discriminate].
  destruct (py_int tr) as [r|] eqn:Etr; [|discriminate].
  destruct ((0 <=? r) && (r <=? 100)) eqn:Er; [|discriminate].
  intros [= <- <- <-].
  apply saved_decision_code in Ed as [-> ?].
  repeat split; auto; lia.
Qed.

(** The outcome of the [try] block when both keys are in the raw crash. *)
Definition saved_results (raw_crash : gmap string value)
  : option (res (ThrottleResult * string * Z)) :=
  match raw_crash !! "legacy_processing", raw_crash !! "throttle_rate" with
  | Some lp, Some tr => Some (saved_throttle_result lp tr)
  | _, _ => None
  end.

Lemma get_throttle_result_cases (raw_crash : gmap string value) :
  get_throttle_result C raw_crash =
    match saved_results raw_crash with
    | Some (Ok r) => ([], Ok (raw_crash, r))
    | Some (Raise ValueError) =>
        emit (Incr "throttle.bad_throttle_values");; throttle_and_save C raw_crash
    | Some (Raise e) => ([], Raise e)
    | None => throttle_and_save C raw_crash
    end.
Proof.
  unfold get_throttle_result, saved_results.
  destruct (raw_crash !! "legacy_processing") as [lp|]; [|reflexivity].
  destruct (raw_crash !! "throttle_rate") as [tr|]; [|reflexivity].
  destruct (saved_throttle_result lp tr) as [r|[]]; reflexivity.
Qed.

Lemma with_results_lookup (raw_crash : gmap string value) d rate :
  with_results raw_crash d rate !! "legacy_processing" = Some (VInt (code d)) /\
  with_results raw_crash d rate !! "throttle_rate" = Some (VInt rate).
Proof.
  unfold with_results. rewrite lookup_insert_ne by discriminate.
  rewrite !lookup_insert_eq. auto.
Qed.

Lemma with_results_other (raw_crash : gmap string value) d rate (k : string) :
  k <> "legacy_processing" -> k <> "throttle_rate" ->
  with_results raw_crash d rate !! k = raw_crash !! k.
Proof.
  intros H1 H2. unfold with_results. rewrite !lookup_insert_ne by congruence.
  reflexivity.
Qed.

(** The two ways in which the adapter returns: a fresh decision, written
    into the raw crash, or the one the raw crash already carried. *)
Lemma get_throttle_result_ok (raw_crash raw_crash' : gmap string value)
    out d rule rate :
  get_throttle_result C raw_crash = (out, Ok (raw_crash', (d, rule, rate))) ->
  (raw_crash' = with_results raw_crash d rate /\
   ((d, rule, rate) = (ACCEPT, "THROTTLEABLE_0", 100) \/
    (d, rule, rate) = throttle C raw_crash))
  \/
  (raw_crash' = raw_crash /\ rule = "ALREADY_THROTTLED" /\
   exists lp tr,
     raw_crash !! "legacy_processing" = Some lp /\
     raw_crash !! "throttle_rate" = Some tr /\
     py_int lp = Ok (code d) /\ py_int tr = Ok rate /\
     d <> REJECT /\ 0 <= rate <= 100).
Proof.
  rewrite get_throttle_result_cases.
  assert (Hfresh :
    (throttle_and_save C raw_crash).2 = Ok (raw_crash', (d, rule, rate)) ->
    raw_crash' = with_results raw_crash d rate /\
    ((d, rule, rate) = (ACCEPT, "THROTTLEABLE_0", 100) \/
     (d, rule, rate) = throttle C raw_crash)).
  { destruct (decide (raw_crash !! "Throttleable" = Some (VStr "0"))) as [Ht|Ht].
    - rewrite (throttle_and_save_throttleable_0 _ Ht). simpl.
      intros [= <- <- <- <-]. auto.
    - destruct (throttle C raw_crash) as [[d0 rule0] rate0] eqn:E0.
      rewrite (throttle_and_save_throttler _ _ _ _ Ht E0). simpl.
      intros [= <- <- <- <-]. auto. }
  unfold saved_results.
  destruct (raw_crash !! "legacy_processing") as [lp|] eqn:Elp;
    [destruct (raw_crash !! "throttle_rate") as [tr|] eqn:Etr|].
  - destruct (saved_throttle_result lp tr) as [[[d0 rule0] rate0]|e] eqn:Es.
    + intros [= _ <- <- <- <-]. right.
      apply saved_throttle_result_ok in Es as (? & ? & ? & ? & ?).
      split; [reflexivity|]. split; [assumption|]. eauto 10.
    + destruct e; try discriminate.
      intros H. left. apply Hfresh.
      revert H. unfold mbind, M_bind, bind. simpl.
      destruct (throttle_and_save C raw_crash) as [o r]. simpl.
      intros [= _ <-]. reflexivity.
  - intros H. left. apply Hfresh. rewrite H. reflexivity.
  - intros H. left. apply Hfresh. rewrite H. reflexivity.
Qed.

(** C2 as the specification words it: [Throttleable = "0"] alone decides. *)
Definition throttleable_0_decides (raw_crash : gmap string value) : Prop :=
  exists out raw_crash',
    get_throttle_result C raw_crash =
      (out, Ok (raw_crash', (ACCEPT, "THROTTLEABLE_0", 100))).

End Adapter.

(** C2, counterexample.  A raw crash with [Throttleable = "0"] that also
    carries [legacy_processing = "1"] and [throttle_rate = "50"] is answered
    from those two fields: DEFER under ALREADY_THROTTLED at rate 50, not
    ACCEPT under THROTTLEABLE_0. *)
Lemma throttleable_0_overridden :
  Sample.throttleable_and_throttled !! "Throttleable" = Some (VStr "0") /\
  get_throttle_result Sample.accepting Sample.throttleable_and_throttled =
    ([], Ok (Sample.throttleable_and_throttled, (DEFER, "ALREADY_THROTTLED", 50))) /\
  ~ throttleable_0_decides Sample.accepting Sample.throttleable_and_throttled.
Proof.
  assert (E : get_throttle_result Sample.accepting Sample.throttleable_and_throttled
              = ([], Ok (Sample.throttleable_and_throttled,
                         (DEFER, "ALREADY_THROTTLED", 50))))
    by (vm_compute; reflexivity).
  split; [vm_compute; reflexivity|]. split; [exact E|].
  intros (out & raw' & H). rewrite E in H. discriminate H.
Qed.

(** C2, amended.  For a raw crash with [Throttleable = "0"], the adapter
    answers (ACCEPT, THROTTLEABLE_0, 100) when the raw crash does not hold
    both [legacy_processing] and [throttle_rate], or holds values the check
    of lines 287-295 refuses with ValueError (then
    [throttle.bad_throttle_values] is counted first); when both are there
    and pass the check it answers with them under ALREADY_THROTTLED, and
    when [int()] raises TypeError on one of them that error escapes. *)
Theorem throttleable_0_result (C : Collaborators) (raw_crash : gmap string value) :
  raw_crash !! "Throttleable" = Some (VStr "0") ->
  match saved_results raw_crash with
  | None =>
      get_throttle_result C raw_crash =
        ([Incr "throttleable_0"],
         Ok (with_results raw_crash ACCEPT 100, (ACCEPT, "THROTTLEABLE_0", 100)))
  | Some (Raise ValueError) =>
      get_throttle_result C raw_crash =
        ([Incr "throttle.bad_throttle_values"; Incr "throttleable_0"],
         Ok (with_results raw_crash ACCEPT 100, (ACCEPT, "THROTTLEABLE_0", 100)))
  | Some (Ok (d, rule, rate)) =>
      get_throttle_result C raw_crash = ([], Ok (raw_crash, (d, rule, rate))) /\
      rule = "ALREADY_THROTTLED"
  | Some (Raise e) => get_throttle_result C raw_crash = ([], Raise e)
  end.
Proof.
  intros H. rewrite get_throttle_result_cases.
  destruct (saved_results raw_crash) as [[[[d rule] rate]|e]|] eqn:E.
  - split; [reflexivity|].
    unfold saved_results in E.
    destruct (raw_crash !! "legacy_processing") as [lp|]; [|discriminate].
    destruct (raw_crash !! "throttle_rate") as [tr|]; [|discriminate].
    injection E as E. apply saved_throttle_result_ok in E. tauto.
  - destruct e; try reflexivity.
    rewrite (throttle_and_save_throttleable_0 C _ H). reflexivity.
  - apply throttle_and_save_throttleable_0, H.
Qed.

Lemma throttleable_0_result_witness :
  get_throttle_result Sample.rejecting Sample.throttleable_only =
    ([Incr "throttleable_0"],
     Ok (with_results Sample.throttleable_only ACCEPT 100,
         (ACCEPT, "THROTTLEABLE_0", 100))).
Proof.
  exact (throttleable_0_result Sample.rejecting Sample.throttleable_only eq_refl).
Defined.

(** C8 as the specification words it: after the adapter returns, the raw
    crash holds the decision and the rate it returned. *)
Definition results_written_back (raw_crash' : gmap string value)
    (d : ThrottleResult) (rate : Z) : Prop :=
  raw_crash' !! "legacy_processing" = Some (VInt (code d)) /\
  raw_crash' !! "throttle_rate" = Some (VInt rate).

(** C8, counterexample.  On a raw crash that carries [legacy_processing =
    "0"] and [throttle_rate = "100"], as a resubmitted crash does, the
    adapter returns (ACCEPT, ALREADY_THROTTLED, 100) from inside the [try]
    block and the raw crash keeps the two texts: nothing is written back. *)
Lemma already_throttled_not_written_back :
  get_throttle_result Sample.accepting Sample.throttled_before =
    ([], Ok (Sample.throttled_before, (ACCEPT, "ALREADY_THROTTLED", 100))) /\
  Sample.throttled_before !! "legacy_processing" = Some (VStr "0") /\
  ~ results_written_back Sample.throttled_before ACCEPT 100.
Proof.
  split; [vm_compute; reflexivity|].
  split; [vm_compute; reflexivity|].
  intros [H _]. vm_compute in H. discriminate H.
Qed.

(** C8, amended.  The branch the adapter takes is fixed by the two fields
    of the raw crash.  When both are there and pass the check of lines
    287-295, the adapter returns their decision and rate under
    ALREADY_THROTTLED and the raw crash is unchanged: the two fields keep
    the values they had, which [int()] reads as the decision and the rate,
    and nothing is written back.  When [int()] raises TypeError the adapter
    raises.  In every other case the decision is made by the THROTTLEABLE_0
    branch or by the throttler, and the raw crash returned is the one
    passed in with [legacy_processing] set to the decision and
    [throttle_rate] to the rate, both as integers and over any earlier
    values, every other entry being as it was. *)
Theorem get_throttle_result_raw_crash (C : Collaborators)
    (raw_crash : gmap string value) :
  match saved_results raw_crash with
  | Some (Ok (d, rule, rate)) =>
      get_throttle_result C raw_crash = ([], Ok (raw_crash, (d, rule, rate))) /\
      rule = "ALREADY_THROTTLED" /\
      exists lp tr,
        raw_crash !! "legacy_processing" = Some lp /\
        raw_crash !! "throttle_rate" = Some tr /\
        py_int lp = Ok (code d) /\ py_int tr = Ok rate
  | Some (Raise ValueError) | None =>
      exists out d rule rate,
        get_throttle_result C raw_crash =
          (out, Ok (with_results raw_crash d rate, (d, rule, rate))) /\
        results_written_back (with_results raw_crash d rate) d rate /\
        forall k : string,
          k <> "legacy_processing" -> k <> "throttle_rate" ->
          with_results raw_crash d rate !! k = raw_crash !! k
  | Some (Raise e) => get_throttle_result C raw_crash = ([], Raise e)
  end.
Proof.
  rewrite get_throttle_result_cases.
  assert (Hfresh : forall pre,
    exists out d rule rate,
      (pre ++ (throttle_and_save C raw_crash).1, (throttle_and_save C raw_crash).2) =
        (out, Ok (with_results raw_crash d rate, (d, rule, rate))) /\
      results_written_back (with_results raw_crash d rate) d rate /\
      forall k : string,
        k <> "legacy_processing" -> k <> "throttle_rate" ->
        with_results raw_crash d rate !! k = raw_crash !! k).
  { intros pre.
    destruct (throttle_and_save_returns C raw_crash) as (o & d & rule & rate & ->).
    exists (pre ++ o), d, rule, rate. split; [reflexivity|].
    split; [apply with_results_lookup|]. intros k. apply with_results_other. }
  destruct (saved_results raw_crash) as [[[[d rule] rate]|e]|] eqn:E.
  - split; [reflexivity|]. unfold saved_results in E.
    destruct (raw_crash !! "legacy_processing") as [lp|]; [|discriminate].
    destruct (raw_crash !! "throttle_rate") as [tr|]; [|discriminate].
    injection E as E. apply saved_throttle_result_ok in E as (? & ? & _ & ? & _).
    split; [assumption|]. eauto 10.
  - destruct e; try reflexivity.
    destruct (Hfresh [Incr "throttle.bad_throttle_values"])
      as (out & d & rule & rate & H1 & H2).
    exists out, d, rule, rate. split; [|exact H2]. rewrite <- H1.
    unfold mbind, M_bind, bind, emit.
    destruct (throttle_and_save C raw_crash) as [o r]. reflexivity.
  - destruct (Hfresh []) as (out & d & rule & rate & H1 & H2).
    exists out, d, rule, rate. split; [|exact H2]. rewrite <- H1.
    destruct (throttle_and_save C raw_crash) as [o r]. reflexivity.
Qed.

Lemma get_throttle_result_raw_crash_witness :
  (get_throttle_result Sample.accepting Sample.throttled_before =
     ([], Ok (Sample.throttled_before, (ACCEPT, "ALREADY_THROTTLED", 100))) /\
   Sample.throttled_before !! "legacy_processing" = Some (VStr "0")) /\
  exists out d rule rate,
    get_throttle_result Sample.accepting Sample.throttled_badly =
      (out, Ok (with_results Sample.throttled_badly d rate, (d, rule, rate))) /\
    results_written_back (with_results Sample.throttled_badly d rate) d rate.
Proof.
  split.
  - split; [|reflexivity].
    exact (proj1 (get_throttle_result_raw_crash Sample.accepting
                    Sample.throttled_before)).
  - destruct (get_throttle_result_raw_crash Sample.accepting Sample.throttled_badly)
      as (out & d & rule & rate & H1 & H2 & _).
    exists out, d, rule, rate. split; [exact H1 | exact H2].
Defined.

(** ** The payload parser *)

Section Parser.

Context (C : Collaborators).

(** The request passes the checks of lines 188-204: a content type of the
    form [multipart/form-data; boundary=...] and a content length that is
    there and not zero. *)
Definition headers_accepted (req : Request) : bool :=
  match content_type req with
  | Some ct =>
      negb (bool_decide (ct = EmptyString)) && negb (wrong_content_type ct) &&
      negb (default 0 (content_length req) =? 0)
  | None => false
  end.

Definition declares_gzip (req : Request) : bool :=
  bool_decide (env req !! "HTTP_CONTENT_ENCODING" = Some (VStr "gzip")).

(** The body as read from the stream: [content_length] bytes of it. *)
Definition wire_body (req : Request) : bytes :=
  stream_read (stream req) (default 0 (content_length req)).

(** The environment handed to [FieldStorage] after a decompression. *)
Definition environ_after_gunzip (req : Request) (data : bytes) : gmap string value :=
  <["CONTENT_LENGTH" := VStr (pretty (Z.of_nat (length data)))]>
    (<["ORIG_CONTENT_LENGTH" := VInt (default 0 (content_length req))]> (env req)).

Lemma read_form_quiet (data : bytes) (environ : gmap string value) :
  (read_form C data environ).1 = [].
Proof.
  unfold read_form, mbind, M_bind, bind, lift.
  destruct (field_storage C data environ) as [l|e]; [|reflexivity].
  destruct (add_fields C (∅, ∅) l); reflexivity.
Qed.

(** The paths through [extract_payload], with what each one emits. *)
Lemma extract_payload_cases (req : Request) :
  extract_payload C req =
    if negb (headers_accepted req) then ([], Ok (∅, ∅))
    else if declares_gzip req then
      match zlib_decompress C (wire_body req) with
      | None => ([Incr "gzipped_crash"; Incr "bad_gzipped_crash"], Ok (∅, ∅))
      | Some data =>
          ([Incr "gzipped_crash";
            Histogram "crash_size.compressed" (Z.of_nat (length data))],
           (read_form C data (environ_after_gunzip req data)).2)
      end
    else
      ([Histogram "crash_size.uncompressed" (default 0 (content_length req))],
       (read_form C (wire_body req) (env req)).2).
Proof.
  unfold extract_payload, headers_accepted, declares_gzip, wire_body.
  destruct (content_type req) as [ct|]; [|reflexivity].
  destruct (bool_decide (ct = EmptyString)); [reflexivity|].
  destruct (wrong_content_type ct); [reflexivity|].
  destruct (default 0 (content_length req) =? 0); [reflexivity|].
  simpl negb. cbv iota.
  destruct (bool_decide (env req !! "HTTP_CONTENT_ENCODING" = Some (VStr "gzip"))).
  - destruct (zlib_decompress C _) as [data|]; [|reflexivity].
    pose proof (read_form_quiet data (environ_after_gunzip req data)) as Hq.
    unfold environ_after_gunzip in *.
    unfold mbind, M_bind, bind, emit.
    destruct (read_form C data _) as [o r]. simpl in Hq. subst o. reflexivity.
  - pose proof (read_form_quiet
                  (stream_read (stream req) (default 0 (content_length req)))
                  (env req)) as Hq.
    unfold mbind, M_bind, bind, emit.
    destruct (read_form C _ _) as [o r]. simpl in Hq. subst o. reflexivity.
Qed.

(** How often a counter is incremented in a run of metric calls. *)
Definition count_incr (name : string) (out : list metric) : nat :=
  length (filter (fun m => m = Incr name) out).

(** The samples recorded under a histogram, in order. *)
Definition samples (name : string) (out : list metric) : list Z :=
  omap (fun m => match m with
                 | Histogram n v => if bool_decide (n = name) then Some v else None
                 | _ => None
                 end) out.

End Parser.

(** C6 as the specification words it: [gzipped_crash] counts the successful
    decompressions, [bad_gzipped_crash] the failed ones. *)
Definition gzip_counters_as_stated (C : Collaborators) (req : Request) : Prop :=
  let out := (extract_payload C req).1 in
  (count_incr "gzipped_crash" out = 1%nat <->
   is_Some (zlib_decompress C (wire_body req))) /\
  (count_incr "bad_gzipped_crash" out = 1%nat <->
   zlib_decompress C (wire_body req) = None).

(** C6, counterexample.  A request that declares gzip and whose body is the
    eight bytes of [not gzip]: decompression fails, and both counters are
    incremented, [gzipped_crash] first. *)
Lemma bad_gzip_counts_gzipped_crash :
  declares_gzip (Sample.gzipped_request Sample.not_gzip) = true /\
  zlib_decompress Sample.accepting
    (wire_body (Sample.gzipped_request Sample.not_gzip)) = None /\
  (extract_payload Sample.accepting (Sample.gzipped_request Sample.not_gzip)).1 =
    [Incr "gzipped_crash"; Incr "bad_gzipped_crash"] /\
  ~ gzip_counters_as_stated Sample.accepting (Sample.gzipped_request Sample.not_gzip).
Proof.
  set (C := Sample.accepting). set (req := Sample.gzipped_request Sample.not_gzip).
  assert (E : zlib_decompress C (wire_body req) = None) by (vm_compute; reflexivity).
  assert (Eo : (extract_payload C req).1
               = [Incr "gzipped_crash"; Incr "bad_gzipped_crash"])
    by (vm_compute; reflexivity).
  split; [vm_compute; reflexivity|]. split; [exact E|]. split; [exact Eo|].
  intros [[H _] _]. cbv zeta in H. rewrite Eo, E in H.
  destruct (H eq_refl) as [x Hx]. discriminate Hx.
Qed.

(** C6, amended.  For every request that declares [Content-Encoding: gzip],
    [gzipped_crash] is incremented once exactly when the request passes the
    content-type and content-length checks, that is, when decompression is
    attempted, whether it then succeeds or fails; [bad_gzipped_crash] is
    incremented once exactly when decompression is attempted and fails.  On
    a bad gzip body both counters are incremented. *)
Theorem gzip_counters (C : Collaborators) (req : Request) :
  declares_gzip req = true ->
  let out := (extract_payload C req).1 in
  count_incr "gzipped_crash" out = (if headers_accepted req then 1 else 0)%nat /\
  count_incr "bad_gzipped_crash" out =
    (if headers_accepted req
     then match zlib_decompress C (wire_body req) with None => 1 | Some _ => 0 end
     else 0)%nat.
Proof.
  intros Hgz. cbv zeta. rewrite extract_payload_cases, Hgz.
  destruct (headers_accepted req); simpl; [|split; reflexivity].
  destruct (zlib_decompress C (wire_body req)); split; reflexivity.
Qed.

Lemma gzip_counters_witness :
  count_incr "gzipped_crash"
    (extract_payload Sample.accepting (Sample.gzipped_request Sample.gzip_of_empty)).1
    = 1%nat /\
  count_incr "bad_gzipped_crash"
    (extract_payload Sample.accepting (Sample.gzipped_request Sample.gzip_of_empty)).1
    = 0%nat.
Proof.
  exact (gzip_counters Sample.accepting
           (Sample.gzipped_request Sample.gzip_of_empty) eq_refl).
Defined.

(** C7 as the specification words it: the sample under
    [crash_size.compressed] is the length of the body on the wire. *)
Definition compressed_sample_as_stated (C : Collaborators) (req : Request) : Prop :=
  samples "crash_size.compressed" (extract_payload C req).1 =
    [Z.of_nat (length (wire_body req))].

(** C7, counterexample.  The 20-byte gzip stream of the empty byte string,
    sent with [Content-Encoding: gzip], decompresses to no bytes; the sample
    recorded under [crash_size.compressed] is 0, not 20. *)
Lemma compressed_sample_is_decompressed_length :
  declares_gzip (Sample.gzipped_request Sample.gzip_of_empty) = true /\
  zlib_decompress Sample.accepting
    (wire_body (Sample.gzipped_request Sample.gzip_of_empty)) = Some [] /\
  length (wire_body (Sample.gzipped_request Sample.gzip_of_empty)) = 20%nat /\
  samples "crash_size.compressed"
    (extract_payload Sample.accepting
       (Sample.gzipped_request Sample.gzip_of_empty)).1 = [0] /\
  ~ compressed_sample_as_stated Sample.accepting
      (Sample.gzipped_request Sample.gzip_of_empty).
Proof.
  split; [vm_compute; reflexivity|]. split; [vm_compute; reflexivity|].
  split; [vm_compute; reflexivity|]. split; [vm_compute; reflexivity|].
  intros H. vm_compute in H. discriminate H.
Qed.

(** C7, amended.  For every gzip-encoded request that passes the header
    checks and whose body decompresses to [data], the one sample recorded
    under [crash_size.compressed] is the length of [data], the decompressed
    payload (nothing is recorded under [crash_size.uncompressed]); the
    declared length of the compressed body is kept as [ORIG_CONTENT_LENGTH]
    in the environment the form is parsed with. *)
Theorem compressed_sample (C : Collaborators) (req : Request) (data : bytes) :
  headers_accepted req = true ->
  declares_gzip req = true ->
  zlib_decompress C (wire_body req) = Some data ->
  samples "crash_size.compressed" (extract_payload C req).1 = [Z.of_nat (length data)] /\
  samples "crash_size.uncompressed" (extract_payload C req).1 = [] /\
  (extract_payload C req).2 = (read_form C data (environ_after_gunzip req data)).2 /\
  environ_after_gunzip req data !! "ORIG_CONTENT_LENGTH" =
    Some (VInt (default 0 (content_length req))).
Proof.
  intros Hh Hgz Hz. rewrite extract_payload_cases, Hh, Hgz, Hz. simpl.
  repeat split; try reflexivity.
  unfold environ_after_gunzip.
  rewrite lookup_insert_ne by discriminate. apply lookup_insert_eq.
Qed.

Lemma compressed_sample_witness :
  samples "crash_size.compressed"
    (extract_payload Sample.accepting
       (Sample.gzipped_request Sample.gzip_of_empty)).1 = [0] /\
  environ_after_gunzip (Sample.gzipped_request Sample.gzip_of_empty) []
    !! "ORIG_CONTENT_LENGTH" = Some (VInt 20).
Proof.
  pose proof (compressed_sample Sample.accepting
                (Sample.gzipped_request Sample.gzip_of_empty) []
                eq_refl eq_refl eq_refl) as (H1 & _ & _ & H2).
  split; [exact H1 | exact H2].
Defined.

(** ** The walk over the parts of the form *)

Section Walk.

Context (C : Collaborators).

(** The part takes the last branch of the loop: it is stored as a field
    of the raw crash. *)
Definition is_text_field (it : fs_item) : bool :=
  negb (bool_decide (fs_name it = "dump_checksums")) && negb (is_dump it).

Lemma add_field_text acc (it : fs_item) :
  is_text_field it = true ->
  add_field C acc it = Ok (<[fs_name it := de_null (fs_value it)]> acc.1, acc.2).
Proof.
  unfold is_text_field, add_field. destruct acc as [raw dumps]. simpl.
  destruct (bool_decide (fs_name it = "dump_checksums")); [discriminate|].
  destruct (is_dump it); [discriminate|]. reflexivity.
Qed.

Lemma add_fields_app acc (l1 l2 : list fs_item) :
  add_fields C acc (l1 ++ l2) =
    match add_fields C acc l1 with
    | Ok acc' => add_fields C acc' l2
    | Raise e => Raise e
    end.
Proof.
  revert acc. induction l1 as [|it l1 IH]; intros acc; simpl; [reflexivity|].
  destruct (add_field C acc it); [apply IH|reflexivity].
Qed.

(** A part leaves alone every key of the raw crash but its own name, when
    it is a text field, and [dump_checksums], when it is a dump. *)
Lemma add_field_other_key acc acc' (it : fs_item) (k : string) :
  add_field C acc it = Ok acc' ->
  k <> "dump_checksums" ->
  (is_text_field it = true -> fs_name it <> k) ->
  acc'.1 !! k = acc.1 !! k.
Proof.
  unfold add_field, is_text_field. destruct acc as [raw dumps]. simpl.
  destruct (bool_decide (fs_name it = "dump_checksums")) eqn:En;
    [intros [= <-]; reflexivity|].
  destruct (is_dump it) eqn:Ed; simpl.
  - destruct (fs_value it) as [s|b]; [discriminate|].
    destruct (raw !! "dump_checksums") as [[| | | |d]|];
      try discriminate; intros [= <-] Hk _; simpl;
      rewrite lookup_insert_ne by congruence; reflexivity.
  - intros [= <-] _ Hn. simpl.
    rewrite lookup_insert_ne; [reflexivity|]. apply Hn. reflexivity.
Qed.

Lemma add_fields_other_key (items : list fs_item) acc acc' (k : string) :
  add_fields C acc items = Ok acc' ->
  k <> "dump_checksums" ->
  (forall it, it ∈ items -> is_text_field it = true -> fs_name it <> k) ->
  acc'.1 !! k = acc.1 !! k.
Proof.
  revert acc. induction items as [|it items IH]; intros acc; simpl.
  - intros [= <-] _ _. reflexivity.
  - destruct (add_field C acc it) as [acc1|e] eqn:E1; [|discriminate].
    intros H Hk Hn.
    rewrite (IH acc1 H Hk) by (intros it' Hin; apply Hn; right; exact Hin).
    apply (add_field_other_key _ _ _ _ E1 Hk). apply Hn. left.
Qed.

(** The checksums of a raw crash are those of its dumps: there is no
    [dump_checksums] entry while there is no dump, and afterwards the
    entry maps each dump name to the MD5 of its bytes and nothing else. *)
Definition checksums_match (raw_crash : gmap string value)
    (dumps : gmap string bytes) : Prop :=
  match raw_crash !! "dump_checksums" with
  | None => dumps = ∅
  | Some (VDict d) => d = md5_hexdigest C <$> dumps
  | Some _ => False
  end.

Lemma add_field_checksums acc acc' (it : fs_item) :
  checksums_match acc.1 acc.2 ->
  add_field C acc it = Ok acc' ->
  checksums_match acc'.1 acc'.2.
Proof.
  unfold add_field, checksums_match. destruct acc as [raw dumps]. simpl.
  destruct (bool_decide (fs_name it = "dump_checksums")) eqn:En;
    [intros H [= <-]; exact H|].
  apply bool_decide_eq_false in En.
  destruct (is_dump it).
  - destruct (fs_value it) as [s|b]; [discriminate|].
    destruct (raw !! "dump_checksums") as [[| | | |d]|];
      try (intros []; fail); try discriminate.
    + intros -> [= <-]. simpl. rewrite lookup_insert_eq, fmap_insert. reflexivity.
    + intros -> [= <-]. simpl.
      rewrite lookup_insert_eq, fmap_insert, fmap_empty. reflexivity.
  - intros H [= <-]. simpl. rewrite lookup_insert_ne by exact En. exact H.
Qed.

Lemma add_fields_checksums (items : list fs_item) acc acc' :
  checksums_match acc.1 acc.2 ->
  add_fields C acc items = Ok acc' ->
  checksums_match acc'.1 acc'.2.
Proof.
  revert acc. induction items as [|it items IH]; intros acc H; simpl.
  - intros [= <-]. exact H.
  - destruct (add_field C acc it) as [acc1|e] eqn:E1; [|discriminate].
    apply IH. eapply add_field_checksums; eauto.
Qed.

End Walk.

(** The payload and the environment [extract_payload] hands to
    [FieldStorage], when the request gets that far: the decompressed body
    for a gzip request, the body as read otherwise. *)
Definition form_input (C : Collaborators) (req : Request)
  : option (bytes * gmap string value) :=
  if headers_accepted req then
    if declares_gzip req then
      match zlib_decompress C (wire_body req) with
      | Some data => Some (data, environ_after_gunzip req data)
      | None => None
      end
    else Some (wire_body req, env req)
  else None.

Lemma extract_payload_form (C : Collaborators) (req : Request) data environ :
  form_input C req = Some (data, environ) ->
  (extract_payload C req).2 =
    match field_storage C data environ with
    | Ok items => add_fields C (∅, ∅) items
    | Raise e => Raise e
    end.
Proof.
  unfold form_input. rewrite extract_payload_cases.
  assert (Hform : forall d e,
    (read_form C d e).2 =
      match field_storage C d e with
      | Ok items => add_fields C (∅, ∅) items
      | Raise x => Raise x
      end).
  { intros d e. unfold read_form, mbind, M_bind, bind, lift.
    destruct (field_storage C d e) as [items|x]; [|reflexivity].
    destruct (add_fields C (∅, ∅) items); reflexivity. }
  destruct (headers_accepted req); [|discriminate]. simpl.
  destruct (declares_gzip req).
  - destruct (zlib_decompress C (wire_body req)) as [d|]; [|discriminate].
    intros [= <- <-]. apply Hform.
  - intros [= <- <-]. apply Hform.
Qed.

(** A walk over text fields only does not raise. *)
Lemma add_fields_text (C : Collaborators) (items : list fs_item) acc :
  Forall (fun it => is_text_field it = true) items ->
  exists acc', add_fields C acc items = Ok acc'.
Proof.
  intros H. revert acc. induction H as [|it items Hit _ IH]; intros acc; simpl.
  - eauto.
  - rewrite (add_field_text C acc it Hit). apply IH.
Qed.

(** C10.  The payload parser keeps text fields whose value is blank.  For
    a request that reaches [FieldStorage], when the form lists a part that
    is stored as a text field and whose value is the empty text,
    [extract_payload] walks the parts before it, stores the empty text
    under the name of the part and walks the parts after it; the raw crash
    it returns holds the empty text under that name unless a later text
    field has the same name; and it does return one when the other parts
    are text fields too. *)
Theorem blank_text_field_kept (C : Collaborators) (req : Request)
    data environ (before after : list fs_item) (it : fs_item) :
  form_input C req = Some (data, environ) ->
  field_storage C data environ = Ok (before ++ it :: after) ->
  is_text_field it = true ->
  fs_value it = FStr EmptyString ->
  (extract_payload C req).2 =
    match add_fields C (∅, ∅) before with
    | Ok (raw_crash, dumps) =>
        add_fields C (<[fs_name it := VStr EmptyString]> raw_crash, dumps) after
    | Raise e => Raise e
    end /\
  (forall raw_crash dumps,
     (extract_payload C req).2 = Ok (raw_crash, dumps) ->
     (forall it', it' ∈ after -> is_text_field it' = true -> fs_name it' <> fs_name it) ->
     raw_crash !! fs_name it = Some (VStr EmptyString)) /\
  (Forall (fun it' => is_text_field it' = true) (before ++ after) ->
   exists raw_crash dumps, (extract_payload C req).2 = Ok (raw_crash, dumps)).
Proof.
  intros Hin Hfs Htext Hblank.
  rewrite (extract_payload_form C req data environ Hin), Hfs.
  assert (E : add_fields C (∅, ∅) (before ++ it :: after) =
    match add_fields C (∅, ∅) before with
    | Ok (raw_crash, dumps) =>
        add_fields C (<[fs_name it := VStr EmptyString]> raw_crash, dumps) after
    | Raise e => Raise e
    end).
  { rewrite add_fields_app.
    destruct (add_fields C (∅, ∅) before) as [[raw dumps]|e]; [|reflexivity].
    cbn [add_fields]. rewrite (add_field_text C _ _ Htext), Hblank. reflexivity. }
  split; [exact E|]. split.
  - intros raw_crash dumps H Hlater. rewrite E in H.
    destruct (add_fields C (∅, ∅) before) as [[raw0 dumps0]|e]; [|discriminate].
    assert (Hk : fs_name it <> "dump_checksums").
    { unfold is_text_field in Htext.
      destruct (bool_decide_reflect (fs_name it = "dump_checksums"));
        [discriminate|assumption]. }
    pose proof (add_fields_other_key C after _ _ (fs_name it) H Hk Hlater) as Hsame.
    simpl in Hsame. rewrite Hsame. apply lookup_insert_eq.
  - intros Hall. apply Forall_app in Hall as [Hb Ha].
    destruct (add_fields_text C (before ++ it :: after) (∅, ∅)) as [[raw dumps] ->];
      [|eauto].
    apply Forall_app. split; [exact Hb|]. constructor; assumption.
Qed.

Module BlankField.

(** A form with a blank [Notes] field between two others. *)
Definition collaborators : Collaborators :=
  Sample.collaborators
    ([Sample.text_part "ProductName" "Firefox"] ++
     Sample.text_part "Notes" EmptyString :: [Sample.text_part "Version" "1.0"])
    Sample.accept_everything.

End BlankField.

Lemma blank_text_field_kept_witness :
  exists raw_crash dumps,
    (extract_payload BlankField.collaborators (Sample.multipart_request [x61])).2 =
      Ok (raw_crash, dumps) /\
    raw_crash !! "Notes" = Some (VStr EmptyString).
Proof.
  eexists _, _. split; [reflexivity|].
  refine (proj1 (proj2 (blank_text_field_kept BlankField.collaborators
                          (Sample.multipart_request [x61]) _ _
                          [Sample.text_part "ProductName" "Firefox"]
                          [Sample.text_part "Version" "1.0"]
                          (Sample.text_part "Notes" EmptyString)
                          eq_refl eq_refl eq_refl eq_refl))
                _ _ eq_refl _).
  intros it' Hin _. apply list_elem_of_singleton in Hin. subst it'. discriminate.
Defined.

(** ** The POST handler, in one piece *)

Section OnPost.

Context (C : Collaborators) (cfg : Config).

(** Lines 331-332: the two timestamps written into the raw crash. *)
Definition stamped (clock : Clock) (raw_crash : gmap string value)
  : gmap string value :=
  <["timestamp" := VFloat (time_time clock)]>
    (<["submitted_timestamp" := VStr (isoformat C (utc_now clock))]> raw_crash).

(** Lines 326-337 of [on_post]: parse, count, stamp and decide.  The
    result is the raw crash after the adapter, the dumps and the throttle
    result of the POST. *)
Definition throttle_of_post (clock : Clock) (req : Request)
  : M (gmap string value * gmap string bytes * (ThrottleResult * string * Z)) :=
  '(raw_crash, dumps) ← extract_payload C req;
  emit (Incr "incoming_crash");;
  '(raw_crash, result) ← get_throttle_result C (stamped clock raw_crash);
  mret (raw_crash, dumps, result).

(** Lines 339-349: the crash id of the report and its raw crash. *)
Definition crash_id_of (clock : Clock) (raw_crash : gmap string value)
    (result : ThrottleResult) : value :=
  match raw_crash !! "uuid" with
  | Some crash_id => crash_id
  | None => VStr (create_crash_id C (utc_now clock) result)
  end.

Definition report_of (clock : Clock) (raw_crash : gmap string value)
    (dumps : gmap string bytes) (result : ThrottleResult) : CrashReport :=
  {| raw_crash :=
       <["type_tag" := VStr (PyStr.strip_char "-" (dump_id_prefix cfg))]>
         (<["uuid" := crash_id_of clock raw_crash result]> raw_crash);
     dumps := dumps;
     crash_id := crash_id_of clock raw_crash result |}.

(** The counter of lines 354-362 for a value of [legacy_processing]. *)
Definition throttle_counter (legacy_processing : value) : list metric :=
  if bool_decide (legacy_processing = VInt (code ACCEPT)) then [Incr "throttle.accept"]
  else if bool_decide (legacy_processing = VInt (code DEFER)) then [Incr "throttle.defer"]
  else if bool_decide (legacy_processing = VInt (code REJECT)) then [Incr "throttle.reject"]
  else [].

Definition discarded : Response :=
  {| resp_status := HTTP_200; resp_content_type := "text/plain";
     resp_body := "Discarded=1" |}.

Definition crash_id_answer (id_text : string) : Response :=
  {| resp_status := HTTP_200; resp_content_type := "text/plain";
     resp_body := "CrashID=" +:+ dump_id_prefix cfg +:+ id_text +:+ String "010" EmptyString |}.

Definition answer (crash_id : value) : res Response :=
  match percent_s crash_id with
  | Ok id_text => Ok (crash_id_answer id_text)
  | Raise e => Raise e
  end.

Lemma emit_all_emit_all out1 out2 st :
  emit_all out2 (emit_all out1 st) = emit_all (out1 ++ out2) st.
Proof. unfold emit_all. simpl. rewrite app_assoc. reflexivity. Qed.

Lemma emit_all_nil st : emit_all [] st = st.
Proof. destruct st. unfold emit_all. simpl. rewrite app_nil_r. reflexivity. Qed.

Lemma add_to_queue_emit_all out r st :
  add_to_queue cfg r (emit_all out st) = emit_all out (add_to_queue cfg r st).
Proof.
  unfold add_to_queue, free_count. simpl.
  destruct (0 <? _); reflexivity.
Qed.

Lemma insert_uuid (clock : Clock) (raw_crash : gmap string value) (result : ThrottleResult) :
  <["uuid" := crash_id_of clock raw_crash result]> raw_crash =
    match raw_crash !! "uuid" with
    | Some _ => raw_crash
    | None => <["uuid" := VStr (create_crash_id C (utc_now clock) result)]> raw_crash
    end.
Proof.
  unfold crash_id_of. destruct (raw_crash !! "uuid") eqn:E; [|reflexivity].
  apply insert_id, E.
Qed.

Lemma enqueue_and_answer_eq raw_crash dumps crash_id st :
  enqueue_and_answer cfg raw_crash dumps crash_id st =
    (answer crash_id, add_to_queue cfg (mkCrashReport raw_crash dumps crash_id) st).
Proof.
  unfold enqueue_and_answer, answer, mbind, Handler_bind, modify, run_M, lift, mret, Handler_ret.
  simpl. rewrite emit_all_nil. destruct (percent_s crash_id); reflexivity.
Qed.

(** [on_post] in one piece: what it answers and what it leaves behind,
    from the throttle result of the POST. *)
Lemma on_post_spec (clock : Clock) (req : Request) (st : State) :
  on_post C cfg clock req st =
    match throttle_of_post clock req with
    | (out, Raise e) => (Raise e, emit_all out st)
    | (out, Ok (raw_crash, dumps, (result, _, _))) =>
        let r := report_of clock raw_crash dumps result in
        match raw_crash !! "legacy_processing" with
        | None => (Raise KeyError, emit_all out st)
        | Some lp =>
            if bool_decide (lp = VInt (code REJECT))
            then (Ok discarded, emit_all (out ++ [Incr "throttle.reject"]) st)
            else (answer (crash_id r),
                  emit_all (out ++ throttle_counter lp) (add_to_queue cfg r st))
        end
    end.
Proof.
  unfold on_post, throttle_of_post.
  unfold mbind at 1. unfold Handler_bind at 1. unfold run_M at 1.
  destruct (extract_payload C req) as [o1 [[raw0 dumps0]|e]]; simpl;
    [|reflexivity].
  unfold mbind, Handler_bind, M_bind, bind, run_M, emit, mret, M_ret, Handler_ret, ret, lift.
  simpl. fold (stamped clock raw0).
  destruct (get_throttle_result C (stamped clock raw0))
    as [o2 [[raw1 [[d rule] pct]]|e]]; simpl.
  2: { rewrite !emit_all_emit_all. reflexivity. }
  rewrite !emit_all_emit_all.
  assert (Elp : forall m : gmap string value,
    getitem (<["type_tag" := VStr (PyStr.strip_char "-" (dump_id_prefix cfg))]> m)
      "legacy_processing" = getitem m "legacy_processing").
  { intros m. unfold getitem. rewrite lookup_insert_ne by discriminate. reflexivity. }
  unfold report_of. rewrite insert_uuid. unfold crash_id_of.
  rewrite app_nil_r. simpl app.
  assert (Euu : forall v, getitem (<["uuid" := v]> raw1) "legacy_processing"
                          = getitem raw1 "legacy_processing").
  { intros v. unfold getitem. rewrite lookup_insert_ne by discriminate. reflexivity. }
  destruct (raw1 !! "uuid") as [u|]; cbv beta iota zeta; rewrite Elp, ?Euu;
    unfold getitem, throttle_counter; simpl code;
    (destruct (raw1 !! "legacy_processing") as [lp|];
     [|rewrite emit_all_nil; reflexivity]);
    destruct (bool_decide_reflect (lp = VInt 0)) as [->|?];
    try destruct (bool_decide_reflect (lp = VInt 1)) as [->|?];
    try destruct (bool_decide_reflect (lp = VInt 2)) as [->|?];
    simpl;
    rewrite ?enqueue_and_answer_eq, ?add_to_queue_emit_all, ?emit_all_emit_all,
      ?emit_all_nil, ?app_nil_r;
    reflexivity.
Qed.

End OnPost.

Section Posts.

Context (C : Collaborators) (cfg : Config).

Lemma extract_payload_checksums (req : Request) out raw_crash dumps :
  extract_payload C req = (out, Ok (raw_crash, dumps)) ->
  checksums_match C raw_crash dumps.
Proof.
  assert (H0 : checksums_match C ∅ ∅) by reflexivity.
  assert (Hform : forall data environ,
    (read_form C data environ).2 = Ok (raw_crash, dumps) ->
    checksums_match C raw_crash dumps).
  { intros data environ. unfold read_form, mbind, M_bind, bind, lift.
    destruct (field_storage C data environ) as [l|e]; [|discriminate].
    destruct (add_fields C (∅, ∅) l) as [acc|e] eqn:E; [|discriminate].
    simpl. intros [= ->].
    apply (add_fields_checksums C l (∅, ∅) (raw_crash, dumps) H0 E). }
  rewrite extract_payload_cases.
  destruct (negb (headers_accepted req)); [intros [= _ <- <-]; exact H0|].
  destruct (declares_gzip req).
  - destruct (zlib_decompress C (wire_body req)) as [data|];
      [|intros [= _ <- <-]; exact H0].
    intros [= _ H]. eapply Hform, H.
  - intros [= _ H]. eapply Hform, H.
Qed.

(** The parts of a successful [throttle_of_post]. *)
Lemma throttle_of_post_ok (clock : Clock) (req : Request)
    out raw_crash dumps result :
  throttle_of_post C clock req = (out, Ok (raw_crash, dumps, result)) ->
  exists o1 raw0 o2,
    extract_payload C req = (o1, Ok (raw0, dumps)) /\
    get_throttle_result C (stamped C clock raw0) = (o2, Ok (raw_crash, result)) /\
    out = o1 ++ Incr "incoming_crash" :: o2.
Proof.
  unfold throttle_of_post, mbind, M_bind, bind, emit, mret, M_ret, ret.
  destruct (extract_payload C req) as [o1 [[raw0 dumps0]|e]]; [|discriminate].
  destruct (get_throttle_result C (stamped C clock raw0))
    as [o2 [[raw1 res1]|e]] eqn:E2; [|discriminate].
  simpl. rewrite app_nil_r. intros [= <- <- <- <-].
  exists o1, raw0, o2. auto.
Qed.

Lemma stamped_other (clock : Clock) (raw_crash : gmap string value) (k : string) :
  k <> "timestamp" -> k <> "submitted_timestamp" ->
  stamped C clock raw_crash !! k = raw_crash !! k.
Proof.
  intros H1 H2. unfold stamped. rewrite !lookup_insert_ne by congruence.
  reflexivity.
Qed.

(** The throttle result of a POST and the value [on_post] then finds
    under [legacy_processing]: the decision itself after a fresh decision,
    the client's value, which is no integer 2, after ALREADY_THROTTLED. *)
Lemma throttle_of_post_legacy_processing (clock : Clock) (req : Request)
    out raw_crash dumps d rule rate :
  throttle_of_post C clock req = (out, Ok (raw_crash, dumps, (d, rule, rate))) ->
  exists lp,
    raw_crash !! "legacy_processing" = Some lp /\
    py_int lp = Ok (code d) /\
    (d = REJECT -> lp = VInt (code REJECT)) /\
    (d <> REJECT -> lp <> VInt (code REJECT)).
Proof.
  intros H. apply throttle_of_post_ok in H as (o1 & raw0 & o2 & _ & H & _).
  apply get_throttle_result_ok in H as [(-> & _)|(-> & _ & lp & tr & Hlp & _ & Hi & _ & Hd & _)].
  - exists (VInt (code d)). split; [apply with_results_lookup|].
    split; [reflexivity|]. split; [intros ->; reflexivity|].
    intros Hd [= E]. destruct d; simpl in E; congruence.
  - exists lp. split; [exact Hlp|]. split; [exact Hi|].
    split; [intros ->; congruence|].
    intros _ ->. simpl in Hi. destruct d; simpl in Hi; congruence.
Qed.

(** A POST enqueues its report exactly when its decision is not REJECT. *)
Lemma on_post_queue (clock : Clock) (req : Request) (st : State) :
  save_queue (on_post C cfg clock req st).2 =
    match throttle_of_post C clock req with
    | (_, Ok (raw_crash, dumps, (d, _, _))) =>
        if bool_decide (d = REJECT) then save_queue st
        else save_queue st ++ [report_of C cfg clock raw_crash dumps d]
    | (_, Raise _) => save_queue st
    end.
Proof.
  rewrite on_post_spec.
  destruct (throttle_of_post C clock req)
    as [out [[[raw dumps] [[d rule] rate]]|e]] eqn:E; [|reflexivity].
  destruct (throttle_of_post_legacy_processing _ _ _ _ _ _ _ _ E)
    as (lp & -> & _ & Hr & Hn).
  cbv zeta.
  destruct (bool_decide_reflect (d = REJECT)) as [Hd|Hd].
  - rewrite (Hr Hd), bool_decide_eq_true_2 by reflexivity. reflexivity.
  - rewrite bool_decide_eq_false_2 by (apply Hn, Hd).
    unfold add_to_queue. simpl. destruct (0 <? _); reflexivity.
Qed.

End Posts.

(** ** Reports that reach the queue *)

(** C1 as the specification words it, for a report enqueued under decision
    [d]: the four reserved entries of its raw crash. *)
Definition enqueued_invariant_as_stated (C : Collaborators) (d : ThrottleResult)
    (r : CrashReport) : Prop :=
  raw_crash r !! "uuid" = Some (crash_id r) /\
  raw_crash r !! "legacy_processing" = Some (VInt (code d)) /\
  (exists rate, raw_crash r !! "throttle_rate" = Some (VInt rate) /\ 0 <= rate <= 100) /\
  (forall n b, dumps r !! n = Some b ->
     exists sums, raw_crash r !! "dump_checksums" = Some (VDict sums) /\
                  sums !! n = Some (md5_hexdigest C b)).

Module Resubmitted.

(** A POST of a crash that was throttled before: its form carries
    [legacy_processing = 0] and [throttle_rate = 100]. *)
Definition collaborators : Collaborators :=
  Sample.collaborators
    [Sample.text_part "legacy_processing" "0"; Sample.text_part "throttle_rate" "100"]
    Sample.accept_everything.

Definition request : Request := Sample.multipart_request [x61].

(** The report [on_post] puts on the queue for it. *)
Definition report : CrashReport :=
  {| raw_crash :=
       {[ "legacy_processing" := VStr "0";
          "throttle_rate" := VStr "100";
          "submitted_timestamp" := VStr "2011-09-06T00:00:00+00:00";
          "timestamp" := VFloat 1315267200000000;
          "uuid" := VStr Sample.a_crash_id;
          "type_tag" := VStr "bp" ]};
     dumps := ∅;
     crash_id := VStr Sample.a_crash_id |}.

End Resubmitted.

(** C1, counterexample.  A POST whose form carries [legacy_processing = 0]
    and [throttle_rate = 100] is decided ACCEPT under ALREADY_THROTTLED and
    its report is enqueued; the raw crash of that report holds the two
    fields as the texts the client sent, not as the decision and an integer
    rate. *)
Lemma resubmitted_report_keeps_texts :
  (throttle_of_post Resubmitted.collaborators Sample.clock Resubmitted.request).2 =
    Ok (raw_crash Resubmitted.report
          ∖ {[ "uuid" := VStr Sample.a_crash_id; "type_tag" := VStr "bp" ]},
        ∅, (ACCEPT, "ALREADY_THROTTLED", 100)) /\
  save_queue (on_post Resubmitted.collaborators default_config Sample.clock
                Resubmitted.request init_state).2 = [Resubmitted.report] /\
  raw_crash Resubmitted.report !! "legacy_processing" = Some (VStr "0") /\
  ~ enqueued_invariant_as_stated Resubmitted.collaborators ACCEPT Resubmitted.report.
Proof.
  split; [vm_compute; reflexivity|].
  split; [vm_compute; reflexivity|].
  split; [vm_compute; reflexivity|].
  intros (_ & H & _). vm_compute in H. discriminate H.
Qed.

(** C1, amended.  For every report that [on_post] enqueues, under a
    throttler whose rates for decisions other than REJECT lie between 0 and
    100: the decision of the POST is not REJECT; [uuid] equals the crash id;
    [legacy_processing] and [throttle_rate] are values that [int()] reads
    as the decision and as a rate between 0 and 100, and they are those
    integers themselves unless the rule is ALREADY_THROTTLED, where they
    stay what the client sent; and for every dump name [n],
    [dump_checksums[n]] is the MD5 of [dumps[n]]. *)
Theorem enqueued_report_invariant (C : Collaborators) (cfg : Config)
    (clock : Clock) (req : Request) (st : State) (r : CrashReport) :
  (forall m d rule rate, throttle C m = (d, rule, rate) -> d <> REJECT -> 0 <= rate <= 100) ->
  save_queue (on_post C cfg clock req st).2 = save_queue st ++ [r] ->
  exists out raw dumps0 d rule rate,
    throttle_of_post C clock req = (out, Ok (raw, dumps0, (d, rule, rate))) /\
    d <> REJECT /\
    raw_crash r !! "uuid" = Some (crash_id r) /\
    (exists lp tr,
       raw_crash r !! "legacy_processing" = Some lp /\
       raw_crash r !! "throttle_rate" = Some tr /\
       py_int lp = Ok (code d) /\ py_int tr = Ok rate /\ 0 <= rate <= 100 /\
       (rule <> "ALREADY_THROTTLED" -> lp = VInt (code d) /\ tr = VInt rate)) /\
    (forall n b, dumps r !! n = Some b ->
       exists sums, raw_crash r !! "dump_checksums" = Some (VDict sums) /\
                    sums !! n = Some (md5_hexdigest C b)).
Proof.
  intros Hrange Hq. rewrite on_post_queue in Hq.
  assert (Hno : save_queue st <> save_queue st ++ [r]).
  { intros E. apply (f_equal length) in E. rewrite length_app in E. simpl in E. lia. }
  destruct (throttle_of_post C clock req)
    as [out [[[raw dumps0] [[d rule] rate]]|e]] eqn:E; [|contradiction].
  destruct (bool_decide_reflect (d = REJECT)) as [Hd|Hd]; [contradiction|].
  apply app_inv_head in Hq. injection Hq as <-.
  exists out, raw, dumps0, d, rule, rate.
  split; [reflexivity|]. split; [exact Hd|].
  destruct (throttle_of_post_ok _ _ _ _ _ _ _ E) as (o1 & raw0 & o2 & Hex & Hth & _).
  apply extract_payload_checksums in Hex.
  assert (Hkeep : forall k, k <> "type_tag" -> k <> "uuid" ->
    raw_crash (report_of C cfg clock raw dumps0 d) !! k = raw !! k).
  { intros k H1 H2. unfold report_of. simpl.
    rewrite !lookup_insert_ne by congruence. reflexivity. }
  split.
  { unfold report_of. simpl. rewrite lookup_insert_ne by discriminate.
    apply lookup_insert_eq. }
  rewrite !Hkeep by discriminate.
  apply get_throttle_result_ok in Hth
    as [(-> & Hres)|(-> & -> & lp & tr & Hlp & Htr & Hi & Hr & _ & Hb)].
  - split.
    + exists (VInt (code d)), (VInt rate).
      destruct (with_results_lookup (stamped C clock raw0) d rate) as [-> ->].
      repeat split; try reflexivity.
      all: destruct Hres as [[= -> -> ->]|Ht]; try lia.
      all: symmetry in Ht; apply (Hrange _ _ _ _ Ht Hd).
    + intros n b Hn. simpl in Hn.
      rewrite with_results_other, stamped_other by discriminate.
      unfold checksums_match in Hex.
      destruct (raw0 !! "dump_checksums") as [[| | | |sums]|]; try contradiction.
      * exists sums. split; [reflexivity|]. subst sums. rewrite lookup_fmap, Hn. reflexivity.
      * subst dumps0. rewrite lookup_empty in Hn. discriminate.
  - split.
    + exists lp, tr. repeat split; auto; try lia; congruence.
    + intros n b Hn. simpl in Hn.
      rewrite stamped_other by discriminate.
      unfold checksums_match in Hex.
      destruct (raw0 !! "dump_checksums") as [[| | | |sums]|]; try contradiction.
      * exists sums. split; [reflexivity|]. subst sums. rewrite lookup_fmap, Hn. reflexivity.
      * subst dumps0. rewrite lookup_empty in Hn. discriminate.
Qed.

Module FirstScenario.

(** A POST with a text field [ProductName = Firefox] and a dump
    [upload_file_minidump] of three bytes. *)
Definition minidump : bytes := [xaa; xbb; xcc].

Definition collaborators : Collaborators :=
  Sample.collaborators
    [Sample.text_part "ProductName" "Firefox";
     {| fs_name := "upload_file_minidump";
        fs_type := Some "application/octet-stream";
        fs_value := FBytes minidump |}]
    Sample.accept_everything.

Definition request : Request := Sample.multipart_request [x61].

Definition report : CrashReport :=
  {| raw_crash :=
       {[ "ProductName" := VStr "Firefox";
          "dump_checksums" :=
            VDict {[ "upload_file_minidump" := md5_hexdigest collaborators minidump ]};
          "legacy_processing" := VInt 0;
          "throttle_rate" := VInt 100;
          "submitted_timestamp" := VStr "2011-09-06T00:00:00+00:00";
          "timestamp" := VFloat 1315267200000000;
          "uuid" := VStr Sample.a_crash_id;
          "type_tag" := VStr "bp" ]};
     dumps := {[ "upload_file_minidump" := minidump ]};
     crash_id := VStr Sample.a_crash_id |}.

Lemma throttler_in_range m d rule rate :
  throttle collaborators m = (d, rule, rate) -> d <> REJECT -> 0 <= rate <= 100.
Proof. intros [= <- <- <-] _. lia. Defined.

End FirstScenario.

Lemma enqueued_report_invariant_witness :
  save_queue (on_post FirstScenario.collaborators default_config Sample.clock
                FirstScenario.request init_state).2 = [FirstScenario.report] /\
  exists out raw dumps0 d rule rate,
    throttle_of_post FirstScenario.collaborators Sample.clock FirstScenario.request =
      (out, Ok (raw, dumps0, (d, rule, rate))) /\
    d <> REJECT /\
    raw_crash FirstScenario.report !! "uuid" = Some (crash_id FirstScenario.report) /\
    (exists lp tr,
       raw_crash FirstScenario.report !! "legacy_processing" = Some lp /\
       raw_crash FirstScenario.report !! "throttle_rate" = Some tr /\
       py_int lp = Ok (code d) /\ py_int tr = Ok rate /\ 0 <= rate <= 100 /\
       (rule <> "ALREADY_THROTTLED" -> lp = VInt (code d) /\ tr = VInt rate)) /\
    (forall n b, dumps FirstScenario.report !! n = Some b ->
       exists sums,
         raw_crash FirstScenario.report !! "dump_checksums" = Some (VDict sums) /\
         sums !! n = Some (md5_hexdigest FirstScenario.collaborators b)).
Proof.
  assert (E : save_queue (on_post FirstScenario.collaborators default_config
                            Sample.clock FirstScenario.request init_state).2
              = [FirstScenario.report]) by reflexivity.
  split; [exact E|].
  exact (enqueued_report_invariant FirstScenario.collaborators default_config
           Sample.clock FirstScenario.request init_state FirstScenario.report
           FirstScenario.throttler_in_range E).
Defined.

(** ** Malformed payloads *)

(** The payload is refused by one of the checks of lines 188-221: no or a
    wrong content type, no or a zero content length, or a body that is
    declared gzip and does not decompress. *)
Definition malformed (C : Collaborators) (req : Request) : bool :=
  negb (headers_accepted req) ||
  (declares_gzip req && bool_decide (zlib_decompress C (wire_body req) = None)).

Section Malformed.

Context (C : Collaborators) (cfg : Config).

Lemma extract_payload_malformed (req : Request) :
  malformed C req = true -> (extract_payload C req).2 = Ok (∅, ∅).
Proof.
  unfold malformed. rewrite extract_payload_cases.
  destruct (negb (headers_accepted req)); [reflexivity|]. simpl.
  destruct (declares_gzip req); [|discriminate]. simpl.
  destruct (zlib_decompress C (wire_body req)); [|reflexivity].
  rewrite bool_decide_eq_false_2 by discriminate. discriminate.
Qed.

(** On an empty raw crash the adapter goes to the throttler. *)
Lemma get_throttle_result_stamped_empty (clock : Clock) :
  get_throttle_result C (stamped C clock ∅) =
    ([], Ok (with_results (stamped C clock ∅) (throttle C (stamped C clock ∅)).1.1
               (throttle C (stamped C clock ∅)).2,
             throttle C (stamped C clock ∅))).
Proof.
  rewrite get_throttle_result_cases. unfold saved_results.
  rewrite stamped_other, lookup_empty by discriminate.
  destruct (throttle C (stamped C clock ∅)) as [[d rule] rate] eqn:E.
  apply throttle_and_save_throttler; [|exact E].
  rewrite stamped_other, lookup_empty by discriminate. discriminate.
Qed.

Lemma throttle_of_post_malformed (clock : Clock) (req : Request) :
  malformed C req = true ->
  throttle_of_post C clock req =
    ((extract_payload C req).1 ++ [Incr "incoming_crash"],
     Ok (with_results (stamped C clock ∅) (throttle C (stamped C clock ∅)).1.1
           (throttle C (stamped C clock ∅)).2,
         ∅, throttle C (stamped C clock ∅))).
Proof.
  intros H. apply extract_payload_malformed in H.
  unfold throttle_of_post, mbind, M_bind, bind, emit, mret, M_ret, ret.
  destruct (extract_payload C req) as [o1 r]. simpl in H. subst r.
  rewrite get_throttle_result_stamped_empty. simpl. reflexivity.
Qed.

(** The report of a malformed payload under decision [d] and rate
    [rate]: no dumps, and a raw crash of the six entries [on_post] itself
    writes. *)
Definition empty_crash_report (clock : Clock) (d : ThrottleResult) (rate : Z) : CrashReport :=
  let crash_id := VStr (create_crash_id C (utc_now clock) d) in
  {| raw_crash :=
       <["type_tag" := VStr (PyStr.strip_char "-" (dump_id_prefix cfg))]>
         (<["uuid" := crash_id]> (with_results (stamped C clock ∅) d rate));
     dumps := ∅;
     crash_id := crash_id |}.

(** C3 as the specification words it: a crash id is answered and the
    report in the pipeline has an empty raw crash and no dumps. *)
Definition malformed_post_as_stated (clock : Clock) (req : Request) (st : State) : Prop :=
  exists id r,
    (on_post C cfg clock req st).1 = Ok (crash_id_answer cfg id) /\
    save_queue (on_post C cfg clock req st).2 = save_queue st ++ [r] /\
    raw_crash r = ∅ /\ dumps r = ∅.

End Malformed.

(** C3, counterexample.  A POST without a content type, under a throttler
    that accepts everything, is answered with a crash id, and the report
    enqueued for it has no dumps but a raw crash of six entries: the two
    timestamps, the throttle results, the crash id and the type tag. *)
Lemma malformed_report_not_empty :
  malformed Sample.accepting Sample.no_content_type_request = true /\
  save_queue (on_post Sample.accepting default_config Sample.clock
                Sample.no_content_type_request init_state).2 =
    [empty_crash_report Sample.accepting default_config Sample.clock ACCEPT 100] /\
  raw_crash (empty_crash_report Sample.accepting default_config Sample.clock ACCEPT 100) =
    {[ "legacy_processing" := VInt 0;
       "throttle_rate" := VInt 100;
       "submitted_timestamp" := VStr "2011-09-06T00:00:00+00:00";
       "timestamp" := VFloat 1315267200000000;
       "uuid" := VStr Sample.a_crash_id;
       "type_tag" := VStr "bp" ]} /\
  ~ malformed_post_as_stated Sample.accepting default_config Sample.clock
      Sample.no_content_type_request init_state.
Proof.
  assert (E : save_queue (on_post Sample.accepting default_config Sample.clock
                            Sample.no_content_type_request init_state).2 =
              [empty_crash_report Sample.accepting default_config Sample.clock ACCEPT 100])
    by (vm_compute; reflexivity).
  split; [reflexivity|]. split; [exact E|]. split; [vm_compute; reflexivity|].
  intros (id & r & _ & Hq & Hraw & _). rewrite E in Hq. simpl in Hq.
  injection Hq as <-.
  apply (f_equal (fun m : gmap string value => m !! "uuid")) in Hraw.
  vm_compute in Hraw. discriminate Hraw.
Qed.

(** C3, amended.  For every POST with a malformed payload the parser
    returns an empty raw crash and no dumps, and the throttler decides on
    the empty raw crash with its two timestamps.  When the decision is
    REJECT the answer is [Discarded=1] and nothing is enqueued; otherwise
    the answer is [CrashID=<prefix><id>] and a newline, with [id] freshly
    made by [create_crash_id], and the report enqueued has no dumps and a
    raw crash of exactly the entries [on_post] writes: the timestamps,
    [legacy_processing], [throttle_rate], [uuid] and [type_tag]. *)
Theorem malformed_post (C : Collaborators) (cfg : Config)
    (clock : Clock) (req : Request) (st : State) :
  malformed C req = true ->
  (extract_payload C req).2 = Ok (∅, ∅) /\
  match throttle C (stamped C clock ∅) with
  | (d, _, rate) =>
      if bool_decide (d = REJECT) then
        (on_post C cfg clock req st).1 = Ok (discarded) /\
        save_queue (on_post C cfg clock req st).2 = save_queue st
      else
        (on_post C cfg clock req st).1 =
          Ok (crash_id_answer cfg (create_crash_id C (utc_now clock) d)) /\
        save_queue (on_post C cfg clock req st).2 =
          save_queue st ++ [empty_crash_report C cfg clock d rate]
  end.
Proof.
  intros H. split; [apply extract_payload_malformed, H|].
  rewrite on_post_queue, on_post_spec, (throttle_of_post_malformed C clock req H).
  destruct (throttle C (stamped C clock ∅)) as [[d rule] rate]. simpl fst. simpl snd.
  cbv zeta.
  destruct (with_results_lookup (stamped C clock ∅) d rate) as [-> _].
  assert (Eid : crash_id_of C clock (with_results (stamped C clock ∅) d rate) d
                = VStr (create_crash_id C (utc_now clock) d)).
  { unfold crash_id_of.
    rewrite with_results_other, stamped_other, lookup_empty by discriminate.
    reflexivity. }
  destruct (bool_decide_reflect (d = REJECT)) as [->|Hd].
  - rewrite bool_decide_eq_true_2 by reflexivity. split; reflexivity.
  - rewrite bool_decide_eq_false_2
      by (intros [= E]; destruct d; simpl in E; congruence).
    simpl. unfold report_of, empty_crash_report. rewrite Eid. split; reflexivity.
Qed.

Lemma malformed_post_witness :
  (on_post Sample.accepting default_config Sample.clock
     Sample.no_content_type_request init_state).1 =
    Ok (crash_id_answer default_config Sample.a_crash_id) /\
  save_queue (on_post Sample.accepting default_config Sample.clock
                Sample.no_content_type_request init_state).2 =
    [empty_crash_report Sample.accepting default_config Sample.clock ACCEPT 100].
Proof.
  exact (proj2 (malformed_post Sample.accepting default_config Sample.clock
                  Sample.no_content_type_request init_state eq_refl)).
Defined.

(** ** The pipeline behind the handler *)

Section Pipeline.

Context (C : Collaborators) (cfg : Config).

(** Two states with the same queue, the same pool and the same calls on
    the crash storage: they differ in the metrics emitted at most. *)
Definition same_pipeline (st1 st2 : State) : Prop :=
  save_queue st1 = save_queue st2 /\
  pipeline_pool st1 = pipeline_pool st2 /\
  crashstorage st1 = crashstorage st2.

Lemma same_pipeline_refl st : same_pipeline st st.
Proof. repeat split. Qed.

Lemma same_pipeline_emit_all out1 out2 st1 st2 :
  same_pipeline st1 st2 -> same_pipeline (emit_all out1 st1) (emit_all out2 st2).
Proof. intros H. exact H. Qed.

Lemma same_pipeline_add_to_queue r st1 st2 :
  same_pipeline st1 st2 ->
  same_pipeline (add_to_queue cfg r st1) (add_to_queue cfg r st2).
Proof.
  destruct st1, st2. unfold same_pipeline. simpl. intros (-> & -> & ->).
  unfold add_to_queue, free_count. simpl. destruct (0 <? _); repeat split.
Qed.

Lemma same_pipeline_loop_head i st1 st2 :
  same_pipeline st1 st2 -> same_pipeline (loop_head i st1) (loop_head i st2).
Proof.
  destruct st1, st2. unfold same_pipeline. simpl. intros (-> & -> & ->).
  unfold loop_head. simpl. destruct (0 <? _); [|repeat split].
  destruct (SaveQueue.next _) as [[r|] q]; repeat split.
Qed.

Lemma same_pipeline_resume i ok now st1 st2 :
  same_pipeline st1 st2 ->
  same_pipeline (resume cfg i ok now st1) (resume cfg i ok now st2).
Proof.
  intros H. pose proof H as (Hq & Hp & Hc). unfold resume, retry_later.
  rewrite Hp. destruct (pipeline_pool st2 !! i) as [[|r|r]|]; [| | |exact H].
  - apply same_pipeline_loop_head, H.
  - destruct ok.
    + unfold same_pipeline. simpl. rewrite Hq, Hp, Hc. repeat split.
    + apply same_pipeline_loop_head, same_pipeline_add_to_queue, H.
  - destruct ok; [destruct (timestamp_micros (raw_crash r))|].
    + apply same_pipeline_loop_head, same_pipeline_emit_all, H.
    + apply same_pipeline_loop_head, same_pipeline_add_to_queue, H.
    + apply same_pipeline_loop_head, same_pipeline_add_to_queue, H.
Qed.

Lemma same_pipeline_step a st1 st2 :
  same_pipeline st1 st2 -> same_pipeline (step C cfg st1 a) (step C cfg st2 a).
Proof.
  intros H. destruct a as [clock req|i ok now|]; simpl.
  - rewrite !on_post_spec.
    destruct (throttle_of_post C clock req)
      as [out [[[raw dumps] [[d rule] rate]]|e]]; [|exact H].
    cbv zeta. destruct (raw !! "legacy_processing") as [lp|]; [|exact H].
    destruct (bool_decide _); [exact H|].
    apply same_pipeline_emit_all, same_pipeline_add_to_queue, H.
  - apply same_pipeline_resume, H.
  - exact H.
Qed.

Lemma same_pipeline_run schedule st1 st2 :
  same_pipeline st1 st2 ->
  same_pipeline (run C cfg st1 schedule) (run C cfg st2 schedule).
Proof.
  revert st1 st2. induction schedule as [|a schedule IH]; intros st1 st2 H.
  - exact H.
  - simpl. apply IH, same_pipeline_step, H.
Qed.

End Pipeline.

(** C5.  For every POST whose throttle decision is REJECT, [on_post]
    answers 200 OK with the body [Discarded=1] and leaves the queue, the
    pool and the calls on the crash storage as they were; whatever happens
    afterwards, the queue, the pool and the storage calls are those of a
    process that never saw the POST, so neither [save_dumps] nor
    [save_raw_crash] is ever called for it. *)
Theorem rejected_post (C : Collaborators) (cfg : Config)
    (clock : Clock) (req : Request) (st : State) out raw dumps0 rule rate :
  throttle_of_post C clock req = (out, Ok (raw, dumps0, (REJECT, rule, rate))) ->
  (on_post C cfg clock req st).1 =
    Ok {| resp_status := "200 OK"; resp_content_type := "text/plain";
          resp_body := "Discarded=1" |} /\
  save_queue (on_post C cfg clock req st).2 = save_queue st /\
  SaveQueue.len (save_queue (on_post C cfg clock req st).2) = SaveQueue.len (save_queue st) /\
  pipeline_pool (on_post C cfg clock req st).2 = pipeline_pool st /\
  crashstorage (on_post C cfg clock req st).2 = crashstorage st /\
  forall schedule,
    same_pipeline (run C cfg st (Post clock req :: schedule)) (run C cfg st schedule).
Proof.
  intros H.
  destruct (throttle_of_post_legacy_processing C _ _ _ _ _ _ _ _ H)
    as (lp & Hlp & _ & Hr & _).
  specialize (Hr eq_refl). subst lp.
  assert (E : on_post C cfg clock req st =
              (Ok (discarded), emit_all (out ++ [Incr "throttle.reject"]) st)).
  { rewrite on_post_spec, H. cbv zeta. rewrite Hlp.
    rewrite bool_decide_eq_true_2 by reflexivity. reflexivity. }
  rewrite E. simpl. do 5 (split; [reflexivity|]).
  intros schedule. simpl. apply same_pipeline_run.
  rewrite E. simpl. unfold same_pipeline. simpl. auto.
Qed.

Lemma rejected_post_witness :
  (on_post Sample.rejecting default_config Sample.clock
     (Sample.multipart_request [x61]) init_state).1 =
    Ok {| resp_status := "200 OK"; resp_content_type := "text/plain";
          resp_body := "Discarded=1" |} /\
  save_queue (on_post Sample.rejecting default_config Sample.clock
                (Sample.multipart_request [x61]) init_state).2 = [].
Proof.
  pose proof (rejected_post Sample.rejecting default_config Sample.clock
                (Sample.multipart_request [x61]) init_state _ _ _ _ _ eq_refl)
    as (H1 & H2 & _).
  split; [exact H1 | exact H2].
Defined.

(** ** The save workers *)

Section Workers.

Context (cfg : Config).

Lemma add_to_queue_fields r st :
  save_queue (add_to_queue cfg r st) = save_queue st ++ [r] /\
  crashstorage (add_to_queue cfg r st) = crashstorage st /\
  mymetrics (add_to_queue cfg r st) = mymetrics st /\
  (pipeline_pool (add_to_queue cfg r st) = pipeline_pool st \/
   pipeline_pool (add_to_queue cfg r st) = pipeline_pool st ++ [Spawned]).
Proof.
  unfold add_to_queue. destruct (0 <? _); simpl; auto.
Qed.

Lemma add_to_queue_lookup r st i w :
  pipeline_pool st !! i = Some w ->
  pipeline_pool (add_to_queue cfg r st) !! i = Some w.
Proof.
  intros H. destruct (add_to_queue_fields r st) as (_ & _ & _ & [-> | ->]);
    [exact H|].
  apply lookup_app_l_Some, H.
Qed.

(** The loop head on a queue that is not empty: the worker takes the head
    of the queue and calls [save_dumps] with its crash id and dumps. *)
Lemma loop_head_takes i r q st :
  save_queue st = r :: q ->
  loop_head i st =
    {| save_queue := q;
       pipeline_pool := <[i := InSaveDumps r]> (pipeline_pool st);
       crashstorage := crashstorage st ++ [SaveDumps (crash_id r) (dumps r)];
       mymetrics := mymetrics st |}.
Proof.
  intros H. unfold loop_head. rewrite H. reflexivity.
Qed.

(** The loop head on an empty queue: the worker ends. *)
Lemma loop_head_ends i st :
  save_queue st = [] ->
  loop_head i st = set_pool (delete i (pipeline_pool st)) st.
Proof.
  intros H. unfold loop_head. rewrite H. reflexivity.
Qed.

(** A report that could not be saved goes to the tail of the queue, and
    the worker goes on with the head of the queue so extended. *)
Lemma retry_later_takes i r st :
  exists r' q',
    save_queue st ++ [r] = r' :: q' /\
    save_queue (retry_later cfg i r st) = q' /\
    crashstorage (retry_later cfg i r st) =
      crashstorage st ++ [SaveDumps (crash_id r') (dumps r')] /\
    mymetrics (retry_later cfg i r st) = mymetrics st /\
    pipeline_pool (retry_later cfg i r st) =
      <[i := InSaveDumps r']> (pipeline_pool (add_to_queue cfg r st)).
Proof.
  destruct (add_to_queue_fields r st) as (Hq & Hc & Hm & _).
  destruct (save_queue st ++ [r]) as [|r' q'] eqn:E.
  { destruct (save_queue st); discriminate E. }
  exists r', q'. split; [reflexivity|].
  unfold retry_later. rewrite (loop_head_takes i r' q') by congruence.
  simpl. rewrite Hc, Hm. auto.
Qed.

End Workers.

Section SaveOrder.

Context (C : Collaborators) (cfg : Config).

(** Every call of [save_raw_crash] in the log comes after a call of
    [save_dumps] for the same report. *)
Definition dumps_saved_first (log : list storage_call) : Prop :=
  forall k id raw,
    log !! k = Some (SaveRawCrash id raw) ->
    exists j r,
      (j < k)%nat /\ log !! j = Some (SaveDumps (crash_id r) (dumps r)) /\
      crash_id r = id /\ raw_crash r = raw.

(** A worker that holds a report has called [save_dumps] for it. *)
Definition holds_after_save_dumps (log : list storage_call) (w : worker) : Prop :=
  match w with
  | Spawned => True
  | InSaveDumps r | InSaveRawCrash r => SaveDumps (crash_id r) (dumps r) ∈ log
  end.

Definition save_order (st : State) : Prop :=
  dumps_saved_first (crashstorage st) /\
  Forall (holds_after_save_dumps (crashstorage st)) (pipeline_pool st).

Lemma dumps_saved_first_save_dumps log id d :
  dumps_saved_first log -> dumps_saved_first (log ++ [SaveDumps id d]).
Proof.
  intros H k id' raw Hk.
  apply lookup_app_Some in Hk as [Hk|[_ Hk]].
  - destruct (H k id' raw Hk) as (j & r & Hj & Hl & ?).
    exists j, r. split; [exact Hj|]. split; [|assumption].
    apply lookup_app_l_Some, Hl.
  - apply list_lookup_singleton_Some in Hk as [_ Hk]. discriminate Hk.
Qed.

Lemma dumps_saved_first_save_raw_crash log r :
  dumps_saved_first log ->
  SaveDumps (crash_id r) (dumps r) ∈ log ->
  dumps_saved_first (log ++ [SaveRawCrash (crash_id r) (raw_crash r)]).
Proof.
  intros H Hin k id' raw Hk.
  apply lookup_app_Some in Hk as [Hk|[Hlen Hk]].
  - destruct (H k id' raw Hk) as (j & r0 & Hj & Hl & ?).
    exists j, r0. split; [exact Hj|]. split; [|assumption].
    apply lookup_app_l_Some, Hl.
  - apply list_lookup_singleton_Some in Hk as [_ [= <- <-]].
    apply list_elem_of_lookup in Hin as [j Hj].
    exists j, r. split; [|split; [apply lookup_app_l_Some, Hj|auto]].
    apply lookup_lt_Some in Hj. lia.
Qed.

Lemma holds_mono log c w :
  holds_after_save_dumps log w -> holds_after_save_dumps (log ++ [c]) w.
Proof.
  destruct w; simpl; auto; intros H; apply elem_of_app; auto.
Qed.

Lemma save_order_add_to_queue r st :
  save_order st -> save_order (add_to_queue cfg r st).
Proof.
  intros [H1 H2]. unfold save_order.
  destruct (add_to_queue_fields cfg r st) as (_ & -> & _ & [-> | ->]);
    split; auto.
  apply Forall_app. split; [exact H2|]. repeat constructor.
Qed.

Lemma save_order_loop_head i st :
  save_order st -> save_order (loop_head i st).
Proof.
  intros [H1 H2]. destruct (save_queue st) as [|r q] eqn:E.
  - rewrite loop_head_ends by exact E. split; [exact H1|].
    simpl. apply Forall_delete, H2.
  - rewrite (loop_head_takes i r q) by exact E. split; simpl.
    + apply dumps_saved_first_save_dumps, H1.
    + apply Forall_insert.
      * eapply Forall_impl; [exact H2|]. intros w. apply holds_mono.
      * simpl. apply elem_of_app. right. apply list_elem_of_singleton. reflexivity.
Qed.

Lemma save_order_resume i ok now st :
  save_order st -> save_order (resume cfg i ok now st).
Proof.
  intros H. unfold resume, retry_later.
  destruct (pipeline_pool st !! i) as [[|r|r]|] eqn:Ei; [| | |exact H].
  - apply save_order_loop_head, H.
  - destruct ok; [|apply save_order_loop_head, save_order_add_to_queue, H].
    destruct H as [H1 H2].
    pose proof (Forall_lookup_1 _ _ _ _ H2 Ei) as Hr. simpl in Hr.
    split; simpl.
    + apply dumps_saved_first_save_raw_crash; assumption.
    + apply Forall_insert.
      * eapply Forall_impl; [exact H2|]. intros w. apply holds_mono.
      * simpl. apply elem_of_app. left. exact Hr.
  - destruct ok; [destruct (timestamp_micros (raw_crash r))|];
      try (apply save_order_loop_head, save_order_add_to_queue, H).
    apply save_order_loop_head. exact H.
Qed.

Lemma save_order_step a st :
  save_order st -> save_order (step C cfg st a).
Proof.
  intros H. destruct a as [clock req|i ok now|]; simpl.
  - rewrite on_post_spec.
    destruct (throttle_of_post C clock req)
      as [out [[[raw dumps0] [[d rule] rate]]|e]]; [|exact H].
    cbv zeta. destruct (raw !! "legacy_processing") as [lp|]; [|exact H].
    destruct (bool_decide _); [exact H|].
    simpl. apply (save_order_add_to_queue _ _ H).
  - apply save_order_resume, H.
  - exact H.
Qed.

Lemma save_order_run schedule st :
  save_order st -> save_order (run C cfg st schedule).
Proof.
  revert st. induction schedule as [|a schedule IH]; intros st H; [exact H|].
  simpl. apply IH, save_order_step, H.
Qed.

Lemma save_order_init : save_order init_state.
Proof.
  split; [|constructor]. intros k id raw Hk. simpl in Hk.
  rewrite lookup_nil in Hk. discriminate Hk.
Qed.

(** What one run of a worker does with the report it holds. *)
Lemma resume_in_save_dumps_ok i now r st :
  pipeline_pool st !! i = Some (InSaveDumps r) ->
  crashstorage (resume cfg i true now st) =
    crashstorage st ++ [SaveRawCrash (crash_id r) (raw_crash r)] /\
  pipeline_pool (resume cfg i true now st) !! i = Some (InSaveRawCrash r) /\
  save_queue (resume cfg i true now st) = save_queue st.
Proof.
  intros H. unfold resume. rewrite H. simpl. repeat split.
  apply list_lookup_insert_eq. eapply lookup_lt_Some, H.
Qed.

Lemma resume_failed i now r st :
  pipeline_pool st !! i = Some (InSaveDumps r) \/
  pipeline_pool st !! i = Some (InSaveRawCrash r) ->
  exists r' q',
    save_queue st ++ [r] = r' :: q' /\
    save_queue (resume cfg i false now st) = q' /\
    pipeline_pool (resume cfg i false now st) !! i = Some (InSaveDumps r') /\
    crashstorage (resume cfg i false now st) =
      crashstorage st ++ [SaveDumps (crash_id r') (dumps r')].
Proof.
  intros H.
  assert (E : resume cfg i false now st = retry_later cfg i r st)
    by (unfold resume; destruct H as [-> | ->]; reflexivity).
  rewrite E.
  destruct (retry_later_takes cfg i r st) as (r' & q' & Hq & Hq' & Hc & _ & Hp).
  exists r', q'. repeat split; auto.
  rewrite Hp. apply list_lookup_insert_eq.
  assert (Hi : exists w, pipeline_pool st !! i = Some w) by (destruct H; eauto).
  destruct Hi as [w Hw].
  eapply lookup_lt_Some, add_to_queue_lookup, Hw.
Qed.

Lemma resume_spawned i ok now r q st :
  pipeline_pool st !! i = Some Spawned ->
  save_queue st = r :: q ->
  crashstorage (resume cfg i ok now st) =
    crashstorage st ++ [SaveDumps (crash_id r) (dumps r)] /\
  pipeline_pool (resume cfg i ok now st) !! i = Some (InSaveDumps r) /\
  save_queue (resume cfg i ok now st) = q.
Proof.
  intros H Hq. unfold resume. rewrite H, (loop_head_takes i r q) by exact Hq.
  simpl. repeat split.
  apply list_lookup_insert_eq. eapply lookup_lt_Some, H.
Qed.

End SaveOrder.

Section Retry.

Context (C : Collaborators) (cfg : Config).

(** The log of storage calls only grows. *)
Lemma step_crashstorage_grows a st :
  exists more, crashstorage (step C cfg st a) = crashstorage st ++ more.
Proof.
  destruct a as [clock req|i ok now|]; simpl.
  - exists []. rewrite app_nil_r, on_post_spec.
    destruct (throttle_of_post C clock req)
      as [out [[[raw dumps0] [[d rule] rate]]|e]]; [|reflexivity].
    cbv zeta. destruct (raw !! "legacy_processing") as [lp|]; [|reflexivity].
    destruct (bool_decide _); [reflexivity|].
    simpl. apply add_to_queue_fields.
  - assert (Hl : forall j s, exists more,
              crashstorage (loop_head j s) = crashstorage s ++ more).
    { intros j s. destruct (save_queue s) as [|r q] eqn:E.
      - exists []. rewrite loop_head_ends by exact E. simpl. rewrite app_nil_r.
        reflexivity.
      - eexists. rewrite (loop_head_takes j r q) by exact E. reflexivity. }
    assert (Hr : forall r, exists more,
              crashstorage (retry_later cfg i r st) = crashstorage st ++ more).
    { intros r. destruct (retry_later_takes cfg i r st) as (r' & q' & _ & _ & -> & _).
      eauto. }
    unfold resume.
    destruct (pipeline_pool st !! i) as [[|r|r]|];
      [apply Hl| | |exists []; rewrite app_nil_r; reflexivity].
    + destruct ok; [eexists; reflexivity|apply Hr].
    + destruct ok; [destruct (timestamp_micros (raw_crash r))|]; try apply Hr.
      apply (Hl i (emit_all _ st)).
  - exists []. rewrite app_nil_r. reflexivity.
Qed.

Lemma run_crashstorage_grows schedule st :
  exists more, crashstorage (run C cfg st schedule) = crashstorage st ++ more.
Proof.
  revert st. induction schedule as [|a schedule IH]; intros st.
  - exists []. rewrite app_nil_r. reflexivity.
  - simpl. destruct (IH (step C cfg st a)) as [m2 ->].
    destruct (step_crashstorage_grows a st) as [m1 ->].
    exists (m1 ++ m2). rewrite app_assoc. reflexivity.
Qed.

(** The runs a worker needs before it is back at the head of its loop. *)
Definition runs_left (w : worker) : nat :=
  match w with
  | InSaveDumps _ => 2
  | Spawned | InSaveRawCrash _ => 1
  end.

(** A schedule that only resumes worker [i], with the given outcomes of
    its storage calls. *)
Definition resumes (i : nat) (outcomes : list (bool * Z)) : list action :=
  (fun o => Resume i o.1 o.2) <$> outcomes.

(** A report waiting in the queue behind [q] is tried once worker [i] has
    run often enough, whatever the outcomes of the calls before. *)
Lemma waiting_report_is_tried (outcomes : list (bool * Z)) :
  forall (q rest : list CrashReport) (r : CrashReport) (i : nat) (w : worker) (st : State),
    pipeline_pool st !! i = Some w ->
    save_queue st = q ++ r :: rest ->
    (runs_left w + 2 * length q <= length outcomes)%nat ->
    exists before after,
      crashstorage (run C cfg st (resumes i outcomes)) =
        crashstorage st ++ before ++ SaveDumps (crash_id r) (dumps r) :: after.
Proof.
  induction outcomes as [|[ok now] outcomes IH]; intros q rest r i w st Hw Hq Hlen.
  { destruct w; simpl in Hlen; lia. }
  simpl length in Hlen.
  (* the worker is at the head of the loop with a queue that holds [r] *)
  assert (Hhead : forall s rest',
    save_queue s = q ++ r :: rest' ->
    (i < length (pipeline_pool s))%nat ->
    (2 * length q <= length outcomes)%nat ->
    crashstorage s = crashstorage st ->
    exists before after,
      crashstorage (run C cfg (loop_head i s) (resumes i outcomes)) =
        crashstorage st ++ before ++ SaveDumps (crash_id r) (dumps r) :: after).
  { intros s rest' Hs Hi Hl Hc'.
    destruct q as [|h q'].
    - rewrite (loop_head_takes i r rest') by exact Hs.
      edestruct (run_crashstorage_grows (resumes i outcomes)) as [more ->].
      simpl. rewrite Hc'. exists [], more. rewrite <- app_assoc. reflexivity.
    - rewrite (loop_head_takes i h (q' ++ r :: rest')) by exact Hs.
      edestruct (IH q' rest' r i (InSaveDumps h)) as (b & a & E);
        [| |shelve|rewrite E].
      + simpl. apply list_lookup_insert_eq, Hi.
      + reflexivity.
      + simpl. rewrite Hc'. exists (SaveDumps (crash_id h) (dumps h) :: b), a.
        rewrite <- app_assoc. reflexivity.
      Unshelve. simpl in *. lia. }
  assert (Hi : (i < length (pipeline_pool st))%nat) by (eapply lookup_lt_Some, Hw).
  assert (Hretry : forall x,
    (2 * length q <= length outcomes)%nat ->
    exists before after,
      crashstorage (run C cfg (retry_later cfg i x st) (resumes i outcomes)) =
        crashstorage st ++ before ++ SaveDumps (crash_id r) (dumps r) :: after).
  { intros x Hl. unfold retry_later.
    destruct (add_to_queue_fields cfg x st) as (Hq' & Hc' & _ & _).
    apply (Hhead _ (rest ++ [x])).
    - rewrite Hq', Hq, <- app_assoc. reflexivity.
    - eapply lookup_lt_Some, add_to_queue_lookup, Hw.
    - exact Hl.
    - exact Hc'. }
  simpl. unfold resume. rewrite Hw. destruct w as [|x|x]; simpl in Hlen.
  - apply (Hhead st rest Hq Hi); [lia|reflexivity].
  - destruct ok; [|apply Hretry; lia].
    edestruct (IH q rest r i (InSaveRawCrash x)) as (b & a & E);
      [| |shelve|rewrite E].
    + simpl. apply list_lookup_insert_eq, Hi.
    + exact Hq.
    + simpl. exists (SaveRawCrash (crash_id x) (raw_crash x) :: b), a.
      rewrite <- app_assoc. reflexivity.
    Unshelve. simpl. lia.
  - destruct ok; [destruct (timestamp_micros (raw_crash x))|];
      try (apply Hretry; lia).
    apply (Hhead (emit_all _ st) rest Hq Hi); [lia|reflexivity].
Qed.

End Retry.

Section RetryAfterFailure.

Context (C : Collaborators) (cfg : Config).

(** After [save_dumps] returned and [save_raw_crash] raised for the
    report of worker [i], that worker calls [save_dumps] for the report
    again once it has worked through the queue. *)
Lemma save_dumps_retried i now1 now2 r st (outcomes : list (bool * Z)) :
  pipeline_pool st !! i = Some (InSaveDumps r) ->
  (2 * length (save_queue st) <= length outcomes)%nat ->
  exists before after,
    crashstorage
      (run C cfg (resume cfg i false now2 (resume cfg i true now1 st))
         (resumes i outcomes)) =
      crashstorage st ++ SaveRawCrash (crash_id r) (raw_crash r) ::
        before ++ SaveDumps (crash_id r) (dumps r) :: after.
Proof.
  intros Hw Hlen.
  destruct (resume_in_save_dumps_ok cfg i now1 r st Hw) as (Hc1 & Hp1 & Hq1).
  destruct (resume_failed cfg i now2 r (resume cfg i true now1 st) (or_intror Hp1))
    as (r' & q' & Hq2 & Hq' & Hp2 & Hc2).
  rewrite Hq1 in Hq2.
  destruct (save_queue st) as [|h q] eqn:Eq.
  - injection Hq2 as <- <-.
    destruct (run_crashstorage_grows C cfg (resumes i outcomes)
                (resume cfg i false now2 (resume cfg i true now1 st)))
      as [more ->].
    rewrite Hc2, Hc1. exists [], more. rewrite <- !app_assoc. reflexivity.
  - injection Hq2 as <- <-.
    destruct (waiting_report_is_tried C cfg outcomes q [] r i (InSaveDumps h)
                (resume cfg i false now2 (resume cfg i true now1 st)))
      as (b & a & E); [exact Hp2|exact Hq'|simpl in *; lia|].
    rewrite E, Hc2, Hc1.
    exists (SaveDumps (crash_id h) (dumps h) :: b), a.
    rewrite <- !app_assoc. reflexivity.
Qed.

End RetryAfterFailure.

(** C4.  [save_crash_to_storage] calls [save_dumps] with the crash id and
    the dumps of the report first and [save_raw_crash] with the crash id and
    the raw crash after it: in every run of the process each call of
    [save_raw_crash] comes after a call of [save_dumps] for the same report;
    a worker that takes a report calls [save_dumps], and calls
    [save_raw_crash] when that returned.  Whenever one of the two calls
    raises, the worker appends the report to the tail of the queue and goes
    on with the head of the queue; and after [save_dumps] returned and
    [save_raw_crash] raised, [save_dumps] is called for the report again
    once the worker has worked through the queue. *)
Theorem save_dumps_first_and_retry (C : Collaborators) (cfg : Config) :
  (forall schedule,
     dumps_saved_first (crashstorage (run C cfg init_state schedule))) /\
  (forall st i ok now r q,
     pipeline_pool st !! i = Some Spawned ->
     save_queue st = r :: q ->
     crashstorage (resume cfg i ok now st) =
       crashstorage st ++ [SaveDumps (crash_id r) (dumps r)] /\
     pipeline_pool (resume cfg i ok now st) !! i = Some (InSaveDumps r) /\
     save_queue (resume cfg i ok now st) = q) /\
  (forall st i now r,
     pipeline_pool st !! i = Some (InSaveDumps r) ->
     crashstorage (resume cfg i true now st) =
       crashstorage st ++ [SaveRawCrash (crash_id r) (raw_crash r)] /\
     pipeline_pool (resume cfg i true now st) !! i = Some (InSaveRawCrash r) /\
     save_queue (resume cfg i true now st) = save_queue st) /\
  (forall st i now r,
     pipeline_pool st !! i = Some (InSaveDumps r) \/
     pipeline_pool st !! i = Some (InSaveRawCrash r) ->
     exists r' q',
       save_queue st ++ [r] = r' :: q' /\
       save_queue (resume cfg i false now st) = q' /\
       pipeline_pool (resume cfg i false now st) !! i = Some (InSaveDumps r') /\
       crashstorage (resume cfg i false now st) =
         crashstorage st ++ [SaveDumps (crash_id r') (dumps r')]) /\
  (forall st i now1 now2 r (outcomes : list (bool * Z)),
     pipeline_pool st !! i = Some (InSaveDumps r) ->
     (2 * length (save_queue st) <= length outcomes)%nat ->
     exists before after,
       crashstorage
         (run C cfg (resume cfg i false now2 (resume cfg i true now1 st))
            (resumes i outcomes)) =
         crashstorage st ++ SaveRawCrash (crash_id r) (raw_crash r) ::
           before ++ SaveDumps (crash_id r) (dumps r) :: after).
Proof.
  split; [|split; [|split; [|split]]].
  - intros schedule. apply (save_order_run C cfg schedule init_state save_order_init).
  - intros st i ok now r q. apply resume_spawned.
  - intros st i now r. apply resume_in_save_dumps_ok.
  - intros st i now r. apply resume_failed.
  - intros st i now1 now2 r outcomes. apply save_dumps_retried.
Qed.

Module OneReport.

(** The process after one accepted POST without a content type, with its
    one worker inside [save_dumps]. *)
Definition report : CrashReport :=
  empty_crash_report Sample.accepting default_config Sample.clock ACCEPT 100.

Definition in_save_dumps : State :=
  run Sample.accepting default_config init_state
    [Post Sample.clock Sample.no_content_type_request; Resume 0 true 0].

End OneReport.

Lemma save_dumps_first_and_retry_witness :
  crashstorage OneReport.in_save_dumps =
    [SaveDumps (crash_id OneReport.report) (dumps OneReport.report)] /\
  exists before after,
    crashstorage
      (run Sample.accepting default_config
         (resume default_config 0 false 2 (resume default_config 0 true 1
            OneReport.in_save_dumps))
         (resumes 0 [])) =
      crashstorage OneReport.in_save_dumps ++
        SaveRawCrash (crash_id OneReport.report) (raw_crash OneReport.report) ::
          before ++ SaveDumps (crash_id OneReport.report) (dumps OneReport.report) :: after.
Proof.
  split; [reflexivity|].
  destruct (save_dumps_first_and_retry Sample.accepting default_config)
    as (_ & _ & _ & _ & H).
  apply (H OneReport.in_save_dumps 0%nat 1 2 OneReport.report []).
  - reflexivity.
  - vm_compute. constructor.
Defined.

(** ** First attempts are made in the order of arrival *)

Section Fifo.

Context (C : Collaborators) (cfg : Config).

(** The arguments of the calls of [save_dumps] in a log, in order. *)
Definition save_dumps_calls (log : list storage_call)
  : list (value * gmap string bytes) :=
  omap (fun c => match c with
                 | SaveDumps id d => Some (id, d)
                 | SaveRawCrash _ _ => None
                 end) log.

(** The calls of [save_dumps] the reports of a queue are waiting for. *)
Definition owed (q : list CrashReport) : list (value * gmap string bytes) :=
  (fun r => (crash_id r, dumps r)) <$> q.

(** The calls of [save_dumps] made so far, followed by those the queue is
    waiting for. *)
Definition attempts (st : State) : list (value * gmap string bytes) :=
  save_dumps_calls (crashstorage st) ++ owed (save_queue st).

Lemma save_dumps_calls_app l1 l2 :
  save_dumps_calls (l1 ++ l2) = save_dumps_calls l1 ++ save_dumps_calls l2.
Proof. apply omap_app. Qed.

Lemma attempts_add_to_queue r st :
  attempts (add_to_queue cfg r st) = attempts st ++ [(crash_id r, dumps r)].
Proof.
  unfold attempts.
  destruct (add_to_queue_fields cfg r st) as (-> & -> & _).
  unfold owed. rewrite fmap_app, app_assoc. reflexivity.
Qed.

Lemma attempts_loop_head i st : attempts (loop_head i st) = attempts st.
Proof.
  unfold attempts. destruct (save_queue st) as [|r q] eqn:E.
  - rewrite loop_head_ends by exact E. simpl. rewrite E. reflexivity.
  - rewrite (loop_head_takes i r q) by exact E. simpl.
    rewrite save_dumps_calls_app, <- app_assoc. reflexivity.
Qed.

Lemma attempts_emit_all out st : attempts (emit_all out st) = attempts st.
Proof. reflexivity. Qed.

Lemma step_attempts a st :
  exists adds, attempts (step C cfg st a) = attempts st ++ adds.
Proof.
  destruct a as [clock req|i ok now|]; simpl.
  - rewrite on_post_spec.
    destruct (throttle_of_post C clock req)
      as [out [[[raw dumps0] [[d rule] rate]]|e]];
      [|exists []; rewrite app_nil_r; reflexivity].
    cbv zeta.
    destruct (raw !! "legacy_processing") as [lp|];
      [|exists []; rewrite app_nil_r; reflexivity].
    destruct (bool_decide _); [exists []; rewrite app_nil_r; reflexivity|].
    simpl. rewrite attempts_emit_all, attempts_add_to_queue. eauto.
  - unfold resume, retry_later.
    destruct (pipeline_pool st !! i) as [[|r|r]|];
      [| | |exists []; rewrite app_nil_r; reflexivity].
    + exists []. rewrite app_nil_r. apply attempts_loop_head.
    + destruct ok.
      * exists []. rewrite app_nil_r. unfold attempts. simpl.
        rewrite save_dumps_calls_app. simpl. rewrite app_nil_r. reflexivity.
      * rewrite attempts_loop_head, attempts_add_to_queue. eauto.
    + destruct ok; [destruct (timestamp_micros (raw_crash r))|];
        rewrite attempts_loop_head, ?attempts_add_to_queue, ?attempts_emit_all;
        eauto.
      exists []. rewrite app_nil_r. reflexivity.
  - exists []. rewrite app_nil_r. reflexivity.
Qed.

Lemma run_attempts schedule st :
  exists adds, attempts (run C cfg st schedule) = attempts st ++ adds.
Proof.
  revert st. induction schedule as [|a schedule IH]; intros st.
  - exists []. rewrite app_nil_r. reflexivity.
  - simpl. destruct (IH (step C cfg st a)) as [a2 ->].
    destruct (step_attempts a st) as [a1 ->].
    exists (a1 ++ a2). rewrite app_assoc. reflexivity.
Qed.

(** A POST makes no call on the crash storage. *)
Lemma on_post_crashstorage clock req st :
  crashstorage (on_post C cfg clock req st).2 = crashstorage st.
Proof.
  rewrite on_post_spec.
  destruct (throttle_of_post C clock req)
    as [out [[[raw dumps0] [[d rule] rate]]|e]]; [|reflexivity].
  cbv zeta. destruct (raw !! "legacy_processing") as [lp|]; [|reflexivity].
  destruct (bool_decide _); [reflexivity|].
  simpl. apply add_to_queue_fields.
Qed.

(** Two reports enqueued one after the other keep their places in the
    sequence of attempts. *)
Lemma two_posts_attempts clock1 req1 clock2 req2 r1 r2 schedule st :
  save_queue (run C cfg st [Post clock1 req1]) = save_queue st ++ [r1] ->
  save_queue (run C cfg st [Post clock1 req1; Post clock2 req2]) =
    save_queue st ++ [r1; r2] ->
  exists later,
    attempts (run C cfg st (Post clock1 req1 :: Post clock2 req2 :: schedule)) =
      attempts st ++ (crash_id r1, dumps r1) :: (crash_id r2, dumps r2) :: later.
Proof.
  intros _ H2.
  change (run C cfg st (Post clock1 req1 :: Post clock2 req2 :: schedule))
    with (run C cfg (run C cfg st [Post clock1 req1; Post clock2 req2]) schedule).
  destruct (run_attempts schedule
              (run C cfg st [Post clock1 req1; Post clock2 req2]))
    as [later ->].
  exists later. unfold attempts at 1. rewrite H2.
  assert (Ec : crashstorage (run C cfg st [Post clock1 req1; Post clock2 req2])
               = crashstorage st)
    by (simpl; rewrite !on_post_crashstorage; reflexivity).
  rewrite Ec. unfold attempts, owed.
  rewrite fmap_app, <- !app_assoc. reflexivity.
Qed.

End Fifo.

(** C9.  The queue is a FIFO: [add] appends at the tail, [next] removes and
    returns the element added first and returns [None] on an empty queue.
    For two consecutive POSTs whose reports [r1] and [r2] are enqueued, in
    every continuation of the process the first [save_dumps] call for [r1]
    is made before the first one for [r2]: with [n] the number of
    [save_dumps] calls made or waiting in the queue before the two POSTs,
    the calls numbered [n] and [n + 1] are theirs, in that order.  This
    holds for any number of workers, and so for a single one. *)
Theorem fifo_first_attempts (C : Collaborators) (cfg : Config)
    clock1 req1 clock2 req2 (r1 r2 : CrashReport) (schedule : list action) (st : State) :
  save_queue (run C cfg st [Post clock1 req1]) = save_queue st ++ [r1] ->
  save_queue (run C cfg st [Post clock1 req1; Post clock2 req2]) =
    save_queue st ++ [r1; r2] ->
  let n := length (attempts st) in
  let final := run C cfg st (Post clock1 req1 :: Post clock2 req2 :: schedule) in
  (exists later,
     attempts final =
       attempts st ++ (crash_id r1, dumps r1) :: (crash_id r2, dumps r2) :: later) /\
  (forall c,
     save_dumps_calls (crashstorage final) !! (S n) = Some c ->
     c = (crash_id r2, dumps r2) /\
     save_dumps_calls (crashstorage final) !! n = Some (crash_id r1, dumps r1)) /\
  (forall (A : Type) (x : A) (items : list A),
     SaveQueue.next (foldl SaveQueue.add SaveQueue.init (x :: items)) =
       (Some x, foldl SaveQueue.add SaveQueue.init items) /\
     SaveQueue.next (SaveQueue.init : SaveQueue.t A) = (None, SaveQueue.init)).
Proof.
  intros H1 H2 n final.
  destruct (two_posts_attempts C cfg clock1 req1 clock2 req2 r1 r2 schedule st H1 H2)
    as [later E].
  fold final in E.
  split; [exists later; exact E|]. split.
  - intros c Hc.
    assert (Hlen : (S n < length (save_dumps_calls (crashstorage final)))%nat)
      by (eapply lookup_lt_Some, Hc).
    assert (Hat : forall k x,
      save_dumps_calls (crashstorage final) !! k = Some x ->
      (attempts st ++ (crash_id r1, dumps r1) :: (crash_id r2, dumps r2) :: later) !! k
        = Some x).
    { intros k x Hk. rewrite <- E. unfold attempts at 1.
      apply lookup_app_l_Some, Hk. }
    split.
    + apply Hat in Hc. rewrite lookup_app_r in Hc by (unfold n; lia).
      replace (S n - length (attempts st))%nat with 1%nat in Hc by (unfold n; lia).
      simpl in Hc. congruence.
    + destruct (lookup_lt_is_Some_2 (save_dumps_calls (crashstorage final)) n)
        as [x Hx]; [lia|].
      rewrite Hx. pose proof (Hat _ _ Hx) as Hx'.
      rewrite lookup_app_r in Hx' by (unfold n; lia).
      replace (n - length (attempts st))%nat with 0%nat in Hx' by (unfold n; lia).
      simpl in Hx'. congruence.
  - intros A x items.
    assert (Hfold : forall (l acc : list A),
              foldl SaveQueue.add acc l = acc ++ l).
    { induction l as [|y l IH]; intros acc; simpl.
      - rewrite app_nil_r. reflexivity.
      - rewrite IH. unfold SaveQueue.add. rewrite <- app_assoc. reflexivity. }
    rewrite !Hfold. split; reflexivity.
Qed.

Module TwoPosts.

(** Two accepted POSTs, one microsecond apart, with crash ids made from the
    time of arrival. *)
Definition collaborators : Collaborators :=
  {| zlib_decompress := Sample.gunzip;
     field_storage := fun _ _ => Ok [];
     md5_hexdigest := md5_hexdigest Sample.accepting;
     throttle := Sample.accept_everything;
     create_crash_id := fun t _ => "crash-" +:+ pretty t;
     isoformat := isoformat Sample.accepting |}.

Definition later_clock : Clock :=
  {| time_time := 1315267200000001; utc_now := 1315267200000001 |}.

Definition first : CrashReport :=
  empty_crash_report collaborators default_config Sample.clock ACCEPT 100.

Definition second : CrashReport :=
  empty_crash_report collaborators default_config later_clock ACCEPT 100.

(** The worker starts on the first report; its [save_dumps] raises, and so
    does the one of the second report, after which the first report is
    tried again. *)
Definition schedule : list action :=
  [Resume 0 true 0; Resume 0 false 0; Resume 0 false 0].

Definition final : State :=
  run collaborators default_config init_state
    (Post Sample.clock Sample.no_content_type_request ::
     Post later_clock Sample.no_content_type_request :: schedule).

End TwoPosts.

Lemma fifo_first_attempts_witness :
  crash_id TwoPosts.first = VStr "crash-1315267200000000" /\
  crash_id TwoPosts.second = VStr "crash-1315267200000001" /\
  save_dumps_calls (crashstorage TwoPosts.final) =
    [(crash_id TwoPosts.first, dumps TwoPosts.first);
     (crash_id TwoPosts.second, dumps TwoPosts.second);
     (crash_id TwoPosts.first, dumps TwoPosts.first)] /\
  save_dumps_calls (crashstorage TwoPosts.final) !! 1%nat
    = Some (crash_id TwoPosts.second, dumps TwoPosts.second) /\
  save_dumps_calls (crashstorage TwoPosts.final) !! 0%nat
    = Some (crash_id TwoPosts.first, dumps TwoPosts.first).
Proof.
  pose proof (fifo_first_attempts TwoPosts.collaborators default_config
                Sample.clock Sample.no_content_type_request
                TwoPosts.later_clock Sample.no_content_type_request
                TwoPosts.first TwoPosts.second TwoPosts.schedule init_state
                eq_refl eq_refl) as (_ & H & _).
  destruct (H (crash_id TwoPosts.second, dumps TwoPosts.second) eq_refl) as [_ H0].
  split; [reflexivity|]. split; [reflexivity|]. split; [reflexivity|].
  split; [reflexivity | exact H0].
Defined.


(** * Further properties of the resource *)

(** ** The save queue *)

(** The items that [n] calls of [next] return, until one returns [None]. *)
Fixpoint next_n {A : Type} (n : nat) (q : SaveQueue.t A) : list A :=
  match n with
  | O => []
  | Datatypes.S n' =>
      match SaveQueue.next q with
      | (Some y, q') => y :: next_n n' q'
      | (None, _) => []
      end
  end.

(** [add] makes the queue one longer and leaves what [next] returns as it
    was when the queue was not empty; [next] returns [None] exactly on the
    empty queue, which it leaves empty, and otherwise shortens the queue by
    one; a queue built by [add] gives its items back in the order they were
    added. *)
Theorem save_queue_laws (A : Type) (q : SaveQueue.t A) (x : A) :
  SaveQueue.len (SaveQueue.add q x) = SaveQueue.len q + 1 /\
  (SaveQueue.len q = 0 <-> (SaveQueue.next q).1 = None) /\
  (SaveQueue.len q = 0 -> (SaveQueue.next q).2 = q) /\
  (0 < SaveQueue.len q ->
     SaveQueue.len (SaveQueue.next q).2 = SaveQueue.len q - 1 /\
     SaveQueue.next (SaveQueue.add q x) =
       ((SaveQueue.next q).1, SaveQueue.add (SaveQueue.next q).2 x)) /\
  (forall items : list A,
     next_n (length items) (foldl SaveQueue.add SaveQueue.init items) = items).
Proof.
  unfold SaveQueue.len, SaveQueue.add, SaveQueue.init.
  split; [rewrite length_app; simpl; lia|].
  split; [destruct q; simpl; split; intros H; (reflexivity || discriminate || lia)|].
  split; [destruct q; simpl; intros H; [reflexivity|lia]|].
  split; [destruct q; simpl; intros H; [lia|split; [lia|reflexivity]]|].
  intros items.
  assert (Hfold : forall (l acc : list A), foldl (fun q y => q ++ [y]) acc l = acc ++ l).
  { induction l as [|y l IH]; intros acc; simpl.
    - rewrite app_nil_r. reflexivity.
    - rewrite IH, <- app_assoc. reflexivity. }
  rewrite Hfold. simpl. induction items as [|y items IH]; simpl; [reflexivity|].
  rewrite IH. reflexivity.
Qed.

Lemma save_queue_laws_witness :
  0 < SaveQueue.len [1; 2] /\
  SaveQueue.next (SaveQueue.add [1; 2] 3) = (Some 1, [2; 3]).
Proof.
  split; [reflexivity|].
  exact (proj2 (proj1 (proj2 (proj2 (proj2 (save_queue_laws Z [1; 2] 3)))) eq_refl)).
Defined.

(** ** The pool and the queue in every run *)

Section PoolAndQueue.

Context (C : Collaborators) (cfg : Config).

(** What a POST leaves behind: the state with some metrics emitted, and,
    unless the POST was rejected or raised, with its report added to the
    queue. *)
Lemma on_post_effect clock req st :
  exists out,
    (on_post C cfg clock req st).2 = emit_all out st \/
    exists raw dumps0 d,
      (on_post C cfg clock req st).2 =
        emit_all out (add_to_queue cfg (report_of C cfg clock raw dumps0 d) st).
Proof.
  rewrite on_post_spec.
  destruct (throttle_of_post C clock req)
    as [out [[[raw dumps0] [[d rule] rate]]|e]]; [|eauto].
  cbv zeta. destruct (raw !! "legacy_processing") as [lp|]; [|eauto].
  destruct (bool_decide _); [eauto|]. simpl. eauto 10.
Qed.

Lemma length_delete_le {A : Type} (l : list A) (i : nat) :
  (length (delete i l) <= length l)%nat.
Proof.
  rewrite delete_take_drop, length_app, length_take, length_drop. lia.
Qed.

(** The pool holds at most [concurrent_saves] workers. *)
Definition pool_bounded (st : State) : Prop :=
  Z.of_nat (length (pipeline_pool st)) <= Z.max 0 (concurrent_saves cfg).

Lemma pool_bounded_add_to_queue r st :
  pool_bounded st -> pool_bounded (add_to_queue cfg r st).
Proof.
  unfold pool_bounded, add_to_queue, free_count. simpl.
  destruct (Z.ltb_spec 0 (Z.max 0 (concurrent_saves cfg
                                   - Z.of_nat (length (pipeline_pool st)))));
    simpl; [|auto].
  rewrite length_app. simpl. lia.
Qed.

Lemma pool_bounded_loop_head i st :
  pool_bounded st -> pool_bounded (loop_head i st).
Proof.
  unfold pool_bounded. intros H. destruct (save_queue st) as [|r q] eqn:E.
  - rewrite loop_head_ends by exact E. simpl.
    pose proof (length_delete_le (pipeline_pool st) i) as Hd. lia.
  - rewrite (loop_head_takes i r q) by exact E. simpl.
    rewrite length_insert. exact H.
Qed.

Lemma pool_bounded_step a st :
  pool_bounded st -> pool_bounded (step C cfg st a).
Proof.
  intros H. destruct a as [clock req|i ok now|]; simpl.
  - destruct (on_post_effect clock req st) as [out [-> | (raw & dumps0 & d & ->)]];
      [exact H|].
    apply (pool_bounded_add_to_queue _ _ H).
  - unfold resume, retry_later.
    destruct (pipeline_pool st !! i) as [[|r|r]|]; [| | |exact H].
    + apply pool_bounded_loop_head, H.
    + destruct ok; [|apply pool_bounded_loop_head, pool_bounded_add_to_queue, H].
      unfold pool_bounded. simpl. rewrite length_insert. exact H.
    + destruct ok; [destruct (timestamp_micros (raw_crash r))|];
        try (apply pool_bounded_loop_head, pool_bounded_add_to_queue, H).
      apply pool_bounded_loop_head. exact H.
  - exact H.
Qed.

Lemma pool_bounded_run schedule st :
  pool_bounded st -> pool_bounded (run C cfg st schedule).
Proof.
  revert st. induction schedule as [|a schedule IH]; intros st H; [exact H|].
  simpl. apply IH, pool_bounded_step, H.
Qed.

End PoolAndQueue.

(** In every run of the process the pool holds at most [concurrent_saves]
    workers, and a heartbeat at any moment reports exactly the length of
    the queue and the size of the pool, the latter between 0 and
    [concurrent_saves], and changes nothing else. *)
Theorem pool_never_exceeds_concurrent_saves (C : Collaborators) (cfg : Config)
    (schedule : list action) :
  let st := run C cfg init_state schedule in
  Z.of_nat (length (pipeline_pool st)) <= Z.max 0 (concurrent_saves cfg) /\
  exists queued active,
    step C cfg st Heartbeat =
      emit_all [Gauge "save_queue_size" queued; Gauge "active_save_workers" active] st /\
    queued = SaveQueue.len (save_queue st) /\
    active = Z.of_nat (length (pipeline_pool st)) /\
    0 <= active <= Z.max 0 (concurrent_saves cfg).
Proof.
  intros st.
  assert (H : pool_bounded cfg st).
  { apply pool_bounded_run. unfold pool_bounded. simpl. lia. }
  split; [exact H|]. eexists _, _. split; [reflexivity|].
  split; [reflexivity|]. split; [reflexivity|].
  unfold pool_bounded in H. lia.
Qed.

(** ** No report is lost *)

Section Conservation.

Context (C : Collaborators) (cfg : Config).

(** The metrics the handler emits: its counters and its histograms, never
    the counter of the save workers. *)
Definition handler_metric (m : metric) : Prop :=
  match m with
  | Incr name => name <> "save_crash.count"
  | Histogram _ _ => True
  | Timing _ _ | Gauge _ _ => False
  end.

Lemma extract_payload_metrics req : Forall handler_metric (extract_payload C req).1.
Proof.
  rewrite extract_payload_cases.
  destruct (negb (headers_accepted req)); [constructor|].
  destruct (declares_gzip req).
  - destruct (zlib_decompress C (wire_body req)); simpl;
      repeat constructor; discriminate.
  - repeat constructor.
Qed.

Lemma get_throttle_result_metrics raw : Forall handler_metric (get_throttle_result C raw).1.
Proof.
  assert (H : Forall handler_metric (throttle_and_save C raw).1).
  { destruct (decide (raw !! "Throttleable" = Some (VStr "0"))) as [Ht|Ht].
    - rewrite (throttle_and_save_throttleable_0 C raw Ht). repeat constructor.
      discriminate.
    - destruct (throttle C raw) as [[d rule] rate] eqn:E.
      rewrite (throttle_and_save_throttler C raw _ _ _ Ht E). constructor. }
  rewrite get_throttle_result_cases.
  destruct (saved_results raw) as [[r|[]]|]; try constructor; try exact H.
  unfold mbind, M_bind, bind, emit.
  destruct (throttle_and_save C raw) as [o r]. simpl in *.
  constructor; [discriminate|exact H].
Qed.

Lemma throttle_of_post_metrics clock req :
  Forall handler_metric (throttle_of_post C clock req).1.
Proof.
  unfold throttle_of_post, mbind, M_bind, bind, emit, mret, M_ret, ret.
  pose proof (extract_payload_metrics req) as H1.
  destruct (extract_payload C req) as [o1 [[raw0 dumps0]|e]]; [|exact H1].
  pose proof (get_throttle_result_metrics (stamped C clock raw0)) as H2.
  destruct (get_throttle_result C (stamped C clock raw0)) as [o2 [[raw1 r1]|e]];
    simpl in *; apply Forall_app; (split; [exact H1|]);
    (constructor; [discriminate|]); rewrite ?app_nil_r; exact H2.
Qed.

Lemma throttle_counter_metrics lp : Forall handler_metric (throttle_counter lp).
Proof.
  unfold throttle_counter. repeat destruct (bool_decide _);
    repeat constructor; discriminate.
Qed.

(** The POST enqueues a report: its decision is not REJECT. *)
Definition enqueues (clock : Clock) (req : Request) : bool :=
  match throttle_of_post C clock req with
  | (_, Ok (_, _, (d, _, _))) => negb (bool_decide (d = REJECT))
  | (_, Raise _) => false
  end.

(** The state after a POST. *)
Lemma on_post_state clock req st :
  exists out,
    Forall handler_metric out /\
    ((enqueues clock req = false /\ (on_post C cfg clock req st).2 = emit_all out st) \/
     (enqueues clock req = true /\
      exists r,
        (on_post C cfg clock req st).2 = emit_all out (add_to_queue cfg r st) /\
        raw_crash r !! "timestamp" = Some (VFloat (time_time clock)))).
Proof.
  rewrite on_post_spec. unfold enqueues.
  pose proof (throttle_of_post_metrics clock req) as Hm.
  destruct (throttle_of_post C clock req)
    as [out [[[raw dumps0] [[d rule] rate]]|e]] eqn:E; [|eauto].
  destruct (throttle_of_post_legacy_processing C _ _ _ _ _ _ _ _ E)
    as (lp & Hlp & _ & Hr & Hn).
  rewrite Hlp. cbv zeta. simpl in Hm.
  destruct (bool_decide_reflect (d = REJECT)) as [Hd|Hd].
  - rewrite (Hr Hd), bool_decide_eq_true_2 by reflexivity. simpl.
    eexists. split; [|left; split; reflexivity].
    apply Forall_app. split; [exact Hm|]. repeat constructor. discriminate.
  - rewrite bool_decide_eq_false_2 by (apply Hn, Hd). simpl.
    eexists. split; [|right; split; [reflexivity|eexists; split; [reflexivity|]]].
    + apply Forall_app. split; [exact Hm|apply throttle_counter_metrics].
    + simpl. rewrite !lookup_insert_ne by discriminate.
      apply throttle_of_post_ok in E as (o1 & raw0 & o2 & _ & Hth & _).
      apply get_throttle_result_ok in Hth as [(-> & _)|(-> & _)].
      * rewrite with_results_other by discriminate. apply lookup_insert_eq.
      * apply lookup_insert_eq.
Qed.

(** Whether a worker holds a report. *)
Definition holding (w : worker) : nat :=
  match w with
  | Spawned => 0
  | InSaveDumps _ | InSaveRawCrash _ => 1
  end.

(** The number of reports held by workers. *)
Fixpoint held (pool : list worker) : nat :=
  match pool with
  | [] => 0
  | w :: pool' => holding w + held pool'
  end.

(** The reports the resource has taken on: waiting in the queue, held by a
    worker, or saved. *)
Definition taken_on (st : State) : nat :=
  (length (save_queue st) + held (pipeline_pool st) +
   count_incr "save_crash.count" (mymetrics st))%nat.

Lemma held_insert (pool : list worker) i w x :
  pool !! i = Some w ->
  (held (<[i := x]> pool) + holding w = held pool + holding x)%nat.
Proof.
  revert i. induction pool as [|y pool IH]; intros [|i] H; try discriminate.
  - injection H as ->. simpl. lia.
  - specialize (IH i H). simpl. lia.
Qed.

Lemma held_delete (pool : list worker) i w :
  pool !! i = Some w -> (held (delete i pool) + holding w = held pool)%nat.
Proof.
  revert i. induction pool as [|y pool IH]; intros [|i] H; try discriminate.
  - injection H as ->. simpl. lia.
  - specialize (IH i H). simpl. lia.
Qed.

Lemma held_spawn (pool : list worker) : held (pool ++ [Spawned]) = held pool.
Proof.
  induction pool as [|y pool IH]; simpl; [reflexivity|]. rewrite IH. reflexivity.
Qed.

Lemma count_incr_app name out1 out2 :
  count_incr name (out1 ++ out2) = (count_incr name out1 + count_incr name out2)%nat.
Proof. unfold count_incr. rewrite filter_app, length_app. reflexivity. Qed.

Lemma count_incr_handler out :
  Forall handler_metric out -> count_incr "save_crash.count" out = 0%nat.
Proof.
  unfold count_incr. induction 1 as [|m out Hm _ IH]; [reflexivity|].
  rewrite filter_cons. destruct (decide (m = Incr "save_crash.count")) as [->|_];
    [simpl in Hm; contradiction|exact IH].
Qed.

Lemma taken_on_add_to_queue r st :
  taken_on (add_to_queue cfg r st) = Datatypes.S (taken_on st).
Proof.
  unfold taken_on.
  destruct (add_to_queue_fields cfg r st) as (-> & _ & -> & [-> | ->]);
    rewrite ?held_spawn, length_app; simpl; lia.
Qed.

Lemma taken_on_emit_all out st :
  taken_on (emit_all out st) =
    (taken_on st + count_incr "save_crash.count" out)%nat.
Proof. unfold taken_on. simpl. rewrite count_incr_app. lia. Qed.

Lemma taken_on_loop_head i w st :
  pipeline_pool st !! i = Some w ->
  (taken_on (loop_head i st) + holding w = taken_on st)%nat.
Proof.
  intros Hw. unfold taken_on. destruct (save_queue st) as [|r q] eqn:E.
  - rewrite loop_head_ends by exact E. simpl. rewrite E.
    pose proof (held_delete _ _ _ Hw). simpl. lia.
  - rewrite (loop_head_takes i r q) by exact E. simpl.
    pose proof (held_insert _ _ _ (InSaveDumps r) Hw). simpl in *. lia.
Qed.

(** A worker neither loses nor duplicates a report. *)
Lemma taken_on_resume i ok now st :
  taken_on (resume cfg i ok now st) = taken_on st.
Proof.
  assert (Hretry : forall r w,
    pipeline_pool st !! i = Some w -> holding w = 1%nat ->
    taken_on (retry_later cfg i r st) = taken_on st).
  { intros r w Hw Hh. unfold retry_later.
    pose proof (taken_on_loop_head i w (add_to_queue cfg r st)
                  (add_to_queue_lookup cfg r st i w Hw)) as H.
    rewrite taken_on_add_to_queue in H. lia. }
  unfold resume. destruct (pipeline_pool st !! i) as [[|r|r]|] eqn:Ei;
    [| | |reflexivity].
  - pose proof (taken_on_loop_head i Spawned st Ei). simpl in *. lia.
  - destruct ok; [|apply (Hretry r _ eq_refl); reflexivity].
    unfold taken_on. simpl.
    pose proof (held_insert _ _ _ (InSaveRawCrash r) Ei). simpl in *. lia.
  - destruct ok; [destruct (timestamp_micros (raw_crash r)) as [t|]|];
      try (apply (Hretry r _ eq_refl); reflexivity).
    pose proof (taken_on_loop_head i (InSaveRawCrash r)
                  (emit_all [Timing "crash_handling.time" (now - t);
                             Incr "save_crash.count"] st) Ei) as H.
    rewrite taken_on_emit_all in H.
    change (count_incr "save_crash.count"
              [Timing "crash_handling.time" (now - t); Incr "save_crash.count"])
      with 1%nat in H.
    simpl holding in H. lia.
Qed.

(** The number of POSTs of a schedule that enqueue a report. *)
Fixpoint accepted_posts (schedule : list action) : nat :=
  match schedule with
  | [] => 0
  | Post clock req :: schedule' =>
      (if enqueues clock req then 1 else 0) + accepted_posts schedule'
  | _ :: schedule' => accepted_posts schedule'
  end.

Lemma taken_on_step a st :
  taken_on (step C cfg st a) = (taken_on st + accepted_posts [a])%nat.
Proof.
  destruct a as [clock req|i ok now|]; simpl.
  - destruct (on_post_state clock req st)
      as (out & Hm & [(-> & ->)|(-> & r & -> & _)]);
      rewrite taken_on_emit_all, (count_incr_handler out Hm),
        ?taken_on_add_to_queue; lia.
  - rewrite taken_on_resume. lia.
  - unfold health_stats. rewrite taken_on_emit_all. reflexivity.
Qed.

Lemma taken_on_run schedule st :
  taken_on (run C cfg st schedule) = (taken_on st + accepted_posts schedule)%nat.
Proof.
  revert st. induction schedule as [|a schedule IH]; intros st; simpl.
  - lia.
  - rewrite IH, taken_on_step. destruct a; simpl; lia.
Qed.

End Conservation.

(** No report is lost and none is counted twice: in every run of the
    process, the reports waiting in the queue, those held by a worker and
    those counted by [save_crash.count] are together as many as the POSTs
    that enqueued one; a worker that runs leaves this number as it is. *)
Theorem no_report_lost (C : Collaborators) (cfg : Config)
    (schedule : list action) (st : State) :
  taken_on (run C cfg st schedule) = (taken_on st + accepted_posts C schedule)%nat /\
  taken_on (run C cfg init_state schedule) = accepted_posts C schedule /\
  forall i ok now, taken_on (resume cfg i ok now st) = taken_on st.
Proof.
  split; [apply taken_on_run|]. split; [rewrite taken_on_run; reflexivity|].
  intros i ok now. apply taken_on_resume.
Qed.


(** ** Saves that succeed *)

Section Saved.

Context (C : Collaborators) (cfg : Config).

(** The raw crash of the report carries the float [on_post] wrote under
    [timestamp]. *)
Definition has_timestamp (r : CrashReport) : Prop :=
  exists t, raw_crash r !! "timestamp" = Some (VFloat t).

Definition holds_timestamped (w : worker) : Prop :=
  match w with
  | Spawned => True
  | InSaveDumps r | InSaveRawCrash r => has_timestamp r
  end.

(** Every report in the queue or in the hands of a worker is timestamped. *)
Definition all_timestamped (st : State) : Prop :=
  Forall has_timestamp (save_queue st) /\
  Forall holds_timestamped (pipeline_pool st).

Lemma all_timestamped_add_to_queue r st :
  has_timestamp r -> all_timestamped st -> all_timestamped (add_to_queue cfg r st).
Proof.
  intros Hr [H1 H2]. unfold all_timestamped.
  destruct (add_to_queue_fields cfg r st) as (-> & _ & _ & [-> | ->]); split;
    try apply Forall_app; repeat split; auto; repeat constructor; exact Hr.
Qed.

Lemma all_timestamped_loop_head i st :
  all_timestamped st -> all_timestamped (loop_head i st).
Proof.
  intros [H1 H2]. destruct (save_queue st) as [|r q] eqn:E.
  - rewrite loop_head_ends by exact E. split; simpl;
      [rewrite E; constructor|apply Forall_delete, H2].
  - rewrite (loop_head_takes i r q) by exact E.
    apply Forall_cons in H1 as [Hr Hq]. split; simpl; [exact Hq|].
    apply Forall_insert; assumption.
Qed.

Lemma all_timestamped_step a st :
  all_timestamped st -> all_timestamped (step C cfg st a).
Proof.
  intros H. destruct a as [clock req|i ok now|]; simpl.
  - destruct (on_post_state C cfg clock req st)
      as (out & _ & [(_ & ->)|(_ & r & -> & Hr)]); [exact H|].
    apply (all_timestamped_add_to_queue r st); [eexists; exact Hr|exact H].
  - unfold resume, retry_later.
    destruct (pipeline_pool st !! i) as [[|r|r]|] eqn:Ei; [| | |exact H].
    + apply all_timestamped_loop_head, H.
    + pose proof (Forall_lookup_1 _ _ _ _ (proj2 H) Ei) as Hr. simpl in Hr.
      destruct ok;
        [|apply all_timestamped_loop_head, all_timestamped_add_to_queue; assumption].
      destruct H as [H1 H2]. split; simpl; [exact H1|].
      apply Forall_insert; assumption.
    + pose proof (Forall_lookup_1 _ _ _ _ (proj2 H) Ei) as Hr. simpl in Hr.
      destruct ok; [destruct (timestamp_micros (raw_crash r))|];
        try (apply all_timestamped_loop_head, all_timestamped_add_to_queue;
             assumption).
      apply all_timestamped_loop_head. exact H.
  - exact H.
Qed.

Lemma all_timestamped_run schedule st :
  all_timestamped st -> all_timestamped (run C cfg st schedule).
Proof.
  revert st. induction schedule as [|a schedule IH]; intros st H; [exact H|].
  simpl. apply IH, all_timestamped_step, H.
Qed.

Lemma timestamp_micros_float r t :
  raw_crash r !! "timestamp" = Some (VFloat t) -> timestamp_micros (raw_crash r) = Ok t.
Proof. intros H. unfold timestamp_micros. rewrite H. reflexivity. Qed.

(** The storage calls for a list of reports that are each saved at the
    first attempt. *)
Definition saved_in_order (q : list CrashReport) : list storage_call :=
  q ≫= fun r => [SaveDumps (crash_id r) (dumps r);
                 SaveRawCrash (crash_id r) (raw_crash r)].

(** The only worker of the pool, at the head of its loop, when every call
    on the crash storage returns. *)
Lemma lone_worker_drains_from_loop_head (q : list CrashReport) :
  forall (w : worker) (st : State) (outcomes : list (bool * Z)),
    pipeline_pool st = [w] ->
    save_queue st = q ->
    Forall has_timestamp q ->
    Forall (fun o => o.1 = true) outcomes ->
    length outcomes = (2 * length q)%nat ->
    let final := run C cfg (loop_head 0 st) (resumes 0 outcomes) in
    save_queue final = [] /\ pipeline_pool final = [] /\
    crashstorage final = crashstorage st ++ saved_in_order q /\
    count_incr "save_crash.count" (mymetrics final) =
      (count_incr "save_crash.count" (mymetrics st) + length q)%nat.
Proof.
  induction q as [|r q IH]; intros w st outcomes Hp Hq Hts Hok Hlen; cbv zeta.
  - destruct outcomes; [|discriminate]. simpl.
    rewrite loop_head_ends by exact Hq. simpl. rewrite Hp, Hq, app_nil_r.
    repeat split; lia.
  - destruct outcomes as [|[ok1 now1] [|[ok2 now2] outcomes]];
      simpl in Hlen; try lia.
    apply Forall_cons in Hok as [Hok1 Hok]. apply Forall_cons in Hok as [Hok2 Hok].
    simpl in Hok1, Hok2. subst ok1 ok2.
    apply Forall_cons in Hts as [[t Ht] Hts].
    rewrite (loop_head_takes 0 r q) by exact Hq. rewrite Hp.
    set (s1 := {| save_queue := q;
                  pipeline_pool := <[0%nat := InSaveDumps r]> [w];
                  crashstorage := crashstorage st ++ [SaveDumps (crash_id r) (dumps r)];
                  mymetrics := mymetrics st |}).
    set (s2 := emit_all [Timing "crash_handling.time" (now2 - t);
                         Incr "save_crash.count"]
                 (set_pool [InSaveRawCrash r]
                    (call_storage (SaveRawCrash (crash_id r) (raw_crash r)) s1))).
    assert (E : run C cfg s1 (resumes 0 ((true, now1) :: (true, now2) :: outcomes))
                = run C cfg (loop_head 0 s2) (resumes 0 outcomes)).
    { simpl. f_equal. unfold resume at 2. simpl. unfold resume. simpl.
      rewrite (timestamp_micros_float r t Ht). reflexivity. }
    rewrite E.
    destruct (IH (InSaveRawCrash r) s2 outcomes) as (H1 & H2 & H3 & H4);
      [reflexivity|reflexivity|exact Hts|exact Hok|lia|].
    split; [exact H1|]. split; [exact H2|]. split.
    + rewrite H3. simpl. rewrite <- !app_assoc. reflexivity.
    + rewrite H4. simpl. rewrite count_incr_app.
      change (count_incr "save_crash.count"
                [Timing "crash_handling.time" (now2 - t); Incr "save_crash.count"])
        with 1%nat.
      lia.
Qed.

End Saved.

(** When the crash storage works, one worker empties the queue: started
    alone on a queue of timestamped reports, after one run to start and two
    runs per report it has called [save_dumps] and then [save_raw_crash]
    for each report, in the order of the queue, has counted each under
    [save_crash.count], and has ended, leaving queue and pool empty. *)
Theorem lone_worker_saves_queue_in_order (C : Collaborators) (cfg : Config)
    (st : State) (outcomes : list (bool * Z)) :
  pipeline_pool st = [Spawned] ->
  Forall has_timestamp (save_queue st) ->
  Forall (fun o => o.1 = true) outcomes ->
  length outcomes = (2 * length (save_queue st) + 1)%nat ->
  let final := run C cfg st (resumes 0 outcomes) in
  save_queue final = [] /\ pipeline_pool final = [] /\
  crashstorage final = crashstorage st ++ saved_in_order (save_queue st) /\
  count_incr "save_crash.count" (mymetrics final) =
    (count_incr "save_crash.count" (mymetrics st) + length (save_queue st))%nat.
Proof.
  intros Hp Hts Hok Hlen.
  destruct outcomes as [|[ok now] outcomes]; [simpl in Hlen; lia|].
  apply Forall_cons in Hok as [_ Hok].
  assert (E : run C cfg st (resumes 0 ((ok, now) :: outcomes))
              = run C cfg (loop_head 0 st) (resumes 0 outcomes)).
  { simpl. f_equal. unfold resume. rewrite Hp. reflexivity. }
  cbv zeta. rewrite E.
  apply (lone_worker_drains_from_loop_head C cfg (save_queue st) Spawned st outcomes);
    auto.
  simpl in Hlen. lia.
Qed.

Lemma lone_worker_saves_queue_in_order_witness :
  crashstorage
    (run Sample.accepting default_config
       (run Sample.accepting default_config init_state
          [Post Sample.clock Sample.no_content_type_request])
       (resumes 0 [(true, 0); (true, 0); (true, 1315267200000250)])) =
    [SaveDumps (crash_id OneReport.report) (dumps OneReport.report);
     SaveRawCrash (crash_id OneReport.report) (raw_crash OneReport.report)] /\
  pipeline_pool
    (run Sample.accepting default_config
       (run Sample.accepting default_config init_state
          [Post Sample.clock Sample.no_content_type_request])
       (resumes 0 [(true, 0); (true, 0); (true, 1315267200000250)])) = [].
Proof.
  pose proof (lone_worker_saves_queue_in_order Sample.accepting default_config
                (run Sample.accepting default_config init_state
                   [Post Sample.clock Sample.no_content_type_request])
                [(true, 0); (true, 0); (true, 1315267200000250)]
                eq_refl) as H.
  destruct H as (_ & H2 & H3 & _).
  - repeat constructor. exists 1315267200000000. reflexivity.
  - repeat constructor.
  - reflexivity.
  - split; [exact H3 | exact H2].
Defined.

(** A report that [on_post] enqueued is done once both storage calls have
    returned: in every run of the process, a worker whose [save_raw_crash]
    returns finds the float timestamp of the report, emits the handling
    time and counts the save, and goes on with the queue as it was; the
    report is not enqueued again. *)
Theorem saved_report_is_done (C : Collaborators) (cfg : Config)
    (schedule : list action) (i : nat) (now : Z) (r : CrashReport) :
  let st := run C cfg init_state schedule in
  pipeline_pool st !! i = Some (InSaveRawCrash r) ->
  exists t,
    raw_crash r !! "timestamp" = Some (VFloat t) /\
    resume cfg i true now st =
      loop_head i (emit_all [Timing "crash_handling.time" (now - t);
                             Incr "save_crash.count"] st) /\
    save_queue (resume cfg i true now st) = tail (save_queue st) /\
    attempts (resume cfg i true now st) = attempts st.
Proof.
  intros st Hi.
  assert (Hall : all_timestamped st).
  { apply all_timestamped_run. split; constructor. }
  pose proof (Forall_lookup_1 _ _ _ _ (proj2 Hall) Hi) as [t Ht].
  exists t. split; [exact Ht|].
  assert (E : resume cfg i true now st =
              loop_head i (emit_all [Timing "crash_handling.time" (now - t);
                                     Incr "save_crash.count"] st)).
  { unfold resume. rewrite Hi, (timestamp_micros_float r t Ht). reflexivity. }
  split; [exact E|]. rewrite E. split.
  - destruct (save_queue st) as [|r' q] eqn:Eq.
    + rewrite loop_head_ends by exact Eq. exact Eq.
    + rewrite (loop_head_takes i r' q) by exact Eq. reflexivity.
  - rewrite attempts_loop_head. reflexivity.
Qed.

Lemma saved_report_is_done_witness :
  exists t,
    raw_crash OneReport.report !! "timestamp" = Some (VFloat t) /\
    save_queue
      (resume default_config 0 true 1315267200000250
         (run Sample.accepting default_config init_state
            [Post Sample.clock Sample.no_content_type_request;
             Resume 0 true 0; Resume 0 true 0])) = [].
Proof.
  destruct (saved_report_is_done Sample.accepting default_config
              [Post Sample.clock Sample.no_content_type_request;
               Resume 0 true 0; Resume 0 true 0]
              0%nat 1315267200000250 OneReport.report eq_refl)
    as (t & Ht & _ & Hq & _).
  exists t. split; [exact Ht | exact Hq].
Defined.

(** ** What the parser hands to the handler *)

Section ParsedValues.

Context (C : Collaborators) (cfg : Config).

(** A text or a byte string. *)
Definition is_text (v : value) : Prop :=
  match v with
  | VStr _ | VBytes _ => True
  | VInt _ | VFloat _ | VDict _ => False
  end.

(** Every entry of the raw crash but [dump_checksums] is a text or a byte
    string. *)
Definition fields_are_text (raw_crash : gmap string value) : Prop :=
  forall k v, raw_crash !! k = Some v -> k <> "dump_checksums" -> is_text v.

Lemma add_field_fields_are_text acc acc' it :
  fields_are_text acc.1 -> add_field C acc it = Ok acc' -> fields_are_text acc'.1.
Proof.
  unfold add_field. destruct acc as [raw dumps0]. simpl. intros H.
  destruct (bool_decide (fs_name it = "dump_checksums")); [intros [= <-]; exact H|].
  destruct (is_dump it).
  - destruct (fs_value it) as [s|b]; [discriminate|].
    destruct (raw !! "dump_checksums") as [[| | | |d]|]; try discriminate;
      intros [= <-] k v Hk Hne; simpl in Hk;
      rewrite lookup_insert_ne in Hk by congruence; eauto.
  - intros [= <-] k v Hk Hne. simpl in Hk.
    destruct (decide (fs_name it = k)) as [<-|Hn].
    + rewrite lookup_insert_eq in Hk. injection Hk as <-.
      destruct (fs_value it); exact I.
    + rewrite lookup_insert_ne in Hk by exact Hn. eauto.
Qed.

Lemma add_fields_fields_are_text items acc acc' :
  fields_are_text acc.1 -> add_fields C acc items = Ok acc' -> fields_are_text acc'.1.
Proof.
  revert acc. induction items as [|it items IH]; intros acc H; simpl.
  - intros [= <-]. exact H.
  - destruct (add_field C acc it) as [acc1|e] eqn:E1; [|discriminate].
    apply IH. eapply add_field_fields_are_text; eauto.
Qed.

Lemma read_form_ok data environ raw dumps0 :
  (read_form C data environ).2 = Ok (raw, dumps0) ->
  exists items,
    field_storage C data environ = Ok items /\
    add_fields C (∅, ∅) items = Ok (raw, dumps0).
Proof.
  unfold read_form, mbind, M_bind, bind, lift.
  destruct (field_storage C data environ) as [items|e]; [|discriminate].
  destruct (add_fields C (∅, ∅) items) as [acc|e] eqn:E; [|discriminate].
  simpl. intros [= ->]. eauto.
Qed.

(** The form the parser walked, when it walked one. *)
Lemma extract_payload_ok req out raw dumps0 :
  extract_payload C req = (out, Ok (raw, dumps0)) ->
  (raw = ∅ /\ dumps0 = ∅) \/
  exists data environ items,
    field_storage C data environ = Ok items /\
    add_fields C (∅, ∅) items = Ok (raw, dumps0).
Proof.
  rewrite extract_payload_cases.
  destruct (negb (headers_accepted req)); [intros [= _ <- <-]; auto|].
  destruct (declares_gzip req).
  - destruct (zlib_decompress C (wire_body req)) as [data|];
      [|intros [= _ <- <-]; auto].
    intros [= _ H]. right. apply read_form_ok in H as (items & ? & ?). eauto.
  - intros [= _ H]. right. apply read_form_ok in H as (items & ? & ?). eauto.
Qed.

Lemma extract_payload_fields_are_text req out raw dumps0 :
  extract_payload C req = (out, Ok (raw, dumps0)) -> fields_are_text raw.
Proof.
  intros H.
  assert (H0 : fields_are_text (∅ : gmap string value)).
  { intros k v Hk. rewrite lookup_empty in Hk. discriminate. }
  apply extract_payload_ok in H as [[-> _]|(data & environ & items & _ & H)];
    [exact H0|].
  apply (add_fields_fields_are_text items (∅, ∅) (raw, dumps0) H0 H).
Qed.

Lemma py_int_text v : is_text v -> py_int v <> Raise TypeError.
Proof.
  destruct v as [s|b| | |]; simpl; try contradiction; intros _.
  - destruct (PyStr.parse_int s); discriminate.
  - destruct (PyStr.parse_int_ascii _); discriminate.
Qed.

Lemma saved_throttle_result_text lp tr :
  is_text lp -> is_text tr ->
  (exists r, saved_throttle_result lp tr = Ok r) \/
  saved_throttle_result lp tr = Raise ValueError.
Proof.
  intros Hlp Htr. unfold saved_throttle_result.
  assert (Hint : forall v, is_text v ->
            (exists z, py_int v = Ok z) \/ py_int v = Raise ValueError).
  { intros [s|b| | |]; simpl; try contradiction; intros _.
    - destruct (PyStr.parse_int s); eauto.
    - destruct (PyStr.parse_int_ascii _); eauto. }
  destruct (Hint lp Hlp) as [[z ->]| ->]; [|auto].
  destruct (saved_decision z); [|auto].
  destruct (Hint tr Htr) as [[rate ->]| ->]; [|auto].
  destruct ((0 <=? rate) && (rate <=? 100)); eauto.
Qed.

(** The adapter returns when the two fields it reads with [int()] are
    texts or byte strings, or are not there. *)
Lemma get_throttle_result_on_text clock raw :
  (forall v, raw !! "legacy_processing" = Some v -> is_text v) ->
  (forall v, raw !! "throttle_rate" = Some v -> is_text v) ->
  exists out raw' d rule rate,
    get_throttle_result C (stamped C clock raw) = (out, Ok (raw', (d, rule, rate))).
Proof.
  intros H1 H2. rewrite get_throttle_result_cases. unfold saved_results.
  rewrite !stamped_other by discriminate.
  destruct (throttle_and_save_returns C (stamped C clock raw))
    as (o & d & rule & rate & Hfresh).
  destruct (raw !! "legacy_processing") as [lp|] eqn:Elp; [|rewrite Hfresh; eauto 10].
  destruct (raw !! "throttle_rate") as [tr|] eqn:Etr; [|rewrite Hfresh; eauto 10].
  destruct (saved_throttle_result_text lp tr) as [[[[d0 rule0] rate0] ->]| ->].
  - apply H1. reflexivity.
  - apply H2. reflexivity.
  - eauto 10.
  - rewrite Hfresh. unfold mbind, M_bind, bind, emit. simpl. eauto 10.
Qed.

(** On the raw crash of a form of texts and byte strings the adapter
    returns. *)
Lemma get_throttle_result_of_form clock raw :
  fields_are_text raw ->
  exists out raw' d rule rate,
    get_throttle_result C (stamped C clock raw) = (out, Ok (raw', (d, rule, rate))).
Proof.
  intros H. apply get_throttle_result_on_text; intros v Hv;
    apply (H _ _ Hv); discriminate.
Qed.

End ParsedValues.

Section Answers.

Context (C : Collaborators) (cfg : Config).

(** The adapter leaves every key but its two alone. *)
Lemma get_throttle_result_other_key raw raw' out result (k : string) :
  get_throttle_result C raw = (out, Ok (raw', result)) ->
  k <> "legacy_processing" -> k <> "throttle_rate" ->
  raw' !! k = raw !! k.
Proof.
  destruct result as [[d rule] rate]. intros H H1 H2.
  apply get_throttle_result_ok in H as [(-> & _)|(-> & _)]; [|reflexivity].
  apply with_results_other; assumption.
Qed.

(** The throttle result of a POST, from those of its two steps. *)
Lemma throttle_of_post_returned clock req o1 raw0 dumps0 o2 raw result :
  extract_payload C req = (o1, Ok (raw0, dumps0)) ->
  get_throttle_result C (stamped C clock raw0) = (o2, Ok (raw, result)) ->
  throttle_of_post C clock req =
    (o1 ++ Incr "incoming_crash" :: o2, Ok (raw, dumps0, result)).
Proof.
  intros H Hth.
  unfold throttle_of_post, mbind, M_bind, bind, emit, mret, M_ret, ret.
  rewrite H, Hth. simpl. rewrite app_nil_r. reflexivity.
Qed.

(** The throttle result of a POST whose payload was parsed. *)
Lemma throttle_of_post_parsed clock req o1 raw0 dumps0 :
  extract_payload C req = (o1, Ok (raw0, dumps0)) ->
  exists o2 raw d rule rate,
    get_throttle_result C (stamped C clock raw0) = (o2, Ok (raw, (d, rule, rate))) /\
    throttle_of_post C clock req =
      (o1 ++ Incr "incoming_crash" :: o2, Ok (raw, dumps0, (d, rule, rate))).
Proof.
  intros H.
  destruct (get_throttle_result_of_form C clock raw0
              (extract_payload_fields_are_text C _ _ _ _ H))
    as (o2 & raw & d & rule & rate & Hth).
  exists o2, raw, d, rule, rate. split; [exact Hth|].
  unfold throttle_of_post, mbind, M_bind, bind, emit, mret, M_ret, ret.
  rewrite H, Hth. simpl. rewrite app_nil_r. reflexivity.
Qed.

(** The crash id of a parsed POST is a text the client sent under [uuid]
    or a fresh one. *)
Lemma crash_id_of_parsed clock req o1 raw0 dumps0 o2 raw result :
  extract_payload C req = (o1, Ok (raw0, dumps0)) ->
  get_throttle_result C (stamped C clock raw0) = (o2, Ok (raw, result)) ->
  raw !! "uuid" = raw0 !! "uuid" /\
  forall d, is_text (crash_id_of C clock raw d).
Proof.
  intros Hex Hth.
  assert (E : raw !! "uuid" = raw0 !! "uuid").
  { rewrite (get_throttle_result_other_key _ _ _ _ "uuid" Hth) by discriminate.
    apply stamped_other; discriminate. }
  split; [exact E|]. intros d. unfold crash_id_of. rewrite E.
  destruct (raw0 !! "uuid") as [v|] eqn:Eu; [|exact I].
  apply (extract_payload_fields_are_text C _ _ _ _ Hex _ _ Eu). discriminate.
Qed.

Lemma answer_text crash_id :
  is_text crash_id -> exists id_text, answer cfg crash_id = Ok (crash_id_answer cfg id_text).
Proof.
  unfold answer. destruct crash_id; simpl; try contradiction; eauto.
Qed.

End Answers.

Module ClientUuid.

(** A POST whose form carries a [uuid]. *)
Definition uuid : string := "11111111-2222-3333-4444-555555555555".

Definition collaborators : Collaborators :=
  Sample.collaborators [Sample.text_part "uuid" uuid] Sample.accept_everything.

End ClientUuid.

(** The values [on_post] and the adapter read back from the raw crash of
    the parser, under [legacy_processing], [throttle_rate] and [uuid], are
    texts or byte strings. *)
Definition handler_reads_text (raw_crash : gmap string value) : Prop :=
  forall k v,
    k = "legacy_processing" \/ k = "throttle_rate" \/ k = "uuid" ->
    raw_crash !! k = Some v -> is_text v.

(** When the payload parser returns a raw crash whose [legacy_processing],
    [throttle_rate] and [uuid], where present, are texts or byte strings,
    [on_post] answers: the response is 200 OK, [text/plain], with the body
    [Discarded=1] or [CrashID=], the prefix, a crash id and a newline; the
    adapter, the lookup of [legacy_processing] and the formatting of the
    crash id do not raise.  When the parser raises, [on_post] raises the
    same exception, having emitted the parser's metrics and nothing else,
    and the queue, the pool and the crash storage are untouched. *)
Theorem on_post_answers_or_parser_raised (C : Collaborators) (cfg : Config)
    (clock : Clock) (req : Request) (st : State) :
  match (extract_payload C req).2 with
  | Ok (raw0, _) =>
      handler_reads_text raw0 ->
      exists resp,
        (on_post C cfg clock req st).1 = Ok resp /\
        resp_status resp = "200 OK" /\
        resp_content_type resp = "text/plain" /\
        (resp_body resp = "Discarded=1" \/
         exists id_text,
           resp_body resp =
             "CrashID=" +:+ dump_id_prefix cfg +:+ id_text +:+ String "010" EmptyString)
  | Raise e =>
      on_post C cfg clock req st = (Raise e, emit_all (extract_payload C req).1 st)
  end.
Proof.
  rewrite on_post_spec.
  destruct (extract_payload C req) as [o1 [[raw0 dumps0]|e]] eqn:Hex; simpl.
  - intros Hread.
    destruct (get_throttle_result_on_text C clock raw0)
      as (o2 & raw & d & rule & rate & Hth);
      [intros v Hv; apply (Hread "legacy_processing" v); auto
      |intros v Hv; apply (Hread "throttle_rate" v); auto|].
    pose proof (throttle_of_post_returned C clock req _ _ _ _ _ _ Hex Hth) as E.
    rewrite E. cbv zeta.
    destruct (throttle_of_post_legacy_processing C _ _ _ _ _ _ _ _ E)
      as (lp & -> & _).
    destruct (bool_decide _).
    + exists discarded. simpl. auto.
    + assert (Hid : is_text (crash_id_of C clock raw d)).
      { unfold crash_id_of.
        rewrite (get_throttle_result_other_key C _ _ _ _ "uuid" Hth) by discriminate.
        rewrite stamped_other by discriminate.
        destruct (raw0 !! "uuid") as [v|] eqn:Eu; [|exact I].
        apply (Hread "uuid" v); auto. }
      destruct (answer_text cfg _ Hid) as [id_text Ha].
      simpl. rewrite Ha. eexists. split; [reflexivity|]. simpl. eauto.
  - unfold throttle_of_post, mbind, M_bind, bind. rewrite Hex. reflexivity.
Qed.

Lemma on_post_answers_or_parser_raised_witness :
  exists resp,
    (on_post ClientUuid.collaborators default_config Sample.clock
       (Sample.multipart_request [x61]) init_state).1 = Ok resp /\
    resp_status resp = "200 OK" /\
    resp_content_type resp = "text/plain".
Proof.
  destruct (on_post_answers_or_parser_raised ClientUuid.collaborators default_config
              Sample.clock (Sample.multipart_request [x61]) init_state)
    as (resp & H1 & H2 & H3 & _).
  - intros k v _ Hv.
    destruct (decide (k = "uuid")) as [->|Hk].
    + vm_compute in Hv. injection Hv as <-. exact I.
    + change (({["uuid" := VStr ClientUuid.uuid]} : gmap string value) !! k = Some v) in Hv.
      rewrite lookup_singleton_ne in Hv by congruence. discriminate Hv.
  - exists resp. auto.
Defined.

(** A crash id sent by the client is used as it is: when the parsed form
    holds the text [u] under [uuid] and the decision is not REJECT, the
    body of the answer is [CrashID=], the prefix, [u] and a newline, and the
    report enqueued has [u] as its crash id and under [uuid];
    [create_crash_id] has no part in it. *)
Theorem client_uuid_is_kept (C : Collaborators) (cfg : Config)
    (clock : Clock) (req : Request) (st : State) o1 raw0 dumps0 (u : string) :
  extract_payload C req = (o1, Ok (raw0, dumps0)) ->
  raw0 !! "uuid" = Some (VStr u) ->
  enqueues C clock req = true ->
  (on_post C cfg clock req st).1 = Ok (crash_id_answer cfg u) /\
  exists r,
    save_queue (on_post C cfg clock req st).2 = save_queue st ++ [r] /\
    crash_id r = VStr u /\ raw_crash r !! "uuid" = Some (VStr u) /\ dumps r = dumps0.
Proof.
  intros Hex Hu Henq.
  destruct (throttle_of_post_parsed C clock req _ _ _ Hex)
    as (o2 & raw & d & rule & rate & Hth & E).
  destruct (crash_id_of_parsed C clock req _ _ _ _ _ _ Hex Hth) as [Eu _].
  assert (Hid : crash_id_of C clock raw d = VStr u)
    by (unfold crash_id_of; rewrite Eu, Hu; reflexivity).
  unfold enqueues in Henq. rewrite E in Henq.
  apply negb_true_iff, bool_decide_eq_false in Henq.
  destruct (throttle_of_post_legacy_processing C _ _ _ _ _ _ _ _ E)
    as (lp & Hlp & _ & _ & Hn).
  split.
  - rewrite on_post_spec, E. cbv zeta. rewrite Hlp.
    rewrite bool_decide_eq_false_2 by (apply Hn, Henq).
    simpl. rewrite Hid. reflexivity.
  - exists (report_of C cfg clock raw dumps0 d).
    rewrite on_post_queue, E, bool_decide_eq_false_2 by exact Henq.
    split; [reflexivity|]. simpl. rewrite Hid.
    split; [reflexivity|]. split; [|reflexivity].
    rewrite lookup_insert_ne by discriminate. apply lookup_insert_eq.
Qed.

Lemma client_uuid_is_kept_witness :
  (on_post ClientUuid.collaborators default_config Sample.clock
     (Sample.multipart_request [x61]) init_state).1 =
    Ok (crash_id_answer default_config ClientUuid.uuid).
Proof.
  exact (proj1 (client_uuid_is_kept ClientUuid.collaborators default_config
                  Sample.clock (Sample.multipart_request [x61]) init_state
                  _ _ _ ClientUuid.uuid eq_refl eq_refl eq_refl)).
Defined.

(** ** Dumps and their checksums *)

Section Dumps.

Context (C : Collaborators).

(** Parts named [dump_checksums] might as well not have been sent. *)
Lemma add_fields_without_dump_checksums items acc :
  add_fields C acc (filter (fun it => fs_name it <> "dump_checksums") items) =
    add_fields C acc items.
Proof.
  revert acc. induction items as [|it items IH]; intros acc; [reflexivity|].
  rewrite filter_cons.
  destruct (decide (fs_name it <> "dump_checksums")) as [Hn|Hn].
  - simpl. destruct (add_field C acc it); [apply IH|reflexivity].
  - simpl. rewrite IH. unfold add_field. destruct acc as [raw dumps0].
    rewrite bool_decide_eq_true_2; [reflexivity|].
    destruct (decide (fs_name it = "dump_checksums")); [assumption|contradiction].
Qed.

(** Every dump is the byte value of a part of the form that was taken as a
    dump and is not named [dump_checksums]. *)
Definition dumps_from (items : list fs_item) (dumps0 : gmap string bytes) : Prop :=
  forall n b, dumps0 !! n = Some b ->
    exists it, it ∈ items /\ fs_name it = n /\ fs_value it = FBytes b /\
               is_dump it = true /\ n <> "dump_checksums".

Lemma add_field_dumps_from items acc acc' it :
  dumps_from items acc.2 -> add_field C acc it = Ok acc' ->
  dumps_from (items ++ [it]) acc'.2.
Proof.
  unfold add_field. destruct acc as [raw dumps0]. simpl. intros H.
  assert (Hold : dumps_from (items ++ [it]) dumps0).
  { intros n b Hn. destruct (H n b Hn) as (it0 & Hin & ?).
    exists it0. split; [apply elem_of_app; auto|assumption]. }
  destruct (bool_decide_reflect (fs_name it = "dump_checksums")) as [En|En];
    [intros [= <-]; exact Hold|].
  destruct (is_dump it) eqn:Ed; [|intros [= <-]; exact Hold].
  destruct (fs_value it) as [s|b] eqn:Ev; [discriminate|].
  assert (Hnew : dumps_from (items ++ [it]) (<[fs_name it := b]> dumps0)).
  { intros n b' Hn. destruct (decide (fs_name it = n)) as [<-|Hne].
    - rewrite lookup_insert_eq in Hn. injection Hn as <-.
      exists it. split; [apply elem_of_app; right; apply list_elem_of_singleton;
                         reflexivity|auto].
    - rewrite lookup_insert_ne in Hn by exact Hne. apply Hold, Hn. }
  destruct (raw !! "dump_checksums") as [[| | | |d]|]; try discriminate;
    intros [= <-]; exact Hnew.
Qed.

Lemma add_fields_dumps_from items : forall seen acc acc',
  dumps_from seen acc.2 -> add_fields C acc items = Ok acc' ->
  dumps_from (seen ++ items) acc'.2.
Proof.
  induction items as [|it items IH]; intros seen acc acc' H; simpl.
  - intros [= <-]. rewrite app_nil_r. exact H.
  - destruct (add_field C acc it) as [acc1|e] eqn:E1; [|discriminate].
    intros H2. replace (seen ++ it :: items) with ((seen ++ [it]) ++ items)
      by (rewrite <- app_assoc; reflexivity).
    apply (IH _ acc1); [|exact H2]. eapply add_field_dumps_from; eauto.
Qed.

End Dumps.

(** The checksums of a parsed payload are those of its dumps and of nothing
    else: without dumps the raw crash has no [dump_checksums] entry, and
    with dumps the entry maps exactly the names of the dumps, each to the
    MD5 of its bytes.  What the client sent under the name
    [dump_checksums] plays no part: the walk over the form gives the same
    result with those parts removed. *)
Theorem dump_checksums_are_computed (C : Collaborators) (req : Request)
    out raw dumps0 :
  extract_payload C req = (out, Ok (raw, dumps0)) ->
  match raw !! "dump_checksums" with
  | None => dumps0 = ∅
  | Some v =>
      exists sums,
        v = VDict sums /\ dom sums = dom dumps0 /\
        forall n b, dumps0 !! n = Some b -> sums !! n = Some (md5_hexdigest C b)
  end /\
  forall items acc,
    add_fields C acc (filter (fun it => fs_name it <> "dump_checksums") items) =
      add_fields C acc items.
Proof.
  intros H. split; [|apply add_fields_without_dump_checksums].
  apply extract_payload_checksums in H. unfold checksums_match in H.
  destruct (raw !! "dump_checksums") as [[| | | |sums]|]; try contradiction;
    [|exact H].
  exists sums. split; [reflexivity|]. subst sums.
  split; [apply dom_fmap_L|].
  intros n b Hn. rewrite lookup_fmap, Hn. reflexivity.
Qed.

Lemma dump_checksums_are_computed_witness :
  exists out raw dumps0 sums,
    extract_payload FirstScenario.collaborators FirstScenario.request =
      (out, Ok (raw, dumps0)) /\
    raw !! "dump_checksums" = Some (VDict sums) /\
    sums !! "upload_file_minidump" =
      Some (md5_hexdigest FirstScenario.collaborators FirstScenario.minidump).
Proof.
  pose proof (dump_checksums_are_computed FirstScenario.collaborators
                FirstScenario.request _ _ _ eq_refl) as [H _].
  destruct H as (sums & Hv & _ & Hall).
  eexists _, _, _, sums. split; [reflexivity|]. split.
  - rewrite <- Hv. reflexivity.
  - apply Hall. reflexivity.
Defined.

(** A dump is always the byte value of a part: every entry of the dumps of
    a parsed form comes from a part of that form that carries bytes, was
    taken as a dump by the test of line 251 and is not named
    [dump_checksums].  A part that is declared a dump and carries a text
    makes the walk raise [TypeError], whatever follows it. *)
Theorem dumps_come_from_byte_parts (C : Collaborators) (items : list fs_item) :
  (forall raw dumps0,
     add_fields C (∅, ∅) items = Ok (raw, dumps0) ->
     forall n b, dumps0 !! n = Some b ->
       exists it, it ∈ items /\ fs_name it = n /\ fs_value it = FBytes b /\
                  is_dump it = true /\ n <> "dump_checksums") /\
  (forall before it after acc acc' s,
     items = before ++ it :: after ->
     add_fields C acc before = Ok acc' ->
     fs_name it <> "dump_checksums" ->
     is_dump it = true ->
     fs_value it = FStr s ->
     add_fields C acc items = Raise TypeError).
Proof.
  split.
  - intros raw dumps0 H.
    apply (add_fields_dumps_from C items [] (∅, ∅) (raw, dumps0)); [|exact H].
    intros n b Hn. simpl in Hn. rewrite lookup_empty in Hn. discriminate.
  - intros before it after acc acc' s -> Hb Hn Hd Hv.
    rewrite add_fields_app, Hb. simpl. unfold add_field. destruct acc' as [raw dumps0].
    rewrite bool_decide_eq_false_2 by exact Hn. rewrite Hd, Hv. reflexivity.
Qed.

Lemma dumps_come_from_byte_parts_witness :
  add_fields Sample.accepting (∅, ∅)
    [Sample.text_part "ProductName" "Firefox";
     {| fs_name := "upload_file_minidump";
        fs_type := Some "application/octet-stream";
        fs_value := FStr "abc" |};
     Sample.text_part "Version" "1.0"] = Raise TypeError.
Proof.
  refine (proj2 (dumps_come_from_byte_parts Sample.accepting _)
            [Sample.text_part "ProductName" "Firefox"]
            {| fs_name := "upload_file_minidump";
               fs_type := Some "application/octet-stream";
               fs_value := FStr "abc" |}
            [Sample.text_part "Version" "1.0"] (∅, ∅) _ "abc"
            eq_refl eq_refl _ eq_refl eq_refl).
  simpl. discriminate.
Defined.

(** ** Decisions and their counters *)

(** The adapter answers REJECT only when the throttler does: a result that
    is not the throttler's own was taken from the raw crash, under
    ALREADY_THROTTLED, or from [Throttleable], under THROTTLEABLE_0, and is
    ACCEPT or DEFER with a rate between 0 and 100.  Values of
    [legacy_processing] and [throttle_rate] that the check refuses are
    counted once under [throttle.bad_throttle_values] and the decision is
    made as without the check. *)
Theorem reject_comes_from_the_throttler (C : Collaborators)
    (raw_crash : gmap string value) :
  (forall out raw_crash' d rule rate,
     get_throttle_result C raw_crash = (out, Ok (raw_crash', (d, rule, rate))) ->
     (d, rule, rate) = throttle C raw_crash \/
     (d <> REJECT /\ 0 <= rate <= 100 /\
      (rule = "ALREADY_THROTTLED" \/ rule = "THROTTLEABLE_0"))) /\
  (saved_results raw_crash = Some (Raise ValueError) ->
   get_throttle_result C raw_crash =
     (Incr "throttle.bad_throttle_values" :: (throttle_and_save C raw_crash).1,
      (throttle_and_save C raw_crash).2)).
Proof.
  split.
  - intros out raw' d rule rate H.
    apply get_throttle_result_ok in H
      as [(_ & [[= -> -> ->]|Ht])|(_ & -> & _ & _ & _ & _ & _ & _ & Hd & Hr)].
    + right. split; [discriminate|]. split; [lia|auto].
    + left. exact Ht.
    + right. auto.
  - intros H. rewrite get_throttle_result_cases, H.
    unfold mbind, M_bind, bind, emit.
    destruct (throttle_and_save C raw_crash) as [o r]. reflexivity.
Qed.

Lemma reject_comes_from_the_throttler_witness :
  get_throttle_result Sample.rejecting Sample.throttled_badly =
    ([Incr "throttle.bad_throttle_values"],
     Ok (with_results Sample.throttled_badly REJECT 0, (REJECT, "reject_everything", 0))).
Proof.
  exact (proj2 (reject_comes_from_the_throttler Sample.rejecting Sample.throttled_badly)
           eq_refl).
Defined.

Section Counters.

Context (C : Collaborators) (cfg : Config).

(** The counter of a decision. *)
Definition counter_of (d : ThrottleResult) : string :=
  match d with
  | ACCEPT => "throttle.accept"
  | DEFER => "throttle.defer"
  | REJECT => "throttle.reject"
  end.

Lemma throttle_counter_code d : throttle_counter (VInt (code d)) = [Incr (counter_of d)].
Proof. destruct d; reflexivity. Qed.

Lemma throttle_counter_text v : is_text v -> throttle_counter v = [].
Proof. destruct v; simpl; try contradiction; reflexivity. Qed.

Lemma on_post_mymetrics clock req st out raw dumps0 d rule rate lp :
  throttle_of_post C clock req = (out, Ok (raw, dumps0, (d, rule, rate))) ->
  raw !! "legacy_processing" = Some lp ->
  mymetrics (on_post C cfg clock req st).2 = mymetrics st ++ out ++ throttle_counter lp.
Proof.
  intros E Hlp. rewrite on_post_spec, E. cbv zeta. rewrite Hlp.
  destruct (bool_decide_reflect (lp = VInt (code REJECT))) as [->|Hn]; simpl.
  - reflexivity.
  - destruct (add_to_queue_fields cfg (report_of C cfg clock raw dumps0 d) st)
      as (_ & _ & -> & _).
    reflexivity.
Qed.

End Counters.

(** For a POST whose payload was parsed and for which the adapter returned
    a decision, [on_post] emits the metrics of the parser, [incoming_crash]
    and the metrics of the adapter, and then the one counter of the
    decision, [throttle.accept], [throttle.defer] or [throttle.reject], when
    the decision was made afresh; when it was taken under ALREADY_THROTTLED
    from a [legacy_processing] that is a text or a byte string, as the form
    delivers it, none of the three counters is incremented. *)
Theorem decision_counters (C : Collaborators) (cfg : Config)
    (clock : Clock) (req : Request) (st : State)
    o1 raw0 dumps0 o2 raw d rule rate :
  extract_payload C req = (o1, Ok (raw0, dumps0)) ->
  (forall v, raw0 !! "legacy_processing" = Some v -> is_text v) ->
  get_throttle_result C (stamped C clock raw0) = (o2, Ok (raw, (d, rule, rate))) ->
  mymetrics (on_post C cfg clock req st).2 =
    mymetrics st ++ o1 ++ [Incr "incoming_crash"] ++ o2 ++
      match saved_results (stamped C clock raw0) with
      | Some (Ok _) => []
      | _ => [Incr (counter_of d)]
      end.
Proof.
  intros Hex Htext Hth.
  pose proof (throttle_of_post_returned C clock req _ _ _ _ _ _ Hex Hth) as E.
  assert (Hfresh :
    (throttle_and_save C (stamped C clock raw0)).2 = Ok (raw, (d, rule, rate)) ->
    raw !! "legacy_processing" = Some (VInt (code d))).
  { destruct (throttle_and_save_returns C (stamped C clock raw0))
      as (o' & d' & rule' & rate' & ->).
    simpl. intros [= <- <- _ _]. apply with_results_lookup. }
  assert (Hlp : exists lp,
    raw !! "legacy_processing" = Some lp /\
    throttle_counter lp =
      match saved_results (stamped C clock raw0) with
      | Some (Ok _) => []
      | _ => [Incr (counter_of d)]
      end).
  { rewrite get_throttle_result_cases in Hth. unfold saved_results in *.
    rewrite !stamped_other in * by discriminate.
    destruct (raw0 !! "legacy_processing") as [lp|] eqn:Elp;
      [destruct (raw0 !! "throttle_rate") as [tr|] eqn:Etr|].
    - destruct (saved_throttle_result lp tr) as [r|e] eqn:Es.
      + injection Hth as _ <- _. exists lp.
        rewrite stamped_other by discriminate. split; [exact Elp|].
        apply throttle_counter_text, Htext. reflexivity.
      + destruct e; try discriminate.
        unfold mbind, M_bind, bind, emit in Hth.
        destruct (throttle_and_save C (stamped C clock raw0)) as [o r] eqn:Et.
        simpl in Hth, Hfresh. injection Hth as _ ->.
        eexists. split; [apply Hfresh; reflexivity|apply throttle_counter_code].
    - eexists. split; [apply Hfresh; rewrite Hth; reflexivity
                      |apply throttle_counter_code].
    - eexists. split; [apply Hfresh; rewrite Hth; reflexivity
                      |apply throttle_counter_code]. }
  destruct Hlp as (lp & Hlp & <-).
  rewrite (on_post_mymetrics C cfg clock req st _ _ _ _ _ _ lp E Hlp).
  rewrite <- !app_assoc. reflexivity.
Qed.

Lemma decision_counters_witness :
  mymetrics (on_post Resubmitted.collaborators default_config Sample.clock
               Resubmitted.request init_state).2 =
    [] ++ [Histogram "crash_size.uncompressed" 1] ++ [Incr "incoming_crash"] ++
      [] ++ [] /\
  mymetrics (on_post FirstScenario.collaborators default_config Sample.clock
               FirstScenario.request init_state).2 =
    [] ++ [Histogram "crash_size.uncompressed" 1] ++ [Incr "incoming_crash"] ++
      [] ++ [Incr "throttle.accept"].
Proof.
  split.
  - refine (decision_counters Resubmitted.collaborators default_config Sample.clock
              Resubmitted.request init_state
              [Histogram "crash_size.uncompressed" 1] Sample.throttled_before ∅
              [] _ ACCEPT "ALREADY_THROTTLED" 100 eq_refl _ eq_refl).
    intros v Hv. vm_compute in Hv. injection Hv as <-. exact I.
  - refine (decision_counters FirstScenario.collaborators default_config Sample.clock
              FirstScenario.request init_state
              [Histogram "crash_size.uncompressed" 1] _ _
              [] _ ACCEPT "accept_everything" 100 eq_refl _ eq_refl).
    intros v Hv. vm_compute in Hv. discriminate Hv.
Defined.

(** ** What [on_post] writes into the raw crash *)

(** The entries [on_post] writes win over what the form carried: the report
    of an enqueuing POST holds the type tag of the configuration, the two
    timestamps of the clock and its crash id, whatever the client sent
    under those names; every entry of the form under another name, the
    throttle results apart, is in the report as the parser returned it, and
    so are the dumps. *)
Theorem reserved_entries_are_overwritten (C : Collaborators) (cfg : Config)
    (clock : Clock) (req : Request) (st : State) o1 raw0 dumps0 :
  extract_payload C req = (o1, Ok (raw0, dumps0)) ->
  enqueues C clock req = true ->
  exists r,
    save_queue (on_post C cfg clock req st).2 = save_queue st ++ [r] /\
    dumps r = dumps0 /\
    raw_crash r !! "type_tag" = Some (VStr (PyStr.strip_char "-" (dump_id_prefix cfg))) /\
    raw_crash r !! "timestamp" = Some (VFloat (time_time clock)) /\
    raw_crash r !! "submitted_timestamp" = Some (VStr (isoformat C (utc_now clock))) /\
    raw_crash r !! "uuid" = Some (crash_id r) /\
    forall k : string,
      k <> "type_tag" -> k <> "timestamp" -> k <> "submitted_timestamp" ->
      k <> "uuid" -> k <> "legacy_processing" -> k <> "throttle_rate" ->
      raw_crash r !! k = raw0 !! k.
Proof.
  intros Hex Henq.
  destruct (throttle_of_post_parsed C clock req _ _ _ Hex)
    as (o2 & raw & d & rule & rate & Hth & E).
  unfold enqueues in Henq. rewrite E in Henq.
  apply negb_true_iff, bool_decide_eq_false in Henq.
  exists (report_of C cfg clock raw dumps0 d).
  rewrite on_post_queue, E, bool_decide_eq_false_2 by exact Henq.
  split; [reflexivity|]. split; [reflexivity|]. simpl.
  assert (Hkeep : forall k : string,
    k <> "legacy_processing" -> k <> "throttle_rate" ->
    raw !! k = stamped C clock raw0 !! k).
  { intros k H1 H2. apply (get_throttle_result_other_key C _ _ _ _ k Hth H1 H2). }
  split; [apply lookup_insert_eq|].
  split; [rewrite !lookup_insert_ne, Hkeep by discriminate; apply lookup_insert_eq|].
  split.
  { rewrite !lookup_insert_ne, Hkeep by discriminate. unfold stamped.
    rewrite lookup_insert_ne by discriminate. apply lookup_insert_eq. }
  split; [rewrite lookup_insert_ne by discriminate; apply lookup_insert_eq|].
  intros k H1 H2 H3 H4 H5 H6.
  rewrite !lookup_insert_ne, Hkeep by congruence.
  apply stamped_other; assumption.
Qed.

Module Overwritten.

(** A form that carries entries under names the handler writes itself. *)
Definition collaborators : Collaborators :=
  Sample.collaborators
    [Sample.text_part "type_tag" "xx"; Sample.text_part "timestamp" "yesterday";
     Sample.text_part "ProductName" "Firefox"]
    Sample.accept_everything.

End Overwritten.

Lemma reserved_entries_are_overwritten_witness :
  exists r,
    save_queue (on_post Overwritten.collaborators default_config Sample.clock
                  (Sample.multipart_request [x61]) init_state).2 = [] ++ [r] /\
    raw_crash r !! "type_tag" = Some (VStr "bp") /\
    raw_crash r !! "timestamp" = Some (VFloat 1315267200000000).
Proof.
  destruct (reserved_entries_are_overwritten Overwritten.collaborators default_config
              Sample.clock (Sample.multipart_request [x61]) init_state _ _ _
              eq_refl eq_refl)
    as (r & Hq & _ & Ht & Hs & _).
  exists r. split; [exact Hq|]. split; [exact Ht | exact Hs].
Defined.

(** ** The content type check *)

Lemma partition_Some sep s a b :
  PyStr.partition sep s = Some (a, b) ->
  s = a +:+ String sep b /\ PyStr.partition sep a = None.
Proof.
  revert a. induction s as [|c s IH]; intros a; simpl; [discriminate|].
  destruct (Ascii.eqb_spec c sep) as [->|Hc].
  - intros [= <- <-]. split; reflexivity.
  - destruct (PyStr.partition sep s) as [[a' b']|]; [|discriminate].
    intros [= <- <-]. destruct (IH a' eq_refl) as [-> Hn].
    split; [reflexivity|]. simpl.
    destruct (Ascii.eqb_spec c sep); [contradiction|]. rewrite Hn. reflexivity.
Qed.

Lemma partition_app sep a b :
  PyStr.partition sep a = None ->
  PyStr.partition sep (a +:+ String sep b) = Some (a, b).
Proof.
  induction a as [|c a IH]; simpl.
  - intros _. rewrite Ascii.eqb_refl. reflexivity.
  - destruct (Ascii.eqb c sep); [discriminate|].
    destruct (PyStr.partition sep a) as [[? ?]|]; [discriminate|].
    intros _. rewrite IH by reflexivity. reflexivity.
Qed.

(** The content types [extract_payload] goes on with are exactly those made
    of a first part without a semicolon that is [multipart/form-data] once
    stripped of surrounding white space, a semicolon, and a rest that starts
    with [boundary=] once stripped; later semicolons belong to the rest. *)
Theorem content_type_accepted (ct : string) :
  wrong_content_type ct = false <->
  exists a b,
    ct = a +:+ String ";" b /\
    PyStr.partition ";" a = None /\
    PyStr.strip a = "multipart/form-data" /\
    PyStr.startswith (PyStr.strip b) "boundary=" = true.
Proof.
  unfold wrong_content_type, PyStr.split1. split.
  - destruct (PyStr.partition ";" ct) as [[a b]|] eqn:E; [|discriminate].
    apply partition_Some in E as [-> Hn]. simpl.
    destruct (bool_decide_reflect
                (Some (PyStr.strip a) = Some "multipart/form-data")) as [[= Ha]|];
      [|discriminate].
    simpl. intros Hb. apply negb_false_iff in Hb. eauto 10.
  - intros (a & b & -> & Hn & Ha & Hb).
    rewrite (partition_app ";" a b Hn). simpl. rewrite Ha, Hb. reflexivity.
Qed.

Lemma content_type_accepted_witness :
  wrong_content_type "multipart/form-data ; boundary=xYzZY; charset=utf-8" = false.
Proof.
  apply (proj2 (content_type_accepted
                  "multipart/form-data ; boundary=xYzZY; charset=utf-8")).
  exists "multipart/form-data ", " boundary=xYzZY; charset=utf-8".
  repeat split; reflexivity.
Defined.
